(** * DataGuard: masking of demographic records

    A shallow embedding of [DataMasker.py], [DemographicsMasking.py] and
    [DemographicsGenerator.py].

    Python values are modelled as follows.
    - A [str] is a Stdlib [string]; each character stands for the code point
      of the same number, so the strings covered are those of code points
      below 256.
    - A [dict] with string keys is a [gmap string string]; an input
      record, which may hold [None] as the rows of [csv.DictReader] do,
      is a [row_dict].
    - An exception is a class, a message and an optional cause.
    - The Faker instance [fake] is a record of generators over an abstract
      randomness state; any of them may raise.
    - [dateutil.parser.parse] is a parameter of the development.
    - [datetime] is modelled after the proleptic Gregorian calendar of the
      standard library, with its range of years 1..9999.
    - A file that is written is the list of rows handed to the csv writer;
      making a directory and opening a file are parameters that may raise.
    - A [float] is a binary64 number of [SpecFloat]; the readings of the
      clock are parameters. *)

From Stdlib Require SpecFloat.
From Stdlib Require Import ZArith Lia Ascii String DecimalString.
From stdpp Require Import gmap strings list.

Open Scope Z_scope.

#[local] Set Warnings "-clear-no-such-hyp".

(** ** Python strings *)

Module PyStr.

Definition code (c : ascii) : Z := Z.of_N (Ascii.N_of_ascii c).

Definition between (lo hi n : Z) : bool := (lo <=? n) && (n <=? hi).

(** [str.isspace] on one character (code points below 256). *)
Definition is_space (c : ascii) : bool :=
  let n := code c in
  between 9 13 n || between 28 32 n || (n =? 133) || (n =? 160).

(** Line boundaries of [str.splitlines] (code points below 256). *)
Definition is_linebreak (c : ascii) : bool :=
  let n := code c in
  between 10 13 n || between 28 30 n || (n =? 133).

Definition lower_char (c : ascii) : ascii :=
  let n := code c in
  if between 65 90 n || (between 192 222 n && negb (n =? 215))
  then Ascii.ascii_of_N (Z.to_N (n + 32))
  else c.

(** [s.lower()] *)
Fixpoint lower (s : string) : string :=
  match s with
  | EmptyString => EmptyString
  | String c s' => String (lower_char c) (lower s')
  end.

(** Truth value of a string: [bool(s)]. *)
Definition truthy (s : string) : bool :=
  match s with
  | EmptyString => false
  | String _ _ => true
  end.

(** [c in s] for a one-character [c]. *)
Fixpoint contains (c : ascii) (s : string) : bool :=
  match s with
  | EmptyString => false
  | String c' s' => if decide (c' = c) then true else contains c s'
  end.

Definition snoc (s : string) (c : ascii) : string := s +:+ String c EmptyString.

(** [s.split(sep)] for a one-character separator; [cur] is the part being
    read. *)
Fixpoint split_on_go (sep : ascii) (cur s : string) : list string :=
  match s with
  | EmptyString => [cur]
  | String c s' =>
      if decide (c = sep) then cur :: split_on_go sep EmptyString s'
      else split_on_go sep (snoc cur c) s'
  end.

Definition split_on (sep : ascii) (s : string) : list string :=
  split_on_go sep EmptyString s.

(** [s.split()]: maximal runs of characters that are not whitespace. *)
Fixpoint split_go (cur s : string) : list string :=
  match s with
  | EmptyString => if truthy cur then [cur] else []
  | String c s' =>
      if is_space c
      then (if truthy cur then cur :: split_go EmptyString s'
            else split_go EmptyString s')
      else split_go (snoc cur c) s'
  end.

Definition split (s : string) : list string := split_go EmptyString s.

Fixpoint lstrip (s : string) : string :=
  match s with
  | EmptyString => EmptyString
  | String c s' => if is_space c then lstrip s' else s
  end.

Definition rstrip (s : string) : string :=
  String.rev (lstrip (String.rev s)).

(** [s.strip()] *)
Definition strip (s : string) : string := rstrip (lstrip s).

(** [s.splitlines()]: a carriage return followed by a line feed is one
    boundary; a trailing boundary opens no last empty line. *)
Fixpoint splitlines_go (cur s : string) : list string :=
  match s with
  | EmptyString => if truthy cur then [cur] else []
  | String c s' =>
      if is_linebreak c then
        cur ::
          match s' with
          | String c2 s'' =>
              if (code c =? 13) && (code c2 =? 10)
              then splitlines_go EmptyString s''
              else splitlines_go EmptyString s'
          | EmptyString => splitlines_go EmptyString s'
          end
      else splitlines_go (snoc cur c) s'
  end.

Definition splitlines (s : string) : list string :=
  splitlines_go EmptyString s.

Definition digit (n : Z) : ascii := Ascii.ascii_of_N (Z.to_N (48 + n mod 10)).

(** [%02d] of a number. *)
Definition pad2 (n : Z) : string :=
  String (digit (n / 10)) (String (digit n) EmptyString).

(** [str(n)] of an integer. *)
Definition of_Z (n : Z) : string := NilZero.string_of_int (Z.to_int n).

End PyStr.

(** ** Exceptions and outcomes *)

Inductive exn_class :=
| Exception
| ValueError
| ParserError
| TypeError
| OverflowError
| KeyError
| IndexError
| OSError
| FileNotFoundError
| ZeroDivisionError
| AttributeError.

(** The parent of a class in Python's hierarchy ([IOError] is [OSError];
    [dateutil]'s [ParserError] derives from [ValueError]; the arithmetic
    and lookup bases are folded into [Exception]). *)
Definition parent (c : exn_class) : option exn_class :=
  match c with
  | Exception => None
  | ParserError => Some ValueError
  | FileNotFoundError => Some OSError
  | _ => Some Exception
  end.

Global Instance exn_class_eq_dec : EqDecision exn_class.
Proof. solve_decision. Defined.

(** [issubclass c base] *)
Definition issubclass (c base : exn_class) : bool :=
  bool_decide (c = base)
  || match parent c with
     | Some p =>
         bool_decide (p = base)
         || match parent p with
            | Some q => bool_decide (q = base)
            | None => false
            end
     | None => false
     end.

(** An exception value; [ExnFrom] is one raised [from] a cause. *)
Inductive exn :=
| Exn (cls : exn_class) (msg : string)
| ExnFrom (cls : exn_class) (msg : string) (cause : exn).

Definition exn_cls (e : exn) : exn_class :=
  match e with Exn c _ | ExnFrom c _ _ => c end.
Definition exn_msg (e : exn) : string :=
  match e with Exn _ m | ExnFrom _ m _ => m end.
Definition exn_cause (e : exn) : option exn :=
  match e with Exn _ _ => None | ExnFrom _ _ c => Some c end.

(** [isinstance(e, (ValueError, TypeError))] *)
Definition is_value_or_type_error (e : exn) : bool :=
  issubclass (exn_cls e) ValueError || issubclass (exn_cls e) TypeError.

Inductive result (A : Type) :=
| Ok (a : A)
| Raise (e : exn).
Arguments Ok {A} a.
Arguments Raise {A} e.

(** ** Dates

    The calendar helpers of the standard library's [datetime] module, a
    [datetime] value, and the sum of a [datetime] and a [timedelta] of whole
    days. *)

Module DateTime.

Definition MAXORDINAL : Z := 3652059.

Definition DAYS_IN_MONTH (month : Z) : Z :=
  match month with
  | 1 => 31 | 2 => 28 | 3 => 31 | 4 => 30 | 5 => 31 | 6 => 30
  | 7 => 31 | 8 => 31 | 9 => 30 | 10 => 31 | 11 => 30 | 12 => 31
  | _ => -1
  end.

Definition DAYS_BEFORE_MONTH (month : Z) : Z :=
  match month with
  | 1 => 0 | 2 => 31 | 3 => 59 | 4 => 90 | 5 => 120 | 6 => 151
  | 7 => 181 | 8 => 212 | 9 => 243 | 10 => 273 | 11 => 304 | 12 => 334
  | _ => -1
  end.

Definition is_leap (year : Z) : bool :=
  (year mod 4 =? 0) && (negb (year mod 100 =? 0) || (year mod 400 =? 0)).

Definition days_before_year (year : Z) : Z :=
  let y := year - 1 in
  y * 365 + y / 4 - y / 100 + y / 400.

Definition days_in_month (year month : Z) : Z :=
  if (month =? 2) && is_leap year then 29 else DAYS_IN_MONTH month.

Definition days_before_month (year month : Z) : Z :=
  DAYS_BEFORE_MONTH month + (if (2 <? month) && is_leap year then 1 else 0).

Definition ymd2ord (year month day : Z) : Z :=
  days_before_year year + days_before_month year month + day.

Definition DI400Y : Z := 146097.
Definition DI100Y : Z := 36524.
Definition DI4Y : Z := 1461.

Definition ord2ymd (n : Z) : Z * Z * Z :=
  let n := n - 1 in
  let n400 := n / DI400Y in
  let n := n mod DI400Y in
  let year := n400 * 400 + 1 in
  let n100 := n / DI100Y in
  let n := n mod DI100Y in
  let n4 := n / DI4Y in
  let n := n mod DI4Y in
  let n1 := n / 365 in
  let n := n mod 365 in
  let year := year + n100 * 100 + n4 * 4 + n1 in
  if (n1 =? 4) || (n100 =? 4) then (year - 1, 12, 31)
  else
    let leapyear := (n1 =? 3) && (negb (n4 =? 24) || (n100 =? 3)) in
    let month := Z.shiftr (n + 50) 5 in
    let preceding :=
      DAYS_BEFORE_MONTH month + (if (2 <? month) && leapyear then 1 else 0) in
    if n <? preceding then
      let month := month - 1 in
      let preceding :=
        preceding
        - (DAYS_IN_MONTH month + (if (month =? 2) && leapyear then 1 else 0)) in
      (year, month, n - preceding + 1)
    else (year, month, n - preceding + 1).

(** A [datetime]; [tzinfo] is [None] for a naive value and a fixed offset
    otherwise. *)
Record datetime := mk_datetime {
  year : Z;
  month : Z;
  day : Z;
  hour : Z;
  minute : Z;
  second : Z;
  microsecond : Z;
  tzinfo : option Z
}.

Definition valid (dt : datetime) : Prop :=
  1 <= year dt <= 9999 /\ 1 <= month dt <= 12
  /\ 1 <= day dt <= days_in_month (year dt) (month dt).

Definition toordinal (dt : datetime) : Z :=
  ymd2ord (year dt) (month dt) (day dt).

(** [timedelta(days=days)] accepts a magnitude of at most 999999999. *)
Definition timedelta_days (days : Z) : result Z :=
  if Z.abs days <=? 999999999 then Ok days
  else Raise (Exn OverflowError
                ("days=" +:+ PyStr.of_Z days
                 +:+ "; must have magnitude <= 999999999")).

(** [dt + timedelta(days=delta)]: the day number moves, the time of day
    and the time zone stay. *)
Definition add (dt : datetime) (delta : Z) : result datetime :=
  let n := toordinal dt + delta in
  if (0 <? n) && (n <=? MAXORDINAL) then
    let '(y, m, d) := ord2ymd n in
    Ok (mk_datetime y m d (hour dt) (minute dt) (second dt)
          (microsecond dt) (tzinfo dt))
  else Raise (Exn OverflowError "date value out of range").

(** [dt.strftime('%m-%d-%Y')]: month and day in two digits; the year as
    the C library of the platform prints it, which on Linux (glibc) is
    without padding, so that the year 990 gives [01-11-990]. *)
Definition strftime_mdY (dt : datetime) : string :=
  PyStr.pad2 (month dt) +:+ "-" +:+ PyStr.pad2 (day dt) +:+ "-"
  +:+ PyStr.of_Z (year dt).

End DateTime.

(** Arguments a caller may hand to [add_days]. *)
Inductive pyvalue :=
| PyDatetime (dt : DateTime.datetime)
| PyStr (s : string)
| PyDate (year month day : Z)
| PyInt (n : Z)
| PyNone.

(** ** Input records

    A record handed to the masker is a dict as the caller has it.  The
    rows of [csv.DictReader] that [main] passes hold, under a column
    name, a string, or [None] where the row was too short for the
    column, and under the key [None] the list of the surplus cells of a
    row that was too long.  A [Dict[str, str]] is a record without
    [None]s. *)

Record row_dict := RowDict {
  columns : gmap string (option string);
  surplus : option (list string)
}.

(** The record of a dict of strings. *)
Definition str_dict (d : gmap string string) : row_dict :=
  RowDict (Some <$> d) None.

(** [key in d] *)
Definition row_contains (d : row_dict) (key : string) : bool :=
  bool_decide (is_Some (columns d !! key)).

(** [d[key]] *)
Definition row_getitem (d : row_dict) (key : string) : result (option string) :=
  match columns d !! key with
  | Some v => Ok v
  | None => Raise (Exn KeyError ("'" +:+ key +:+ "'"))
  end.

(** [d.get(key, default)] *)
Definition row_get (d : row_dict) (key default : string) : option string :=
  match columns d !! key with
  | Some v => v
  | None => Some default
  end.

(** The truth value of a string or [None]. *)
Definition value_truthy (v : option string) : bool :=
  match v with
  | Some s => PyStr.truthy s
  | None => false
  end.

(** [v.strip()] *)
Definition value_strip (v : option string) : result string :=
  match v with
  | Some s => Ok (PyStr.strip s)
  | None => Raise (Exn AttributeError "'NoneType' object has no attribute 'strip'")
  end.

(** [f"{v}"] *)
Definition value_format (v : option string) : string :=
  match v with
  | Some s => s
  | None => "None"
  end.

(** [parse(v)] for a string or [None]: [dateutil] refuses what is neither
    a string nor a stream. *)
Definition parse_value (parse : string -> result DateTime.datetime)
    (v : option string) : result DateTime.datetime :=
  match v with
  | Some s => parse s
  | None =>
      Raise (Exn TypeError "Parser must be a string or character stream, not NoneType")
  end.

(** ** Stateful computations

    A computation reads and writes the mutable objects in scope ([L]) and
    the randomness state of the provider ([R]); it returns or raises, and
    emits log records.  State changes made before an exception stay. *)

Inductive level := DEBUG | INFO | WARNING | ERROR.

(** One constructor per logging call of the source; the arguments are the
    values interpolated into the message. *)
Inductive message :=
| MsgInvalidBirthDate (raw : string) (e : exn)
| MsgErrorMasking (e : exn)
| MsgInputRecord (input_record : row_dict)
| MsgMaskingStart (n : nat) (date_shift_days : Z)
| MsgProgress (i : nat)
| MsgFailedRecord (i : nat) (e : exn)
| MsgMaskedTotal (n : nat)
| MsgSkippedTotal (errors : nat)
| MsgColumns (fieldnames : list string)
| MsgSkipEmptyRow (row_num : nat)
| MsgLoaded (n : nat) (filename : string)
| MsgReadError (filename : string) (e : exn)
| MsgErrorGenerating (e : exn)
| MsgGenerating (records : Z)
| MsgGeneratedProgress (i : nat)
| MsgGeneratedTotal (records : Z)
| MsgMaskedSaved (output_path : string)
| MsgDataSaved (output_path : string)
| MsgSaveError (filename : string) (e : exn)
| MsgGenerationStart
| MsgRecordsToGenerate (records : pyvalue)
| MsgOutputFile (output_file : string)
| MsgGenerationCompleted
| MsgExecutionTime (elapsed : SpecFloat.spec_float)
| MsgRecordsPerSecond (rate : SpecFloat.spec_float)
| MsgGenerationFailed (e : exn).

Definition event : Type := level * message.

Record outcome (R L A : Type) := Outcome {
  value : result A;
  store : L;
  rng : R;
  logs : list event
}.
Arguments Outcome {R L A} value store rng logs.
Arguments value {R L A} o.
Arguments store {R L A} o.
Arguments rng {R L A} o.
Arguments logs {R L A} o.

Definition ST (R L A : Type) : Type := L -> R -> outcome R L A.

Section Monad.
Context {R : Type}.

Definition ret {L A} (a : A) : ST R L A :=
  fun l r => Outcome (Ok a) l r [].

Definition raise {L A} (e : exn) : ST R L A :=
  fun l r => Outcome (Raise e) l r [].

Definition bind {L A B} (m : ST R L A) (k : A -> ST R L B) : ST R L B :=
  fun l r =>
    let o := m l r in
    match value o with
    | Ok a =>
        let o' := k a (store o) (rng o) in
        Outcome (value o') (store o') (rng o') (logs o ++ logs o')
    | Raise e => Outcome (Raise e) (store o) (rng o) (logs o)
    end.

(** [try: body / except <classes> as e: handler e]; [catches] decides
    whether the clause matches the exception. *)
Definition try_except {L A} (body : ST R L A) (catches : exn -> bool)
    (handler : exn -> ST R L A) : ST R L A :=
  fun l r =>
    let o := body l r in
    match value o with
    | Ok _ => o
    | Raise e =>
        if catches e then
          let o' := handler e (store o) (rng o) in
          Outcome (value o') (store o') (rng o') (logs o ++ logs o')
        else o
    end.

(** [except Exception] *)
Definition any_exception (e : exn) : bool := issubclass (exn_cls e) Exception.

Definition lift {L A} (x : result A) : ST R L A :=
  fun l r => Outcome x l r [].

(** A call of a provider method. *)
Definition call {L} (method : R -> result string * R) : ST R L string :=
  fun l r => let '(v, r') := method r in Outcome v l r' [].

(** [logger.<level>(message)] *)
Definition log {L} (lvl : level) (msg : message) : ST R L unit :=
  fun l r => Outcome (Ok tt) l r [(lvl, msg)].

(** A dict bound to a local name for the extent of [body]. *)
Definition with_local {L D A} (init : D) (body : ST R (D * L) A) : ST R L A :=
  fun l r =>
    let o := body (init, l) r in
    Outcome (value o) (snd (store o)) (rng o) (logs o).

Definition get_local {L D} : ST R (D * L) D :=
  fun l r => Outcome (Ok (fst l)) l r [].

(** [d[key] = v] on the local dict. *)
Definition setitem {L} (key v : string) : ST R (gmap string string * L) unit :=
  fun l r => Outcome (Ok tt) (<[key := v]> (fst l), snd l) r [].

End Monad.

Declare Scope st_scope.
Delimit Scope st_scope with st.
Notation "'let*' x ':=' m 'in' k" := (bind m (fun x => k))
  (at level 10, x name, m at level 100, k at level 200) : st_scope.
Notation "m '>>' k" := (bind m (fun _ => k))
  (at level 100, k at level 200, right associativity) : st_scope.

(** [d[key]] *)
Definition dict_getitem (d : gmap string string) (key : string) : result string :=
  match d !! key with
  | Some v => Ok v
  | None => Raise (Exn KeyError ("'" +:+ key +:+ "'"))
  end.

(** [d.get(key, default)] *)
Definition dict_get (d : gmap string string) (key default : string) : string :=
  match d !! key with
  | Some v => v
  | None => default
  end.

(** [key in d] *)
Definition dict_contains (d : gmap string string) (key : string) : bool :=
  bool_decide (is_Some (d !! key)).

(** [l[i]] *)
Definition list_getitem (l : list string) (i : nat) : result string :=
  match l !! i with
  | Some v => Ok v
  | None => Raise (Exn IndexError "list index out of range")
  end.

(** ** The fake-data provider *)

Record Faker (R : Type) := {
  fake_ssn : R -> result string * R;
  fake_address : R -> result string * R;
  fake_street_address : R -> result string * R;
  fake_city : R -> result string * R;
  fake_state_abbr : R -> result string * R;
  fake_postcode : R -> result string * R;
  fake_first_name : R -> result string * R;
  fake_first_name_male : R -> result string * R;
  fake_first_name_female : R -> result string * R;
  fake_last_name : R -> result string * R;
  fake_email : R -> result string * R;
  fake_phone_number : R -> result string * R;
  fake_user_name : R -> result string * R;
  fake_domain_name : R -> result string * R;
  fake_numerify : string -> R -> result string * R
}.
Arguments fake_ssn {R} f _.
Arguments fake_address {R} f _.
Arguments fake_street_address {R} f _.
Arguments fake_city {R} f _.
Arguments fake_state_abbr {R} f _.
Arguments fake_postcode {R} f _.
Arguments fake_first_name {R} f _.
Arguments fake_first_name_male {R} f _.
Arguments fake_first_name_female {R} f _.
Arguments fake_last_name {R} f _.
Arguments fake_email {R} f _.
Arguments fake_phone_number {R} f _.
Arguments fake_user_name {R} f _.
Arguments fake_domain_name {R} f _.
Arguments fake_numerify {R} f _ _.

(** ** DataMasker.py *)

Section DataMasker.
Context {R : Type} (fake : Faker R).
Context (parse : string -> result DateTime.datetime).

Local Open Scope st_scope.

Definition generateSSN {L} : ST R L string := call (fake_ssn fake).

(** [add_days(startdate, days)] *)
Definition add_days (startdate : pyvalue) (days : Z) : result DateTime.datetime :=
  let startdate' :=
    match startdate with
    | PyStr s =>
        match parse s with
        | Ok dt => Ok (PyDatetime dt)
        | Raise e =>
            if is_value_or_type_error e
            then Raise (ExnFrom ValueError ("Invalid date format: " +:+ s) e)
            else Raise e
        end
    | v => Ok v
    end in
  match startdate' with
  | Raise e => Raise e
  | Ok (PyDatetime dt) =>
      match DateTime.timedelta_days days with
      | Ok delta => DateTime.add dt delta
      | Raise e => Raise e
      end
  | Ok _ => Raise (Exn TypeError "startdate must be a datetime object or date string")
  end.

(** The four assignments of lines 119-122, repeated at lines 141-144. *)
Definition independent_fields {L} : ST R (gmap string string * L) unit :=
  let* v := call (fake_street_address fake) in
  setitem "address" v >>
  let* v := call (fake_city fake) in
  setitem "city" v >>
  let* v := call (fake_state_abbr fake) in
  setitem "state" v >>
  let* v := call (fake_postcode fake) in
  setitem "postalCode" v.

Definition generateAddress {L} : ST R L (gmap string string) :=
  with_local (∅ : gmap string string)
    (try_except
       (let* fullAddress := call (fake_address fake) in
        let addressParts := PyStr.splitlines fullAddress in
        if (length addressParts <? 2)%nat then independent_fields
        else
          let* line1 := lift (list_getitem addressParts 0) in
          setitem "address" line1 >>
          let* line2 := lift (list_getitem addressParts 1) in
          if PyStr.contains "," line2 then
            let cityStateZip := PyStr.split_on "," line2 in
            let* part1 := lift (list_getitem cityStateZip 1) in
            let stateZip := PyStr.split (PyStr.strip part1) in
            let* part0 := lift (list_getitem cityStateZip 0) in
            setitem "city" (PyStr.strip part0) >>
            let* v := (if (0 <? length stateZip)%nat
                       then lift (list_getitem stateZip 0)
                       else call (fake_state_abbr fake)) in
            setitem "state" v >>
            let* v := (if (1 <? length stateZip)%nat
                       then lift (list_getitem stateZip 1)
                       else call (fake_postcode fake)) in
            setitem "postalCode" v
          else
            let cityStateZip := PyStr.split line2 in
            let* v := (if (0 <? length cityStateZip)%nat
                       then lift (list_getitem cityStateZip 0)
                       else call (fake_city fake)) in
            setitem "city" v >>
            let* v := (if (1 <? length cityStateZip)%nat
                       then lift (list_getitem cityStateZip 1)
                       else call (fake_state_abbr fake)) in
            setitem "state" v >>
            let* v := (if (2 <? length cityStateZip)%nat
                       then lift (list_getitem cityStateZip 2)
                       else call (fake_postcode fake)) in
            setitem "postalCode" v)
       any_exception
       (fun _ => independent_fields)
     >> get_local).

(** The generator of the first name that the hint selects in the [try]
    block of [generateName]. *)
Definition first_name_for (gender : option string) : R -> result string * R :=
  match gender with
  | None => fake_first_name fake
  | Some g =>
      if String.eqb (PyStr.lower g) "male" then fake_first_name_male fake
      else if String.eqb (PyStr.lower g) "female" then fake_first_name_female fake
      else fake_first_name fake
  end.

Definition generateName {L} (gender : option string) : ST R L (gmap string string) :=
  with_local (∅ : gmap string string)
    (try_except
       ((match gender with
         | None =>
             let* v := call (fake_first_name fake) in setitem "firstName" v
         | Some g =>
             if String.eqb (PyStr.lower g) "male" then
               let* v := call (fake_first_name_male fake) in setitem "firstName" v
             else if String.eqb (PyStr.lower g) "female" then
               let* v := call (fake_first_name_female fake) in setitem "firstName" v
             else
               let* v := call (fake_first_name fake) in setitem "firstName" v
         end) >>
        let* v := call (fake_last_name fake) in
        setitem "lastName" v)
       any_exception
       (fun _ =>
          let* v := call (fake_first_name fake) in
          setitem "firstName" v >>
          let* v := call (fake_last_name fake) in
          setitem "lastName" v)
     >> get_local).

Definition generateContact {L} : ST R L (gmap string string) :=
  with_local (∅ : gmap string string)
    (try_except
       (let* v := call (fake_email fake) in
        setitem "email" v >>
        let* v := call (fake_phone_number fake) in
        setitem "phone" v)
       any_exception
       (fun _ =>
          let* user := call (fake_user_name fake) in
          let* domain := call (fake_domain_name fake) in
          setitem "email" (user +:+ "@" +:+ domain) >>
          let* v := call (fake_numerify fake "###-###-####") in
          setitem "phone" v)
     >> get_local).

End DataMasker.

(** ** DemographicsMasking.py *)

Section DemographicsMasking.
Context {R : Type} (fake : Faker R).
Context (parse : string -> result DateTime.datetime).

Local Open Scope st_scope.

(** [mask_demographic_record(input_record, date_shift_days)]; the record
    is read as a value, [masked_record] is the local dict.  The condition
    of line 57 holds when birthDate is a non-empty string; the reads of
    lines 59, 63 and 64 then give that string, [raw]. *)
Definition mask_demographic_record {L} (input_record : row_dict)
    (date_shift_days : Z) : ST R L (gmap string string) :=
  try_except
    (with_local (∅ : gmap string string)
       (let* v := generateSSN fake in
        setitem "ssn" v >>
        (match columns input_record !! "birthDate" with
         | Some (Some raw) =>
             if PyStr.truthy raw then
               try_except
                 (let* birth_date := lift (parse raw) in
                  let* shifted_date :=
                    lift (add_days parse (PyDatetime birth_date) date_shift_days) in
                  setitem "birthDate" (DateTime.strftime_mdY shifted_date))
                 is_value_or_type_error
                 (fun e =>
                    log WARNING (MsgInvalidBirthDate raw e) >>
                    setitem "birthDate" raw)
             else setitem "birthDate" ""
         | _ => setitem "birthDate" ""
         end) >>
        let* gender := lift (value_strip (row_get input_record "gender" "")) in
        setitem "gender" gender >>
        let* name :=
          generateName fake (if PyStr.truthy gender then Some gender else None) in
        let* v := lift (dict_getitem name "firstName") in
        setitem "firstName" v >>
        let* v := lift (dict_getitem name "lastName") in
        setitem "lastName" v >>
        let* address := generateAddress fake in
        let* v := lift (dict_getitem address "address") in
        setitem "address" v >>
        let* v := lift (dict_getitem address "city") in
        setitem "city" v >>
        let* v := lift (dict_getitem address "state") in
        setitem "state" v >>
        let* v := lift (dict_getitem address "postalCode") in
        setitem "postalCode" v >>
        let* contact := generateContact fake in
        let* v := lift (dict_getitem contact "phone") in
        setitem "phone" v >>
        let* v := lift (dict_getitem contact "email") in
        setitem "email" v >>
        get_local))
    any_exception
    (fun e =>
       log ERROR (MsgErrorMasking e) >>
       log DEBUG (MsgInputRecord input_record) >>
       raise e).

(** The [for] loop of [mask_demographics_batch]: [i] is the index that
    [enumerate] yields, [masked_data] and [errors] are the two locals. *)
Fixpoint mask_loop {L} (i : nat) (input_data : list row_dict)
    (date_shift_days : Z) (masked_data : list (gmap string string))
    (errors : nat) : ST R L (list (gmap string string) * nat) :=
  match input_data with
  | [] => ret (masked_data, errors)
  | record :: rest =>
      let* acc :=
        try_except
          ((if (i mod 100 =? 0)%nat && (0 <? i)%nat
            then log INFO (MsgProgress i) else ret tt) >>
           let* masked_record := mask_demographic_record record date_shift_days in
           ret (masked_data ++ [masked_record], errors))
          any_exception
          (fun e =>
             log ERROR (MsgFailedRecord (i + 1) e) >>
             ret (masked_data, (errors + 1)%nat)) in
      mask_loop (S i) rest date_shift_days (fst acc) (snd acc)
  end.

Definition mask_demographics_batch {L}
    (input_data : list row_dict) (date_shift_days : Z)
  : ST R L (list (gmap string string)) :=
  log INFO (MsgMaskingStart (length input_data) date_shift_days) >>
  let* acc := mask_loop 0 input_data date_shift_days [] 0%nat in
  let masked_data := fst acc in
  let errors := snd acc in
  log INFO (MsgMaskedTotal (length masked_data)) >>
  (if (0 <? errors)%nat then log WARNING (MsgSkippedTotal errors) else ret tt) >>
  ret masked_data.

End DemographicsMasking.

(** ** Loading the input table

    The file system is a parameter: a path is absent, or names a file that
    cannot be opened or read ([Unreadable], with the error raised), or a
    file whose text the csv reader splits into rows of cells. *)

Inductive file :=
| Unreadable (e : exn)
| Rows (rows : list (list string)).

(** A value of a row that [csv.DictReader] yields: a cell, [None] for a
    column the row is too short for, or the list of surplus cells. *)
Inductive cell :=
| CStr (s : string)
| CNone
| CRest (cells : list string).

Definition cell_truthy (c : cell) : bool :=
  match c with
  | CStr s => PyStr.truthy s
  | CNone => false
  | CRest cells => match cells with [] => false | _ :: _ => true end
  end.

(** [dict(zip(fieldnames, row))], completed as [DictReader.__next__] does:
    surplus cells go under the key [None], missing ones are [None]. *)
Definition make_row (fieldnames row : list string) : gmap (option string) cell :=
  let d :=
    foldl (fun d kv => <[Some (fst kv) := CStr (snd kv)]> d)
      (∅ : gmap (option string) cell) (zip fieldnames row) in
  let lf := length fieldnames in
  let lr := length row in
  if (lf <? lr)%nat then <[None := CRest (drop lf row)]> d
  else foldl (fun d key => <[Some key := CNone]> d) d (drop lr fieldnames).

(** The rows a [DictReader] yields after the header: blank lines are passed
    over without being counted. *)
Definition dict_rows (fieldnames : list string) (rows : list (list string))
  : list (gmap (option string) cell) :=
  make_row fieldnames <$> filter (fun row => row <> []) rows.

(** [any(row.values())] *)
Definition any_values (row : gmap (option string) cell) : bool :=
  existsb (fun kv => cell_truthy (snd kv)) (map_to_list row).

Section Load.
Context {R : Type}.
Context (fs : string -> option file).

Local Open Scope st_scope.

(** The loop over [enumerate(reader, 1)]. *)
Fixpoint load_loop {L : Type} (row_num : nat) (rows : list (gmap (option string) cell))
    (data : list (gmap (option string) cell))
  : ST R L (list (gmap (option string) cell)) :=
  match rows with
  | [] => ret data
  | row :: rest =>
      let* data :=
        (if any_values row then ret (data ++ [row])
         else log WARNING (MsgSkipEmptyRow row_num) >> ret data) in
      load_loop (S row_num) rest data
  end.

Definition load_demographics_data {L : Type} (filename : string)
  : ST R L (list (gmap (option string) cell)) :=
  match fs filename with
  | None => raise (Exn FileNotFoundError ("Input file not found: " +:+ filename))
  | Some f =>
      try_except
        (let* rows :=
           lift (match f with Unreadable e => Raise e | Rows rows => Ok rows end) in
         let* fieldnames :=
           match rows with
           | [] | [] :: _ =>
               raise (Exn ValueError "CSV file appears to be empty or has no headers")
           | header :: _ => ret header
           end in
         log INFO (MsgColumns fieldnames) >>
         let* data := load_loop 1 (dict_rows fieldnames (tail rows)) [] in
         match data with
         | [] => raise (Exn ValueError "No valid data rows found in CSV file")
         | _ :: _ => ret tt
         end >>
         log INFO (MsgLoaded (length data) filename) >>
         ret data)
        any_exception
        (fun e =>
           log ERROR (MsgReadError filename e) >>
           raise (ExnFrom OSError ("Failed to load data from " +:+ filename) e))
  end.

End Load.

(** ** Concrete instances

    A deterministic provider over a counter and a parser of the strings
    [MM-DD-YYYY], on which [dateutil] agrees when month and day are in
    range; they serve to run the model on concrete inputs. *)

Definition LF : string := String "010"%char EmptyString.

Definition fixed (v : string) : nat -> result string * nat :=
  fun n => (Ok v, S n).

Definition failing (msg : string) : nat -> result string * nat :=
  fun n => (Raise (Exn Exception msg), S n).

(** A provider whose formatted address and male first name are given. *)
Definition toy_faker (full_address first_male : nat -> result string * nat)
  : Faker nat := {|
  fake_ssn := fixed "078-05-1120";
  fake_address := full_address;
  fake_street_address := fixed "7 Elm Court";
  fake_city := fixed "Dover";
  fake_state_abbr := fixed "DE";
  fake_postcode := fixed "19901";
  fake_first_name := fixed "Alex";
  fake_first_name_male := first_male;
  fake_first_name_female := fixed "Maria";
  fake_last_name := fixed "Smith";
  fake_email := fixed "alex@example.org";
  fake_phone_number := fixed "555-0100";
  fake_user_name := fixed "alex";
  fake_domain_name := fixed "example.org";
  fake_numerify := fun _ => fixed "555-010-0100"
|}.

Definition plain_faker : Faker nat :=
  toy_faker (fixed ("12 Main St" +:+ LF +:+ "Springfield, IL 62704")) (fixed "John").

Definition digit_value (c : ascii) : option Z :=
  let n := PyStr.code c in
  if PyStr.between 48 57 n then Some (n - 48) else None.

Definition number2 (a b : ascii) : option Z :=
  match digit_value a, digit_value b with
  | Some x, Some y => Some (10 * x + y)
  | _, _ => None
  end.

Definition number4 (a b c d : ascii) : option Z :=
  match number2 a b, number2 c d with
  | Some x, Some y => Some (100 * x + y)
  | _, _ => None
  end.

Definition unknown_format (s : string) : result DateTime.datetime :=
  Raise (Exn ParserError ("Unknown string format: " +:+ s)).

Definition parse_mdy (s : string) : result DateTime.datetime :=
  match s with
  | String m1 (String m2 (String "-" (String d1 (String d2 (String "-"
      (String y1 (String y2 (String y3 (String y4 EmptyString))))))))) =>
      match number2 m1 m2, number2 d1 d2, number4 y1 y2 y3 y4 with
      | Some m, Some d, Some y =>
          if (1 <=? y) && (1 <=? m) && (m <=? 12) && (1 <=? d)
             && (d <=? DateTime.days_in_month y m)
          then Ok (DateTime.mk_datetime y m d 0 0 0 0 None)
          else unknown_format s
      | _, _, _ => unknown_format s
      end
  | _ => unknown_format s
  end.

(** The last day of the calendar. *)
Definition last_day : DateTime.datetime :=
  DateTime.mk_datetime 9999 12 31 0 0 0 0 None.

(** ** Reasoning about computations

    [wp m Q E l r]: run from the objects [l] and the randomness state [r],
    the computation [m] returns a value and a state that satisfy [Q], or
    raises an exception with a state that satisfy [E]. *)

Definition wp {R L A} (m : ST R L A) (Q : A -> L -> R -> Prop)
    (E : exn -> L -> R -> Prop) (l : L) (r : R) : Prop :=
  match value (m l r) with
  | Ok a => Q a (store (m l r)) (rng (m l r))
  | Raise e => E e (store (m l r)) (rng (m l r))
  end.

(** No exception is an acceptable outcome. *)
Definition no_exception {R L} : exn -> L -> R -> Prop := fun _ _ _ => False.

(** A provider method always returns, and returns a non-empty string. *)
Definition reliable {R} (method : R -> result string * R) : Prop :=
  forall r, exists v r', method r = (Ok v, r') /\ v <> "".

(** A provider method returns a non-empty string whenever it returns. *)
Definition nonempty_result {R} (method : R -> result string * R) : Prop :=
  forall r v r', method r = (Ok v, r') -> v <> "".

(** The string is a value that the method can return. *)
Definition drawn_from {R} (method : R -> result string * R) (v : string) : Prop :=
  exists r r', method r = (Ok v, r').

(** A name record for a hint: both keys, both values non-empty, the last
    name drawn from [fake.last_name()], the first name drawn from the
    method that the hint selects or, after a failure, from
    [fake.first_name()]. *)
Definition name_record {R} (fake : Faker R) (gender : option string)
    (m : gmap string string) : Prop :=
  dom m = {["firstName"; "lastName"]}
  /\ exists first last,
      m !! "firstName" = Some first /\ first <> ""
      /\ m !! "lastName" = Some last /\ last <> ""
      /\ drawn_from (fake_last_name fake) last
      /\ (drawn_from (first_name_for fake gender) first
          \/ drawn_from (fake_first_name fake) first).
Definition address_keys : gset string :=
  {["address"; "city"; "state"; "postalCode"]}.

(** The value under [key] is present and non-empty. *)
Definition filled (m : gmap string string) (key : string) : Prop :=
  exists v, m !! key = Some v /\ v <> "".

(** A formatted address whose decomposition leaves no field empty: when it
    has two lines or more, the first line is non-empty and, if the second
    has a comma, the text before the first comma is not blank. *)
Definition decomposable (fullAddress : string) : Prop :=
  match PyStr.splitlines fullAddress with
  | line1 :: line2 :: _ =>
      line1 <> ""
      /\ (PyStr.contains "," line2 = true ->
          forall part0, PyStr.split_on "," line2 !! 0%nat = Some part0 ->
                        PyStr.strip part0 <> "")
  | _ => True
  end.

(** What [generateAddress] returns when called in the state [r]. *)
Definition address_record {R} (fake : Faker R) (r : R) (m : gmap string string)
  : Prop :=
  dom m = address_keys
  /\ filled m "state" /\ filled m "postalCode"
  /\ ((forall full r', fake_address fake r = (Ok full, r') -> decomposable full) ->
      filled m "address" /\ filled m "city").

Definition contact_keys : gset string := {["email"; "phone"]}.

Definition masked_keys : gset string :=
  {["ssn"; "birthDate"; "gender"; "firstName"; "lastName"; "address"; "city";
    "state"; "postalCode"; "email"; "phone"]}.

(** The provider works: the methods that no [except] block guards, and
    those that the [except] blocks fall back on, return non-empty strings;
    the gendered first names are non-empty when they come. *)
Definition dependable {R} (fake : Faker R) : Prop :=
  reliable (fake_ssn fake)
  /\ reliable (fake_first_name fake) /\ reliable (fake_last_name fake)
  /\ nonempty_result (fake_first_name_male fake)
  /\ nonempty_result (fake_first_name_female fake)
  /\ reliable (fake_street_address fake) /\ reliable (fake_city fake)
  /\ reliable (fake_state_abbr fake) /\ reliable (fake_postcode fake)
  /\ reliable (fake_user_name fake) /\ reliable (fake_domain_name fake)
  /\ reliable (fake_numerify fake "###-###-####").

(** The hint that [mask_demographic_record] hands to [generateName] for
    a trimmed gender. *)
Definition gender_hint (gender : string) : option string :=
  if PyStr.truthy gender then Some gender else None.

(** The outcome of line 69: the trimmed gender, or the [AttributeError]
    of a gender that is [None]. *)
Definition gender_value (input_record : row_dict) : result string :=
  value_strip (row_get input_record "gender" "").

(** The outcome of lines 57-66: the value stored under birthDate, or the
    exception that leaves the inner [try]. *)
Definition birth_date_value (parse : string -> result DateTime.datetime)
    (input_record : row_dict) (date_shift_days : Z) : result string :=
  match columns input_record !! "birthDate" with
  | Some (Some raw) =>
      if PyStr.truthy raw then
        let attempt :=
          match parse raw with
          | Raise e => Raise e
          | Ok birth_date =>
              match add_days parse (PyDatetime birth_date) date_shift_days with
              | Raise e => Raise e
              | Ok shifted_date => Ok (DateTime.strftime_mdY shifted_date)
              end
          end in
        match attempt with
        | Ok v => Ok v
        | Raise e => if is_value_or_type_error e then Ok raw else Raise e
        end
      else Ok ""
  | _ => Ok ""
  end.

(** A masked record for the value of the birth date and the trimmed
    gender of an input record, made from the randomness state [r]: the
    number comes from [fake.ssn()] and the two names from the call of
    [generateName] that follows it, made with the hint of the gender. *)
Definition masked_record {R} (fake : Faker R) (r : R) (gender birthDate : string)
    (m : gmap string string) : Prop :=
  dom m = masked_keys
  /\ m !! "birthDate" = Some birthDate
  /\ m !! "gender" = Some gender
  /\ exists ssn r1 name,
      fake_ssn fake r = (Ok ssn, r1)
      /\ m !! "ssn" = Some ssn
      /\ value (generateName fake (gender_hint gender) tt r1) = Ok name
      /\ name_record fake (gender_hint gender) name
      /\ m !! "firstName" = name !! "firstName"
      /\ m !! "lastName" = name !! "lastName".

(** Two sample input records that differ in every field but birthDate and
    gender, and a row that was too short for its gender column. *)
Definition sample_record : row_dict :=
  str_dict
    (<["birthDate" := "01-01-1990"]> (<["gender" := "Male"]>
       (<["firstName" := "Ann"]> (<["ssn" := "111-22-3333"]> ∅)))).

Definition other_record : row_dict :=
  str_dict
    (<["birthDate" := "01-01-1990"]> (<["gender" := "Male"]>
       (<["email" := "bob@example.com"]> (<["ssn" := "999-88-7777"]> ∅)))).

Definition short_row : row_dict :=
  RowDict (<["birthDate" := Some "01-01-1990"]> (<["gender" := None]> ∅)) None.

(** The log records that the default level (INFO) lets through. *)
Definition visible (ev : event) : bool :=
  match fst ev with
  | DEBUG => false
  | _ => true
  end.

(** The outcome of masking each record of a list in turn, every record
    from the state that the one before it left. *)
Fixpoint outcomes {R L} (fake : Faker R)
    (parse : string -> result DateTime.datetime)
    (input_data : list row_dict) (date_shift_days : Z)
    (l : L) (r : R) : list (result (gmap string string)) :=
  match input_data with
  | [] => []
  | record :: rest =>
      let o := mask_demographic_record fake parse record date_shift_days l r in
      value o :: outcomes fake parse rest date_shift_days (store o) (rng o)
  end.

(** The records that were masked, in order. *)
Fixpoint successes {A} (results : list (result A)) : list A :=
  match results with
  | [] => []
  | Ok a :: rest => a :: successes rest
  | Raise _ :: rest => successes rest
  end.

(** The number of records that raised. *)
Fixpoint failures {A} (results : list (result A)) : nat :=
  match results with
  | [] => 0
  | Ok _ :: rest => failures rest
  | Raise _ :: rest => S (failures rest)
  end.

(** A file system with an empty file, an unreadable one, a table with a
    header only and a table with four lines of data, one of them blank and
    one with blank cells only. *)
Definition toy_fs (filename : string) : option file :=
  if String.eqb filename "empty.csv" then Some (Rows [])
  else if String.eqb filename "locked.csv"
  then Some (Unreadable (Exn OSError "Permission denied"))
  else if String.eqb filename "header.csv"
  then Some (Rows [["birthDate"; "gender"]])
  else if String.eqb filename "people.csv"
  then Some (Rows [["birthDate"; "gender"]; ["01-01-1990"; "Male"]; [];
                   [""; ""]; ["02-02-1980"; "Female"]])
  else None.

(** ** Records and lists as shared objects

    To speak of what a call does to the objects it is handed, the two
    masking functions are also embedded over a heap: a reference is an
    index into the list of allocated objects, a new object goes to its
    end, and an operation on an object of the wrong kind raises
    [TypeError].  A dict on the heap is a record as above, so that an
    input record may hold [None].  The dicts that the generators return
    are read at once and never shared; they stay values. *)

Inductive pyobj :=
| ODict (d : row_dict)
| OList (items : list nat).

Section Heap.
Context {R : Type}.

(** [{}], [[]]: a new object; its reference is returned. *)
Definition new_object (o : pyobj) : ST R (list pyobj) nat :=
  fun h r => Outcome (Ok (length h)) (h ++ [o]) r [].

(** The dict behind a reference, for the operations that read it. *)
Definition obj_dict (ref : nat) : ST R (list pyobj) row_dict :=
  fun h r =>
    match h !! ref with
    | Some (ODict d) => Outcome (Ok d) h r []
    | _ => Outcome (Raise (Exn TypeError "object is not a dict")) h r []
    end.

(** The items of the list behind a reference. *)
Definition obj_list (ref : nat) : ST R (list pyobj) (list nat) :=
  fun h r =>
    match h !! ref with
    | Some (OList items) => Outcome (Ok items) h r []
    | _ => Outcome (Raise (Exn TypeError "object is not a list")) h r []
    end.

(** [ref[key] = v] *)
Definition obj_setitem (ref : nat) (key : string) (v : option string)
  : ST R (list pyobj) unit :=
  fun h r =>
    match h !! ref with
    | Some (ODict d) =>
        Outcome (Ok tt)
          (<[ref := ODict (RowDict (<[key := v]> (columns d)) (surplus d))]> h) r []
    | _ =>
        Outcome (Raise (Exn TypeError "object does not support item assignment"))
          h r []
    end.

(** [ref.append(x)] *)
Definition list_append (ref x : nat) : ST R (list pyobj) unit :=
  fun h r =>
    match h !! ref with
    | Some (OList items) => Outcome (Ok tt) (<[ref := OList (items ++ [x])]> h) r []
    | _ => Outcome (Raise (Exn TypeError "object has no append")) h r []
    end.

(** The dict that [f"{ref}"] prints (an empty one for another object). *)
Definition obj_view (ref : nat) : ST R (list pyobj) row_dict :=
  fun h r =>
    match h !! ref with
    | Some (ODict d) => Outcome (Ok d) h r []
    | _ => Outcome (Ok (RowDict ∅ None)) h r []
    end.

End Heap.

Section DemographicsMaskingRef.
Context {R : Type} (fake : Faker R).
Context (parse : string -> result DateTime.datetime).

Local Open Scope st_scope.

(** [mask_demographic_record] on a reference to the input record;
    [masked_record] is the reference to the new dict. *)
Definition mask_demographic_record_ref (input_record : nat)
    (date_shift_days : Z) : ST R (list pyobj) nat :=
  try_except
    (let* masked_record := new_object (ODict (RowDict ∅ None)) in
     let* v := generateSSN fake in
     obj_setitem masked_record "ssn" (Some v) >>
     let* record := obj_dict input_record in
     (if row_contains record "birthDate"
         && value_truthy (row_get record "birthDate" "")
      then
        try_except
          (let* record := obj_dict input_record in
           let* raw := lift (row_getitem record "birthDate") in
           let* birth_date := lift (parse_value parse raw) in
           let* shifted_date :=
             lift (add_days parse (PyDatetime birth_date) date_shift_days) in
           obj_setitem masked_record "birthDate"
             (Some (DateTime.strftime_mdY shifted_date)))
          is_value_or_type_error
          (fun e =>
             let* record := obj_dict input_record in
             let* raw := lift (row_getitem record "birthDate") in
             log WARNING (MsgInvalidBirthDate (value_format raw) e) >>
             let* record := obj_dict input_record in
             obj_setitem masked_record "birthDate"
               (row_get record "birthDate" ""))
      else obj_setitem masked_record "birthDate" (Some "")) >>
     let* record := obj_dict input_record in
     let* gender := lift (value_strip (row_get record "gender" "")) in
     obj_setitem masked_record "gender" (Some gender) >>
     let* name :=
       generateName fake (if PyStr.truthy gender then Some gender else None) in
     let* v := lift (dict_getitem name "firstName") in
     obj_setitem masked_record "firstName" (Some v) >>
     let* v := lift (dict_getitem name "lastName") in
     obj_setitem masked_record "lastName" (Some v) >>
     let* address := generateAddress fake in
     let* v := lift (dict_getitem address "address") in
     obj_setitem masked_record "address" (Some v) >>
     let* v := lift (dict_getitem address "city") in
     obj_setitem masked_record "city" (Some v) >>
     let* v := lift (dict_getitem address "state") in
     obj_setitem masked_record "state" (Some v) >>
     let* v := lift (dict_getitem address "postalCode") in
     obj_setitem masked_record "postalCode" (Some v) >>
     let* contact := generateContact fake in
     let* v := lift (dict_getitem contact "phone") in
     obj_setitem masked_record "phone" (Some v) >>
     let* v := lift (dict_getitem contact "email") in
     obj_setitem masked_record "email" (Some v) >>
     ret masked_record)
    any_exception
    (fun e =>
       log ERROR (MsgErrorMasking e) >>
       let* record := obj_view input_record in
       log DEBUG (MsgInputRecord record) >>
       raise e).

(** The loop over the items of the input list; [masked_data] refers to
    the output list. *)
Fixpoint mask_loop_ref (i : nat) (items : list nat) (date_shift_days : Z)
    (masked_data : nat) (errors : nat) : ST R (list pyobj) nat :=
  match items with
  | [] => ret errors
  | record :: rest =>
      let* errors :=
        try_except
          ((if (i mod 100 =? 0)%nat && (0 <? i)%nat
            then log INFO (MsgProgress i) else ret tt) >>
           let* masked_record := mask_demographic_record_ref record date_shift_days in
           list_append masked_data masked_record >>
           ret errors)
          any_exception
          (fun e =>
             log ERROR (MsgFailedRecord (i + 1) e) >>
             ret (errors + 1)%nat) in
      mask_loop_ref (S i) rest date_shift_days masked_data errors
  end.

(** [mask_demographics_batch] on a reference to the input list; the
    loop runs over the items the list has when it starts. *)
Definition mask_demographics_batch_ref (input_data : nat) (date_shift_days : Z)
  : ST R (list pyobj) nat :=
  let* items := obj_list input_data in
  log INFO (MsgMaskingStart (length items) date_shift_days) >>
  let* masked_data := new_object (OList []) in
  let* items := obj_list input_data in
  let* errors := mask_loop_ref 0 items date_shift_days masked_data 0%nat in
  let* masked := obj_list masked_data in
  log INFO (MsgMaskedTotal (length masked)) >>
  (if (0 <? errors)%nat then log WARNING (MsgSkippedTotal errors) else ret tt) >>
  ret masked_data.

End DemographicsMaskingRef.

(** [m] leaves the objects in scope as they are, on every path. *)
Definition stable {R L A} (m : ST R L A) : Prop :=
  forall l r, store (m l r) = l.

(** [m] leaves everything but its local dict as it is. *)
Definition stable_outside {R L D A} (m : ST R (D * L) A) : Prop :=
  forall dl r, snd (store (m dl r)) = snd dl.

(** The heap [h'] holds every object of [h] where it was and unchanged,
    and possibly new objects after them. *)
Definition extends (h h' : list pyobj) : Prop := h `prefix_of` h'.

(** A heap with the list [[0; 1]] of two records at references 0 and 1. *)
Definition sample_heap : list pyobj :=
  [ODict sample_record; ODict other_record; OList [0%nat; 1%nat]].

(** While the batch runs from the heap [h0]: the objects of [h0] are
    untouched and the output list, allocated after them, holds references
    to objects allocated after them only. *)
Definition batch_invariant (h0 : list pyobj) (masked_data : nat)
    (h : list pyobj) : Prop :=
  extends h0 h
  /\ (length h0 <= masked_data)%nat
  /\ exists items,
      h !! masked_data = Some (OList items)
      /\ Forall (fun p => (length h0 <= p)%nat) items.

(** A record's birth date cannot fail the record: if present and
    non-empty, it is rejected by [parse] with a [ValueError] or a
    [TypeError], or it parses to a date of the calendar whose shifted day
    number is still in the calendar. *)
Definition birth_date_safe (parse : string -> result DateTime.datetime)
    (date_shift_days : Z) (input_record : row_dict) : Prop :=
  forall raw,
    columns input_record !! "birthDate" = Some (Some raw) -> raw <> "" ->
    (exists e, parse raw = Raise e /\ is_value_or_type_error e = true)
    \/ (exists D,
          parse raw = Ok D /\ DateTime.valid D
          /\ 1 <= DateTime.toordinal D + date_shift_days <= DateTime.MAXORDINAL).

(** ** Identifiers and whole records

    [generate_uuid], [generateCreditCardNumber] and [generateDemographics]
    of [DataMasker.py], and [generateDemographics] and [generate_batch] of
    [DemographicsGenerator.py]. *)

(** [s.replace(c, "")] for a one-character [c]. *)
Fixpoint remove_char (c : ascii) (s : string) : string :=
  match s with
  | EmptyString => EmptyString
  | String c' s' =>
      if decide (c' = c) then remove_char c s' else String c' (remove_char c s')
  end.

(** [s.upper()] on the characters whose capital is one character below
    256: the letters a-z and the accented letters 224-254 but the division
    sign.  The capitals of the characters 181, 223 and 255 lie outside the
    strings modelled here; they are left as they are, so this is
    [str.upper] on strings without these three characters. *)
Definition upper_char (c : ascii) : ascii :=
  let n := PyStr.code c in
  if PyStr.between 97 122 n || (PyStr.between 224 254 n && negb (n =? 247))
  then Ascii.ascii_of_N (Z.to_N (n - 32))
  else c.

Fixpoint upper (s : string) : string :=
  match s with
  | EmptyString => EmptyString
  | String c s' => String (upper_char c) (upper s')
  end.

(** The two identifier methods of the provider. *)
Record FakerIds (R : Type) := {
  fake_uuid4 : R -> result string * R;
  fake_credit_card_number : R -> result string * R
}.
Arguments fake_uuid4 {R} f _.
Arguments fake_credit_card_number {R} f _.

(** [member.update(other)] on the local dict: the entries of [other]
    replace those under the same keys. *)
Definition update {R L} (other : gmap string string)
  : ST R (gmap string string * L) unit :=
  fun l r => Outcome (Ok tt) (other ∪ fst l, snd l) r [].

Section Identifiers.
Context {R : Type} (fake : Faker R) (ids : FakerIds R).

Local Open Scope st_scope.

Definition generate_uuid {L} : ST R L string :=
  let* uuid := call (fake_uuid4 ids) in
  ret (upper (remove_char "-" uuid)).

Definition generateCreditCardNumber {L} : ST R L string :=
  call (fake_credit_card_number ids).

(** [DataMasker.generateDemographics], kept for backward compatibility. *)
Definition generateDemographics {L} : ST R L (gmap string string) :=
  with_local (∅ : gmap string string)
    (let* name := generateName fake None in
     update name >>
     let* address := generateAddress fake in
     update address >>
     let* contact := generateContact fake in
     update contact >>
     let* v := generateSSN fake in
     setitem "ssn" v >>
     let* v := generateCreditCardNumber in
     setitem "creditCard" v >>
     let* v := generate_uuid in
     setitem "uuid" v >>
     get_local).

End Identifiers.

Module DemographicsGenerator.
Section Generator.
Context {R : Type} (fake : Faker R) (ids : FakerIds R).

Local Open Scope st_scope.

Definition generateDemographics {L} : ST R L (gmap string string) :=
  try_except
    (with_local (∅ : gmap string string)
       (let* v := generateSSN fake in
        setitem "ssn" v >>
        let* v := generateCreditCardNumber ids in
        setitem "creditCard" v >>
        let* name := generateName fake None in
        let* v := lift (dict_getitem name "firstName") in
        setitem "firstName" v >>
        let* v := lift (dict_getitem name "lastName") in
        setitem "lastName" v >>
        let* address := generateAddress fake in
        let* v := lift (dict_getitem address "address") in
        setitem "address" v >>
        let* v := lift (dict_getitem address "city") in
        setitem "city" v >>
        let* v := lift (dict_getitem address "state") in
        setitem "state" v >>
        let* v := lift (dict_getitem address "postalCode") in
        setitem "postalCode" v >>
        let* contact := generateContact fake in
        let* v := lift (dict_getitem contact "phone") in
        setitem "phone" v >>
        let* v := lift (dict_getitem contact "email") in
        setitem "email" v >>
        get_local))
    any_exception
    (fun e => log ERROR (MsgErrorGenerating e) >> raise e).

(** The loop over [range(records)]: [i] is the index, [remaining] the
    number of indices left, [batch] the local list. *)
Fixpoint generate_loop {L} (i remaining : nat) (batch : list (gmap string string))
  : ST R L (list (gmap string string)) :=
  match remaining with
  | O => ret batch
  | S remaining' =>
      (if (i mod 100 =? 0)%nat && (0 <? i)%nat
       then log INFO (MsgGeneratedProgress i) else ret tt) >>
      let* record := generateDemographics in
      generate_loop (S i) remaining' (batch ++ [record])
  end.

(** [generate_batch(records)]; an argument that is not an [int] is any
    [pyvalue] but [PyInt]. *)
Definition generate_batch {L} (records : pyvalue)
  : ST R L (list (gmap string string)) :=
  match records with
  | PyInt n =>
      if n <=? 0 then raise (Exn ValueError "Records must be a positive integer")
      else
        log INFO (MsgGenerating n) >>
        let* batch := generate_loop 0 (Z.to_nat n) [] in
        log INFO (MsgGeneratedTotal n) >>
        ret batch
  | _ => raise (Exn ValueError "Records must be a positive integer")
  end.

End Generator.
End DemographicsGenerator.

(** The columns of a generated record, and those of the legacy record. *)
Definition generated_keys : gset string :=
  {["ssn"; "creditCard"; "firstName"; "lastName"; "address"; "city"; "state";
    "postalCode"; "email"; "phone"]}.

Definition legacy_keys : gset string :=
  {["firstName"; "lastName"; "address"; "city"; "state"; "postalCode";
    "email"; "phone"; "ssn"; "creditCard"; "uuid"]}.

(** An uppercase hexadecimal digit, a hexadecimal digit of either case. *)
Definition is_upper_hex (c : ascii) : bool :=
  let n := PyStr.code c in PyStr.between 48 57 n || PyStr.between 65 70 n.

Definition is_hex (c : ascii) : bool :=
  is_upper_hex c || PyStr.between 97 102 (PyStr.code c).

Fixpoint all_chars (p : ascii -> bool) (s : string) : bool :=
  match s with
  | EmptyString => true
  | String c s' => p c && all_chars p s'
  end.

Fixpoint count_char (c : ascii) (s : string) : nat :=
  match s with
  | EmptyString => 0
  | String c' s' => (if decide (c' = c) then 1 else 0) + count_char c s'
  end.

(** A provider of identifiers over a counter. *)
Definition plain_ids : FakerIds nat := {|
  fake_uuid4 := fixed "3f2b8c1e-9d4a-4e6f-8a7b-0c1d2e3f4a5b";
  fake_credit_card_number := fixed "4111111111111111"
|}.

(** The outcome of generating [n] records in turn, each from the state
    that the one before it left, whether it returned or raised. *)
Fixpoint generated_outcomes {R L} (fake : Faker R) (ids : FakerIds R) (n : nat)
    (l : L) (r : R) : list (result (gmap string string)) :=
  match n with
  | O => []
  | S n' =>
      let o := DemographicsGenerator.generateDemographics fake ids l r in
      value o :: generated_outcomes fake ids n' (store o) (rng o)
  end.

(** The first exception in a list of outcomes. *)
Fixpoint first_failure {A} (results : list (result A)) : option exn :=
  match results with
  | [] => None
  | Ok _ :: rest => first_failure rest
  | Raise e :: _ => Some e
  end.

(** ** Writing tables

    What a run writes: for each path, the rows handed to the csv writer
    since the file was last opened for writing.  Rows reach the file one
    by one, and the [with] block closes the file on every exit, so the
    rows written before an exception stay. *)

Abbreviation disk := (gmap string (list (list string))) (only parsing).

(** [DictWriter._dict_to_list] with the defaults [extrasaction='raise']
    and [restval='']; [wrong_fields_text] is the text that names the
    surplus keys, which Python lists in the iteration order of a set. *)
Definition dict_to_list (wrong_fields_text : gset string -> string)
    (fieldnames : list string) (rowdict : gmap string string)
  : result (list string) :=
  let wrong_fields := dom rowdict ∖ list_to_set fieldnames in
  if decide (wrong_fields = ∅) then
    Ok ((fun key => dict_get rowdict key "") <$> fieldnames)
  else
    Raise (Exn ValueError
             ("dict contains fields not in fieldnames: "
              +:+ wrong_fields_text wrong_fields)).

Section Save.
Context {R : Type}.
(** [Path(filename).parent.mkdir(parents=True, exist_ok=True)] and
    [open(output_path, 'w', ...)]: each returns or raises. *)
Context (mkdir_parents open_for_writing : string -> result unit).
Context (wrong_fields_text : gset string -> string).

Local Open Scope st_scope.

(** Opening for writing empties the file. *)
Definition truncate (path : string) : ST R disk unit :=
  fun l r => Outcome (Ok tt) (<[path := []]> l) r [].

(** [writer.writerow(row)] of the underlying writer on the open file *)
Definition writerow (path : string) (row : list string) : ST R disk unit :=
  fun l r => Outcome (Ok tt) (<[path := default [] (l !! path) ++ [row]]> l) r [].

(** [DictWriter.writeheader]: the row of [dict(zip(fieldnames, fieldnames))] *)
Definition writeheader (path : string) (fieldnames : list string)
  : ST R disk unit :=
  let* row :=
    lift (dict_to_list wrong_fields_text fieldnames
            (list_to_map (zip fieldnames fieldnames))) in
  writerow path row.

(** [DictWriter.writerows]: the writer consumes
    [map(self._dict_to_list, rowdicts)] row by row. *)
Fixpoint writerows (path : string) (fieldnames : list string)
    (rowdicts : list (gmap string string)) : ST R disk unit :=
  match rowdicts with
  | [] => ret tt
  | rowdict :: rest =>
      let* row := lift (dict_to_list wrong_fields_text fieldnames rowdict) in
      writerow path row >>
      writerows path fieldnames rest
  end.

Definition save_masked_data (data : list (gmap string string)) (filename : string)
  : ST R disk unit :=
  match data with
  | [] => raise (Exn ValueError "No data to save")
  | _ :: _ =>
      try_except
        (lift (mkdir_parents filename) >>
         let fieldnames :=
           ["ssn"; "birthDate"; "gender"; "firstName"; "lastName";
            "address"; "city"; "state"; "postalCode"; "email"; "phone"] in
         lift (open_for_writing filename) >>
         truncate filename >>
         writeheader filename fieldnames >>
         writerows filename fieldnames data >>
         log INFO (MsgMaskedSaved filename))
        any_exception
        (fun e =>
           log ERROR (MsgSaveError filename e) >>
           raise (ExnFrom OSError ("Failed to save masked data to " +:+ filename) e))
  end.

Definition save_to_csv (data : list (gmap string string)) (filename : string)
  : ST R disk unit :=
  match data with
  | [] => raise (Exn ValueError "No data to save")
  | _ :: _ =>
      try_except
        (lift (mkdir_parents filename) >>
         let fieldnames :=
           ["ssn"; "creditCard"; "firstName"; "lastName";
            "address"; "city"; "state"; "postalCode"; "email"; "phone"] in
         lift (open_for_writing filename) >>
         truncate filename >>
         writeheader filename fieldnames >>
         writerows filename fieldnames data >>
         log INFO (MsgDataSaved filename))
        any_exception
        (fun e =>
           log ERROR (MsgSaveError filename e) >>
           raise (ExnFrom OSError ("Failed to save data to " +:+ filename) e))
  end.

End Save.

(** The columns of the two output tables. *)
Definition masked_fieldnames : list string :=
  ["ssn"; "birthDate"; "gender"; "firstName"; "lastName";
   "address"; "city"; "state"; "postalCode"; "email"; "phone"].

Definition generated_fieldnames : list string :=
  ["ssn"; "creditCard"; "firstName"; "lastName";
   "address"; "city"; "state"; "postalCode"; "email"; "phone"].

(** A record fits a table when it has no key outside the columns. *)
Definition fits (fieldnames : list string) (rowdict : gmap string string) : Prop :=
  dom rowdict ⊆ list_to_set fieldnames.

(** The row of a record: its values in the order of the columns, the
    empty string where it has no value. *)
Definition row_of (fieldnames : list string) (rowdict : gmap string string)
  : list string :=
  (fun key => dict_get rowdict key "") <$> fieldnames.

(** A table: the header, then one row for each record. *)
Definition table (fieldnames : list string) (data : list (gmap string string))
  : list (list string) :=
  fieldnames :: (row_of fieldnames <$> data).

(** A file system on which directories can be made and files opened, and
    the surplus keys named in the order of [elements]. *)
Definition writable (filename : string) : result unit := Ok tt.

Definition read_only (filename : string) : result unit :=
  Raise (Exn OSError ("[Errno 13] Permission denied: '" +:+ filename +:+ "'")).

Definition quoted_fields (wrong_fields : gset string) : string :=
  String.concat ", " ((fun x => "'" +:+ x +:+ "'") <$> elements wrong_fields).

(** ** The generator's entry point

    [main] reads the clock twice; the two readings of [time.time()] are
    parameters.  Python's floats are the binary64 numbers of IEEE 754:
    53 bits of precision, exponents below 1024. *)

Definition float : Type := SpecFloat.spec_float.

Definition float_sub (a b : float) : float := SpecFloat.SFsub 53 1024 a b.

Definition float_div (a b : float) : float := SpecFloat.SFdiv 53 1024 a b.

(** [x == 0.0], true of both zeros *)
Definition float_is_zero (x : float) : bool :=
  SpecFloat.SFeqb x (SpecFloat.S754_zero false).

(** [float(n)]: the nearest float, ties to even; an int that rounds
    beyond the largest float has none. *)
Definition float_of_int (n : Z) : result float :=
  match SpecFloat.binary_normalize 53 1024 n 0 false with
  | SpecFloat.S754_infinity _ =>
      Raise (Exn OverflowError "int too large to convert to float")
  | x => Ok x
  end.

Definition type_name (v : pyvalue) : string :=
  match v with
  | PyDatetime _ => "datetime.datetime"
  | PyStr _ => "str"
  | PyDate _ _ _ => "datetime.date"
  | PyInt _ => "int"
  | PyNone => "NoneType"
  end.

(** [records / elapsed] for a float [elapsed]: an int is converted to a
    float, then a zero divisor is refused; the other values have no
    division by a float. *)
Definition truediv (records : pyvalue) (elapsed : float) : result float :=
  match records with
  | PyInt n =>
      match float_of_int n with
      | Ok a =>
          if float_is_zero elapsed then
            Raise (Exn ZeroDivisionError "float division by zero")
          else Ok (float_div a elapsed)
      | Raise e => Raise e
      end
  | _ =>
      Raise (Exn TypeError
               ("unsupported operand type(s) for /: '" +:+ type_name records
                +:+ "' and 'float'"))
  end.

Section Main.
Context {R : Type} (fake : Faker R) (ids : FakerIds R).
Context (mkdir_parents open_for_writing : string -> result unit).
Context (wrong_fields_text : gset string -> string).
Context (start_time end_time : float).

Local Open Scope st_scope.

Definition main (records : pyvalue) (output_file : string) : ST R disk unit :=
  try_except
    (log INFO MsgGenerationStart >>
     log INFO (MsgRecordsToGenerate records) >>
     log INFO (MsgOutputFile output_file) >>
     let* data := DemographicsGenerator.generate_batch fake ids records in
     save_to_csv mkdir_parents open_for_writing wrong_fields_text data output_file >>
     let elapsed := float_sub end_time start_time in
     log INFO MsgGenerationCompleted >>
     log INFO (MsgExecutionTime elapsed) >>
     let* rate := lift (truediv records elapsed) in
     log INFO (MsgRecordsPerSecond rate))
    any_exception
    (fun e => log ERROR (MsgGenerationFailed e) >> raise e).

End Main.

(** ** Runs that do not depend on the objects in scope *)

(** Two computations over different objects in scope and the same local
    dict agree on the result, on the randomness state and on the local
    dict after. *)
Definition same_run_local {R L L' D A} (m : ST R (D * L) A) (m' : ST R (D * L') A)
  : Prop :=
  forall d l l' r,
    value (m (d, l) r) = value (m' (d, l') r)
    /\ rng (m (d, l) r) = rng (m' (d, l') r)
    /\ fst (store (m (d, l) r)) = fst (store (m' (d, l') r)).


(** * Properties *)

(** ** The calendar *)

Module DateTimeFacts.
Import DateTime.

Ltac div_lia := Z.to_euclidean_division_equations; lia.

Lemma days_before_year_split (a b c e : Z) :
  0 <= a -> 0 <= b < 4 -> 0 <= c < 25 -> 0 <= e < 4 ->
  days_before_year (a * 400 + 1 + b * 100 + c * 4 + e)
  = a * 146097 + b * 36524 + c * 1461 + e * 365.
Proof.
  intros Ha Hb Hc He. unfold days_before_year.
  replace (a * 400 + 1 + b * 100 + c * 4 + e - 1)
    with (a * 400 + b * 100 + c * 4 + e) by lia.
  assert ((a * 400 + b * 100 + c * 4 + e) / 4 = a * 100 + b * 25 + c) as -> by div_lia.
  assert ((a * 400 + b * 100 + c * 4 + e) / 100 = a * 4 + b) as -> by div_lia.
  assert ((a * 400 + b * 100 + c * 4 + e) / 400 = a) as -> by div_lia.
  lia.
Qed.

Lemma is_leap_split (a b c : Z) :
  0 <= a -> 0 <= b < 4 -> 0 <= c < 25 ->
  is_leap (a * 400 + b * 100 + c * 4 + 4)
  = negb (c =? 24) || (b =? 3).
Proof.
  intros Ha Hb Hc. unfold is_leap.
  assert ((a * 400 + b * 100 + c * 4 + 4) mod 4 = 0) as -> by div_lia.
  destruct (Z.eqb_spec c 24) as [-> | Hc24]; cbn [negb orb andb Z.eqb].
  - assert ((a * 400 + b * 100 + 24 * 4 + 4) mod 100 = 0) as -> by div_lia.
    cbn [negb orb andb Z.eqb].
    destruct (Z.eqb_spec b 3) as [-> | Hb3].
    + assert ((a * 400 + 3 * 100 + 24 * 4 + 4) mod 400 = 0) as -> by div_lia.
      reflexivity.
    + destruct (Z.eqb_spec ((a * 400 + b * 100 + 24 * 4 + 4) mod 400) 0) as [E | E];
        [exfalso; revert E; div_lia | reflexivity].
  - destruct (Z.eqb_spec ((a * 400 + b * 100 + c * 4 + 4) mod 100) 0) as [E | E];
      [exfalso; revert E; div_lia | reflexivity].
Qed.

(** Month and day within a year, as [ord2ymd] finds them from the
    zero-based day [n] of the year. *)
Lemma month_day_correct (leapyear : bool) (n : Z) :
  0 <= n < 365 + (if leapyear then 1 else 0) ->
  let month := Z.shiftr (n + 50) 5 in
  let preceding :=
    DAYS_BEFORE_MONTH month + (if (2 <? month) && leapyear then 1 else 0) in
  let md :=
    if n <? preceding then
      (month - 1,
       n - (preceding
            - (DAYS_IN_MONTH (month - 1)
               + (if (month - 1 =? 2) && leapyear then 1 else 0))) + 1)
    else (month, n - preceding + 1) in
  1 <= fst md <= 12
  /\ 1 <= snd md
       <= DAYS_IN_MONTH (fst md) + (if (fst md =? 2) && leapyear then 1 else 0)
  /\ DAYS_BEFORE_MONTH (fst md)
      + (if (2 <? fst md) && leapyear then 1 else 0) + snd md = n + 1.
Proof.
  intros Hn. rewrite Z.shiftr_div_pow2 by lia.
  change (2 ^ 5) with 32.
  pose proof (Z.div_mod (n + 50) 32 ltac:(lia)) as Hdm.
  pose proof (Z.mod_pos_bound (n + 50) 32 ltac:(lia)) as Hmb.
  set (month := (n + 50) / 32) in *.
  assert (month = 1 \/ month = 2 \/ month = 3 \/ month = 4 \/ month = 5
          \/ month = 6 \/ month = 7 \/ month = 8 \/ month = 9 \/ month = 10
          \/ month = 11 \/ month = 12 \/ month = 13) as Hm
    by (destruct leapyear; lia).
  clearbody month.
  destruct leapyear;
    repeat (destruct Hm as [-> | Hm]); try subst month; cbn;
    match goal with
    | |- context [?a <? ?b] => destruct (Z.ltb_spec a b)
    end;
    repeat match goal with
      | |- context [Z.sub (Zpos ?p) 1] =>
          let v := eval vm_compute in (Z.sub (Zpos p) 1) in
          change (Z.sub (Zpos p) 1) with v
      end;
    cbn; lia.
Qed.

(** [ord2ymd] inverts [ymd2ord] on the whole range of ordinals and
    yields a date of the calendar. *)
Lemma ymd2ord_ord2ymd (n : Z) :
  1 <= n <= MAXORDINAL ->
  ymd2ord (ord2ymd n).1.1 (ord2ymd n).1.2 (ord2ymd n).2 = n
  /\ 1 <= (ord2ymd n).1.1 <= 9999
  /\ 1 <= (ord2ymd n).1.2 <= 12
  /\ 1 <= (ord2ymd n).2 <= days_in_month (ord2ymd n).1.1 (ord2ymd n).1.2.
Proof.
  unfold MAXORDINAL. intros Hn. unfold ord2ymd, DI400Y, DI100Y, DI4Y.
  cbv zeta.
  pose proof (Z.div_mod (n - 1) 146097 ltac:(lia)) as H400.
  pose proof (Z.mod_pos_bound (n - 1) 146097 ltac:(lia)) as B400.
  set (a := (n - 1) / 146097) in *. set (r1 := (n - 1) mod 146097) in *.
  pose proof (Z.div_mod r1 36524 ltac:(lia)) as H100.
  pose proof (Z.mod_pos_bound r1 36524 ltac:(lia)) as B100.
  set (b := r1 / 36524) in *. set (r2 := r1 mod 36524) in *.
  pose proof (Z.div_mod r2 1461 ltac:(lia)) as H4.
  pose proof (Z.mod_pos_bound r2 1461 ltac:(lia)) as B4.
  set (c := r2 / 1461) in *. set (r3 := r2 mod 1461) in *.
  pose proof (Z.div_mod r3 365 ltac:(lia)) as H1.
  pose proof (Z.mod_pos_bound r3 365 ltac:(lia)) as B1.
  set (e := r3 / 365) in *. set (r4 := r3 mod 365) in *.
  clearbody a r1 b r2 c r3 e r4.
  assert (0 <= a <= 24) as Ha by lia.
  assert (0 <= b <= 4) as Hb by lia.
  assert (0 <= c <= 24) as Hc by lia.
  assert (0 <= e <= 4) as He by lia.
  destruct (Z.eqb_spec e 4) as [He4 | He4]; cbn [orb].
  - (* the last day of a leap year that closes a four-year cycle *)
    assert (r4 = 0) as -> by lia. subst e.
    assert (b <= 3 /\ c <= 23) as [Hb3 Hc23] by lia.
    cbn [fst snd]. unfold ymd2ord, days_before_month, days_in_month.
    replace (a * 400 + 1 + b * 100 + c * 4 + 4 - 1)
      with (a * 400 + b * 100 + c * 4 + 4) by lia.
    rewrite is_leap_split by lia.
    replace (a * 400 + b * 100 + c * 4 + 4)
      with (a * 400 + 1 + b * 100 + c * 4 + 3) by lia.
    rewrite days_before_year_split by lia.
    destruct (Z.eqb_spec c 24) as [? | _]; [lia |].
    cbn. lia.
  - destruct (Z.eqb_spec b 4) as [Hb4 | Hb4].
    + (* the last day of a year that closes a 400-year cycle *)
      subst b. assert (r2 = 0) by lia. subst r2.
      assert (c = 0 /\ r3 = 0) as [-> ->] by lia.
      assert (e = 0 /\ r4 = 0) as [-> ->] by lia.
      cbn [fst snd]. unfold ymd2ord, days_before_month, days_in_month.
      replace (a * 400 + 1 + 4 * 100 + 0 * 4 + 0 - 1)
        with (a * 400 + 3 * 100 + 24 * 4 + 4) by lia.
      rewrite is_leap_split by lia.
      replace (a * 400 + 3 * 100 + 24 * 4 + 4)
        with (a * 400 + 1 + 3 * 100 + 24 * 4 + 3) by lia.
      rewrite days_before_year_split by lia.
      cbn. lia.
    + set (leapyear := (e =? 3) && (negb (c =? 24) || (b =? 3))).
      assert (is_leap (a * 400 + 1 + b * 100 + c * 4 + e) = leapyear) as Hleap.
      { subst leapyear. destruct (Z.eqb_spec e 3) as [-> | He3]; cbn [andb].
        - replace (a * 400 + 1 + b * 100 + c * 4 + 3)
            with (a * 400 + b * 100 + c * 4 + 4) by lia.
          apply is_leap_split; lia.
        - unfold is_leap.
          destruct (Z.eqb_spec ((a * 400 + 1 + b * 100 + c * 4 + e) mod 4) 0) as [E | E];
            [exfalso; revert E; div_lia | reflexivity]. }
      assert (0 <= r4 < 365 + (if leapyear then 1 else 0)) as Hr4
        by (destruct leapyear; lia).
      pose proof (month_day_correct leapyear r4 Hr4) as Hmd.
      cbv zeta in Hmd.
      match type of Hmd with
      | context [if ?t then ?x else ?y] =>
          match goal with
          | |- context [if t then ?x' else ?y'] =>
              set (md := if t then x else y) in *;
              replace (if t then x' else y')
                with (a * 400 + 1 + b * 100 + c * 4 + e, md.1, md.2)
                by (subst md; destruct t; reflexivity)
          end
      end.
      clearbody md. destruct md as [m d]. cbn [fst snd] in *.
      unfold ymd2ord, days_before_month, days_in_month.
      rewrite Hleap, days_before_year_split by lia.
      repeat split; try lia.
      destruct Hmd as (_ & [_ Hd] & _). revert Hd.
      destruct (Z.eqb_spec m 2) as [-> | _], leapyear; cbn; lia.
Qed.

Lemma days_before_year_bounds (y : Z) :
  1 <= y <= 9999 ->
  0 <= days_before_year y
  /\ days_before_year y + 365 + (if is_leap y then 1 else 0) <= MAXORDINAL.
Proof.
  intros Hy. unfold MAXORDINAL.
  destruct (decide (y = 9999)) as [-> | Hne]; [vm_compute; split; congruence |].
  unfold days_before_year. destruct (is_leap y); div_lia.
Qed.

(** The day number of a date of the calendar lies in the range of
    ordinals. *)
Lemma toordinal_range (dt : datetime) :
  valid dt -> 1 <= toordinal dt <= MAXORDINAL.
Proof.
  unfold valid, toordinal, ymd2ord, days_before_month, days_in_month.
  destruct dt as [y m d hh mm ss us tz]. cbn [year month day].
  intros (Hy & Hm & Hd).
  pose proof (days_before_year_bounds y Hy) as [Hlo Hhi].
  assert (m = 1 \/ m = 2 \/ m = 3 \/ m = 4 \/ m = 5 \/ m = 6 \/ m = 7
          \/ m = 8 \/ m = 9 \/ m = 10 \/ m = 11 \/ m = 12) as Hcases by lia.
  revert Hd Hhi.
  repeat (destruct Hcases as [-> | Hcases]); try subst m;
    destruct (is_leap y); cbn; lia.
Qed.

(** Adding whole days moves the day number by that amount and keeps the
    time of day and the zone, whenever the sum is an ordinal. *)
Lemma add_in_range (dt : datetime) (delta : Z) :
  1 <= toordinal dt + delta <= MAXORDINAL ->
  exists dt',
    add dt delta = Ok dt'
    /\ toordinal dt' = toordinal dt + delta
    /\ valid dt'
    /\ hour dt' = hour dt /\ minute dt' = minute dt
    /\ second dt' = second dt /\ microsecond dt' = microsecond dt
    /\ tzinfo dt' = tzinfo dt.
Proof.
  intros Hn. unfold add.
  destruct (Z.ltb_spec 0 (toordinal dt + delta)); [| lia].
  destruct (Z.leb_spec (toordinal dt + delta) MAXORDINAL); [| lia].
  cbn [andb].
  pose proof (ymd2ord_ord2ymd _ Hn) as (Hord & Hy & Hm & Hd).
  destruct (ord2ymd (toordinal dt + delta)) as [[y m] d]. cbn [fst snd] in *.
  eexists. split; [reflexivity |]. split; [exact Hord |].
  unfold valid. cbn [year month day hour minute second microsecond tzinfo].
  repeat split; try lia; reflexivity.
Qed.

Lemma add_out_of_range (dt : datetime) (delta : Z) :
  ~ (1 <= toordinal dt + delta <= MAXORDINAL) ->
  add dt delta = Raise (Exn OverflowError "date value out of range").
Proof.
  intros Hn. unfold add.
  destruct (Z.ltb_spec 0 (toordinal dt + delta));
    destruct (Z.leb_spec (toordinal dt + delta) MAXORDINAL);
    cbn [andb]; try reflexivity; lia.
Qed.

End DateTimeFacts.

(** ** The date shifter *)

Section AddDays.
Context (parse : string -> result DateTime.datetime).

Import DateTime.

(** A shift of a [datetime] of the calendar that stays in the calendar
    is the addition of whole days. *)
Lemma add_days_in_calendar (D : datetime) (days : Z) :
  valid D ->
  1 <= toordinal D + days <= MAXORDINAL ->
  exists D',
    add_days parse (PyDatetime D) days = Ok D'
    /\ toordinal D' = toordinal D + days
    /\ valid D'.
Proof.
  intros Hvalid Hrange.
  pose proof (DateTimeFacts.toordinal_range D Hvalid) as Hord.
  assert (add_days parse (PyDatetime D) days = add D days) as ->.
  { unfold add_days, timedelta_days.
    destruct (Z.leb_spec (Z.abs days) 999999999) as [_ | Habs];
      [reflexivity | unfold MAXORDINAL in *; lia]. }
  destruct (DateTimeFacts.add_in_range D days Hrange) as (D' & Hadd & Hsum & Hv & _).
  now exists D'.
Qed.


(** C3, amended.  For a date of the calendar, given as a [datetime] or
    as a string that [parse] accepts, and a day count that keeps the day
    number within 1..3652059, [add_days] returns the date whose day
    number is the sum; time of day and zone are those of the input. *)
Theorem add_days_ordinal (v : pyvalue) (D : datetime) (days : Z) :
  v = PyDatetime D \/ (exists s, v = PyStr s /\ parse s = Ok D) ->
  valid D ->
  1 <= toordinal D + days <= MAXORDINAL ->
  exists D',
    add_days parse v days = Ok D'
    /\ toordinal D' = toordinal D + days
    /\ valid D'
    /\ hour D' = hour D /\ minute D' = minute D /\ second D' = second D
    /\ microsecond D' = microsecond D /\ tzinfo D' = tzinfo D.
Proof.
  intros Hv Hvalid Hrange.
  pose proof (DateTimeFacts.toordinal_range D Hvalid) as Hord.
  assert (add_days parse v days = add D days) as ->.
  { unfold add_days, timedelta_days.
    destruct (Z.leb_spec (Z.abs days) 999999999) as [_ | Habs];
      [| unfold MAXORDINAL in *; lia].
    destruct Hv as [-> | (s & -> & ->)]; reflexivity. }
  now apply DateTimeFacts.add_in_range.
Qed.

End AddDays.



Lemma add_days_ordinal_witness :
  exists D',
    add_days parse_mdy (PyStr "01-01-1990") (-10) = Ok D'
    /\ DateTime.toordinal D' = 726468 + -10.
Proof.
  destruct (add_days_ordinal parse_mdy (PyStr "01-01-1990")
              (DateTime.mk_datetime 1990 1 1 0 0 0 0 None) (-10))
    as (D' & Hrun & Hord & _).
  - right. exists "01-01-1990". split; reflexivity.
  - unfold DateTime.valid. vm_compute. intuition congruence.
  - vm_compute. intuition congruence.
  - exists D'. split; [exact Hrun | exact Hord].
Defined.

(** C3 as stated fails at the end of the calendar: one day after
    9999-12-31 there is no [datetime], and [add_days] raises. *)
Lemma add_days_overflow_counterexample :
  ~ (forall D days,
        DateTime.valid D ->
        exists D',
          add_days parse_mdy (PyDatetime D) days = Ok D'
          /\ DateTime.toordinal D' = DateTime.toordinal D + days).
Proof.
  intros H. destruct (H last_day 1) as (D' & Hrun & _).
  - unfold DateTime.valid. vm_compute. intuition congruence.
  - vm_compute in Hrun. discriminate.
Qed.

(** ** Rules for computations *)

Section Rules.
Context {R : Type}.

Lemma wp_ret {L A} (a : A) Q E (l : L) (r : R) :
  Q a l r -> wp (ret a) Q E l r.
Proof. intros H. exact H. Qed.

Lemma wp_raise {L A} (e : exn) (Q : A -> L -> R -> Prop) E (l : L) (r : R) :
  E e l r -> wp (raise e) Q E l r.
Proof. intros H. exact H. Qed.

Lemma wp_lift {L A} (x : result A) Q E (l : L) (r : R) :
  match x with Ok a => Q a l r | Raise e => E e l r end ->
  wp (lift x) Q E l r.
Proof. unfold wp, lift. cbn. now destruct x. Qed.

Lemma wp_log {L} lvl msg Q E (l : L) (r : R) :
  Q tt l r -> wp (log lvl msg) Q E l r.
Proof. intros H. exact H. Qed.

Lemma wp_call {L} (method : R -> result string * R) Q E (l : L) (r : R) :
  match method r with
  | (Ok v, r') => Q v l r'
  | (Raise e, r') => E e l r'
  end ->
  wp (call method) Q E l r.
Proof. unfold wp, call. destruct (method r) as [[v | e] r']; cbn; auto. Qed.

Lemma wp_bind {L A B} (m : ST R L A) (k : A -> ST R L B) Q E l r :
  wp m (fun a l' r' => wp (k a) Q E l' r') E l r ->
  wp (bind m k) Q E l r.
Proof.
  unfold wp, bind. destruct (value (m l r)) as [a | e]; cbn; [| auto].
  destruct (value (k a (store (m l r)) (rng (m l r)))); auto.
Qed.

Lemma wp_try_except {L A} (body : ST R L A) (catches : exn -> bool)
    (handler : exn -> ST R L A) Q E l r :
  wp body Q
    (fun e l' r' => if catches e then wp (handler e) Q E l' r' else E e l' r')
    l r ->
  wp (try_except body catches handler) Q E l r.
Proof.
  unfold wp, try_except. destruct (value (body l r)) as [a | e] eqn:Hb.
  - rewrite Hb. auto.
  - destruct (catches e); cbn; [| rewrite Hb; auto].
    destruct (value (handler e (store (body l r)) (rng (body l r)))); auto.
Qed.

Lemma wp_with_local {L D A} (init : D) (body : ST R (D * L) A) Q E l r :
  wp body (fun a dl r' => Q a (snd dl) r') (fun e dl r' => E e (snd dl) r')
    (init, l) r ->
  wp (with_local init body) Q E l r.
Proof.
  unfold wp, with_local. cbn.
  destruct (value (body (init, l) r)); auto.
Qed.

Lemma wp_get_local {L D} Q E (l : D * L) (r : R) :
  Q (fst l) l r -> wp get_local Q E l r.
Proof. intros H. exact H. Qed.

Lemma wp_setitem {L} (key v : string) Q E (l : gmap string string * L) (r : R) :
  Q tt (<[key := v]> (fst l), snd l) r -> wp (setitem key v) Q E l r.
Proof. intros H. exact H. Qed.

Lemma wp_mono {L A} (m : ST R L A) (Q Q' : A -> L -> R -> Prop)
    (E E' : exn -> L -> R -> Prop) l r :
  wp m Q E l r ->
  (forall a l' r', Q a l' r' -> Q' a l' r') ->
  (forall e l' r', E e l' r' -> E' e l' r') ->
  wp m Q' E' l r.
Proof. unfold wp. destruct (value (m l r)); auto. Qed.

(** What [wp] says of a run that cannot raise. *)
Lemma wp_returns {L A} (m : ST R L A) Q l r :
  wp m Q no_exception l r ->
  exists a, value (m l r) = Ok a /\ Q a (store (m l r)) (rng (m l r)).
Proof.
  unfold wp, no_exception. destruct (value (m l r)) as [a | e]; [eauto | tauto].
Qed.

(** A property of the result follows from [wp]. *)
Lemma wp_value {L A} (m : ST R L A) (P : result A -> Prop) l r :
  wp m (fun a _ _ => P (Ok a)) (fun e _ _ => P (Raise e)) l r ->
  P (value (m l r)).
Proof. unfold wp. destruct (value (m l r)); auto. Qed.

Lemma any_exception_true (e : exn) : any_exception e = true.
Proof. unfold any_exception. now destruct e as [[] ? | [] ? ?]. Qed.

End Rules.

(** One step of symbolic execution of a computation. *)
Ltac wp_step :=
  cbv beta iota;
  lazymatch goal with
  | |- wp (bind _ _) _ _ _ _ => apply wp_bind
  | |- wp (try_except _ _ _) _ _ _ _ => apply wp_try_except
  | |- wp (with_local _ _) _ _ _ _ => apply wp_with_local
  | |- wp (setitem _ _) _ _ _ _ => apply wp_setitem
  | |- wp (@get_local _ _ _) _ _ _ _ => apply wp_get_local
  | |- wp (ret _) _ _ _ _ => apply wp_ret
  | |- wp (raise _) _ _ _ _ => apply wp_raise
  | |- wp (log _ _) _ _ _ _ => apply wp_log
  | |- wp (lift _) _ _ _ _ => apply wp_lift
  | |- wp (call _) _ _ _ _ => apply wp_call
  end.

(** ** Strings *)

Module PyStrFacts.
Import PyStr.

Lemma truthy_nonempty (s : string) : truthy s = true <-> s <> "".
Proof. destruct s; cbn; split; congruence. Qed.

Lemma snoc_truthy (s : string) (c : ascii) : truthy (snoc s c) = true.
Proof. unfold snoc. now destruct s. Qed.

Lemma split_go_tokens (s cur : string) :
  Forall (fun t => t <> "") (split_go cur s).
Proof.
  revert cur. induction s as [| c s IH]; intros cur; cbn.
  - destruct (truthy cur) eqn:Hc; constructor; [| constructor].
    now apply truthy_nonempty.
  - destruct (is_space c); [| apply IH].
    destruct (truthy cur) eqn:Hc; [constructor |]; try apply IH.
    now apply truthy_nonempty.
Qed.

(** Every token of [s.split()] is non-empty. *)
Lemma split_tokens (s : string) : Forall (fun t => t <> "") (split s).
Proof. apply split_go_tokens. Qed.

Lemma split_lookup (s : string) (i : nat) (t : string) :
  split s !! i = Some t -> t <> "".
Proof.
  intros H. pose proof (split_tokens s) as Hall.
  rewrite Forall_lookup in Hall. exact (Hall i t H).
Qed.

End PyStrFacts.

(** ** Name generation *)

Section GenerateName.
Context {R : Type} (fake : Faker R).
Hypothesis first_name_reliable : reliable (fake_first_name fake).
Hypothesis last_name_reliable : reliable (fake_last_name fake).
Hypothesis first_name_male_nonempty : nonempty_result (fake_first_name_male fake).
Hypothesis first_name_female_nonempty : nonempty_result (fake_first_name_female fake).

Lemma name_record_intro (gender : option string) (first last : string) :
  first <> "" -> last <> "" ->
  drawn_from (fake_last_name fake) last ->
  drawn_from (first_name_for fake gender) first
  \/ drawn_from (fake_first_name fake) first ->
  forall d : gmap string string,
    dom d ⊆ {["firstName"; "lastName"]} ->
    name_record fake gender (<["lastName" := last]> (<["firstName" := first]> d)).
Proof.
  intros Hf Hl Hdl Hdf d Hd. split.
  - rewrite !dom_insert_L. clear -Hd. set_solver.
  - exists first, last. rewrite lookup_insert_eq.
    rewrite lookup_insert_ne by discriminate. rewrite lookup_insert_eq.
    auto 10.
Qed.

(** The two assignments of the [except] block, from any state of the
    dict that holds no other key. *)
Lemma name_fallback_wp {L} (gender : option string) Q E
    (l : gmap string string * L) (r : R) :
  dom (fst l) ⊆ {["firstName"; "lastName"]} ->
  (forall m r', name_record fake gender m -> Q tt (m, snd l) r') ->
  wp (bind (call (fake_first_name fake)) (fun v =>
        bind (setitem "firstName" v) (fun _ =>
          bind (call (fake_last_name fake)) (fun v => setitem "lastName" v))))
    Q E l r.
Proof.
  intros Hd HQ. repeat wp_step.
  destruct (first_name_reliable r) as (first & r1 & Hf & Hfirst). rewrite Hf.
  repeat wp_step.
  destruct (last_name_reliable r1) as (last & r2 & Hlast & Hne). rewrite Hlast.
  wp_step. cbn [fst snd]. apply HQ.
  apply name_record_intro;
    [exact Hfirst | exact Hne | now exists r1, r2 | right; now exists r, r1 | exact Hd].
Qed.

Lemma first_name_for_nonempty (gender : option string) :
  nonempty_result (first_name_for fake gender).
Proof.
  assert (nonempty_result (fake_first_name fake)) as Hfirst.
  { intros r0 v r1 Hr. destruct (first_name_reliable r0) as (v' & r' & Hv & Hne).
    congruence. }
  unfold first_name_for. destruct gender as [g |]; [| exact Hfirst].
  destruct (String.eqb (PyStr.lower g) "male"); [assumption |].
  destruct (String.eqb (PyStr.lower g) "female"); assumption.
Qed.

Lemma generateName_wp {L} (gender : option string) Q E (l : L) (r : R) :
  (forall m r', name_record fake gender m -> Q m l r') ->
  wp (generateName fake gender) Q E l r.
Proof.
  intros HQ. unfold generateName.
  assert (wp (with_local (∅ : gmap string string)
                (bind
                   (try_except
                      (bind
                         (bind (call (first_name_for fake gender))
                            (fun v => setitem "firstName" v))
                         (fun _ => bind (call (fake_last_name fake))
                                     (fun v => setitem "lastName" v)))
                      any_exception
                      (fun _ =>
                         bind (call (fake_first_name fake)) (fun v =>
                           bind (setitem "firstName" v) (fun _ =>
                             bind (call (fake_last_name fake))
                               (fun v => setitem "lastName" v)))))
                   (fun _ => get_local))) Q E l r) as Hcase.
  { repeat wp_step.
    destruct (first_name_for fake gender r) as [[first | e] r1] eqn:Hw.
    - repeat wp_step.
      destruct (last_name_reliable r1) as (last & r2 & Hlast & Hl). rewrite Hlast.
      repeat wp_step. cbn [fst snd]. apply HQ.
      apply name_record_intro;
        [exact (first_name_for_nonempty gender r first r1 Hw) | exact Hl
        | now exists r1, r2 | left; now exists r, r1 | set_solver].
    - rewrite any_exception_true.
      apply (name_fallback_wp gender); cbn [fst snd]; [set_solver |].
      intros m r' Hm. wp_step. cbn [fst snd]. apply HQ, Hm. }
  revert Hcase. unfold first_name_for. destruct gender as [g |]; [| exact id].
  destruct (String.eqb (PyStr.lower g) "male"); [exact id |].
  destruct (String.eqb (PyStr.lower g) "female"); exact id.
Qed.

End GenerateName.

(** ** Address generation *)

Section GenerateAddress.
Context {R : Type} (fake : Faker R).
Hypothesis street_address_reliable : reliable (fake_street_address fake).
Hypothesis city_reliable : reliable (fake_city fake).
Hypothesis state_abbr_reliable : reliable (fake_state_abbr fake).
Hypothesis postcode_reliable : reliable (fake_postcode fake).

Lemma filled_insert (m : gmap string string) (key v : string) :
  v <> "" -> filled (<[key := v]> m) key.
Proof. intros Hv. exists v. now rewrite lookup_insert_eq. Qed.

Lemma filled_insert_ne (m : gmap string string) (key key' v : string) :
  key <> key' -> filled m key' -> filled (<[key := v]> m) key'.
Proof. intros Hne (w & Hw & Hnw). exists w. now rewrite lookup_insert_ne. Qed.

(** The four independent assignments fill the four keys, whatever part
    of them the dict held before. *)
Lemma independent_fields_wp {L} Q E (l : gmap string string * L) (r : R) :
  dom (fst l) ⊆ address_keys ->
  (forall m r',
      dom m = address_keys ->
      filled m "address" -> filled m "city" -> filled m "state" ->
      filled m "postalCode" ->
      Q tt (m, snd l) r') ->
  wp (independent_fields fake) Q E l r.
Proof.
  intros Hd HQ. unfold independent_fields. repeat wp_step.
  destruct (street_address_reliable r) as (a & r1 & Ha & Hna). rewrite Ha.
  repeat wp_step.
  destruct (city_reliable r1) as (c & r2 & Hc & Hnc). rewrite Hc.
  repeat wp_step.
  destruct (state_abbr_reliable r2) as (s & r3 & Hs & Hns). rewrite Hs.
  repeat wp_step.
  destruct (postcode_reliable r3) as (p & r4 & Hp & Hnp). rewrite Hp.
  repeat wp_step. cbn [fst snd]. apply HQ.
  - rewrite !dom_insert_L. unfold address_keys in *. clear -Hd. set_solver.
  - do 3 (apply filled_insert_ne; [discriminate |]). now apply filled_insert.
  - do 2 (apply filled_insert_ne; [discriminate |]). now apply filled_insert.
  - do 1 (apply filled_insert_ne; [discriminate |]). now apply filled_insert.
  - now apply filled_insert.
Qed.

Lemma address_record_intro (r : R) (a c s p : string) (d : gmap string string) :
  dom d ⊆ address_keys -> s <> "" -> p <> "" ->
  ((forall full r', fake_address fake r = (Ok full, r') -> decomposable full) ->
   a <> "" /\ c <> "") ->
  address_record fake r
    (<["postalCode" := p]> (<["state" := s]> (<["city" := c]> (<["address" := a]> d)))).
Proof.
  intros Hd Hs Hp Hac. split; [| split; [| split]].
  - rewrite !dom_insert_L. unfold address_keys in *. clear -Hd. set_solver.
  - apply filled_insert_ne; [discriminate |]. now apply filled_insert.
  - now apply filled_insert.
  - intros Hfull. destruct (Hac Hfull) as [Ha Hc]. split.
    + do 3 (apply filled_insert_ne; [discriminate |]). now apply filled_insert.
    + do 2 (apply filled_insert_ne; [discriminate |]). now apply filled_insert.
Qed.

Lemma token_nonempty (s : string) (i : nat) (tokens : list string) (t : string) :
  PyStr.split s = tokens -> tokens !! i = Some t -> t <> "".
Proof. intros <-. apply PyStrFacts.split_lookup. Qed.

Ltac wp_simpl :=
  cbn [list_getitem lookup list_lookup length Nat.ltb Nat.leb fst snd];
  cbv beta iota.

Ltac wp_run := wp_simpl; repeat (wp_step; wp_simpl).

Lemma generateAddress_wp {L} Q E (l : L) (r : R) :
  (forall m r', address_record fake r m -> Q m l r') ->
  wp (generateAddress fake) Q E l r.
Proof.
  intros HQ. unfold generateAddress.
  (* the [except] block, entered with any part of the four keys set *)
  assert (forall (d : gmap string string) r' e,
             dom d ⊆ address_keys ->
             if any_exception e then
               wp (independent_fields fake)
                 (fun _ l' r'' =>
                    wp get_local (fun a dl r3 => Q a dl.2 r3)
                      (fun e dl r3 => E e dl.2 r3) l' r'')
                 (fun e dl r3 => E e dl.2 r3) (d, l) r'
             else E e l r') as Hexcept.
  { intros d r' e Hd. rewrite any_exception_true.
    apply independent_fields_wp; [exact Hd |].
    intros m r'' Hdom Ha Hc Hs Hp. wp_run. cbn [fst snd].
    apply HQ. repeat split; auto. }
  assert (forall k : string, k ∈ address_keys ->
            forall (d : gmap string string) v,
              dom d ⊆ address_keys -> dom (<[k := v]> d) ⊆ address_keys) as Hsub.
  { intros k Hk d v Hd. rewrite dom_insert_L. clear -Hk Hd. set_solver. }
  assert ("address" ∈ address_keys /\ "city" ∈ address_keys
          /\ "state" ∈ address_keys /\ "postalCode" ∈ address_keys)
    as (Hk1 & Hk2 & Hk3 & Hk4) by (unfold address_keys; set_solver).
  assert (dom (∅ : gmap string string) ⊆ address_keys) as H0 by set_solver.
  wp_run.
  destruct (fake_address fake r) as [[full | e] r1] eqn:Hfull;
    [| apply Hexcept; exact H0].
  assert (forall a c,
             (decomposable full -> a <> "" /\ c <> "") ->
             forall s p d r',
               dom d ⊆ address_keys -> s <> "" -> p <> "" ->
               Q (<["postalCode" := p]> (<["state" := s]> (<["city" := c]>
                    (<["address" := a]> d)))) l r') as Hdone.
  { intros a c Hac s p d r' Hd Hs Hp. apply HQ.
    apply address_record_intro; auto.
    intros Hall. apply Hac. exact (Hall full r1 Hfull). }
  unfold decomposable in Hdone.
  destruct (PyStr.splitlines full) as [| line1 [| line2 rest]] eqn:Hparts.
  1, 2: cbn [length Nat.ltb Nat.leb];
    apply independent_fields_wp; [exact H0 |];
    intros m r'' Hdom Ha Hc Hs Hp; wp_run; cbn [fst snd];
    apply HQ; repeat split; auto.
  cbn [length Nat.ltb Nat.leb]. wp_run. cbn [fst snd].
  destruct (PyStr.contains "," line2) eqn:Hcomma.
  - wp_run.
    destruct (PyStr.split_on "," line2) as [| part0 [| part1 parts]] eqn:Hsplit.
    1, 2: wp_simpl; apply Hexcept; auto.
    wp_run. cbn [fst snd].
    destruct (PyStr.split (PyStr.strip part1)) as [| s0 [| s1 ss]] eqn:Htok;
      wp_run.
    + destruct (state_abbr_reliable r1) as (s & r2 & Hs & Hns). rewrite Hs.
      wp_run.
      destruct (postcode_reliable r2) as (p & r3 & Hp & Hnp). rewrite Hp.
      wp_run. cbn [fst snd]. apply Hdone; auto.
      intros [Hl1 Hc0]. split; [exact Hl1 | now apply Hc0].
    + cbn [fst snd].
      destruct (postcode_reliable r1) as (p & r3 & Hp & Hnp). rewrite Hp.
      wp_run. cbn [fst snd]. apply Hdone; auto.
      * intros [Hl1 Hc0]. split; [exact Hl1 | now apply Hc0].
      * now apply (token_nonempty _ 0 _ _ Htok).
    + cbn [fst snd]. apply Hdone; auto.
      * intros [Hl1 Hc0]. split; [exact Hl1 | now apply Hc0].
      * now apply (token_nonempty _ 0 _ _ Htok).
      * now apply (token_nonempty _ 1 _ _ Htok).
  - destruct (PyStr.split line2) as [| c0 [| c1 [| c2 cs]]] eqn:Htok;
      wp_run.
    + destruct (city_reliable r1) as (c & r2 & Hc & Hnc). rewrite Hc.
      wp_run.
      destruct (state_abbr_reliable r2) as (s & r3 & Hs & Hns). rewrite Hs.
      wp_run.
      destruct (postcode_reliable r3) as (p & r4 & Hp & Hnp). rewrite Hp.
      wp_run. cbn [fst snd]. apply Hdone; auto.
      intros [Hl1 _]. now split.
    + cbn [fst snd].
      destruct (state_abbr_reliable r1) as (s & r3 & Hs & Hns). rewrite Hs.
      wp_run.
      destruct (postcode_reliable r3) as (p & r4 & Hp & Hnp). rewrite Hp.
      wp_run. cbn [fst snd]. apply Hdone; auto.
      intros [Hl1 _]. split; [exact Hl1 |].
      now apply (token_nonempty _ 0 _ _ Htok).
    + cbn [fst snd].
      destruct (postcode_reliable r1) as (p & r4 & Hp & Hnp). rewrite Hp.
      wp_run. cbn [fst snd]. apply Hdone; auto.
      * intros [Hl1 _]. split; [exact Hl1 |].
        now apply (token_nonempty _ 0 _ _ Htok).
      * now apply (token_nonempty _ 1 _ _ Htok).
    + cbn [fst snd]. apply Hdone; auto.
      * intros [Hl1 _]. split; [exact Hl1 |].
        now apply (token_nonempty _ 0 _ _ Htok).
      * now apply (token_nonempty _ 1 _ _ Htok).
      * now apply (token_nonempty _ 2 _ _ Htok).
Qed.

(** C4, amended.  With the four field generators of the provider
    returning non-empty strings, [generateAddress] never raises and
    returns a dict with exactly the keys address, city, state and
    postalCode, whatever [fake.address()] does (raise, one line, two
    lines with or without a comma).  State and postal code are always
    non-empty; address and city are non-empty whenever the formatted
    address is [decomposable]. *)
Theorem generateAddress_fields {L} (l : L) (r : R) :
  exists m,
    value (generateAddress fake l r) = Ok m
    /\ store (generateAddress fake l r) = l
    /\ dom m = address_keys
    /\ filled m "state" /\ filled m "postalCode"
    /\ ((forall full r', fake_address fake r = (Ok full, r') -> decomposable full) ->
        filled m "address" /\ filled m "city").
Proof.
  apply (wp_returns (generateAddress fake)
           (fun m l' _ => l' = l /\ address_record fake r m)).
  apply generateAddress_wp. intros m r' Hm. split; [reflexivity | exact Hm].
Qed.

End GenerateAddress.

Lemma fixed_reliable (v : string) : v <> "" -> reliable (fixed v).
Proof. intros Hv n. exists v, (S n). split; [reflexivity | exact Hv]. Qed.

Lemma fixed_nonempty (v : string) : v <> "" -> nonempty_result (fixed v).
Proof. intros Hv n w n' [= <- _]. exact Hv. Qed.

Lemma failing_nonempty (msg : string) : nonempty_result (failing msg).
Proof. intros n w n' [=]. Qed.

Lemma plain_address_decomposable :
  decomposable ("12 Main St" +:+ LF +:+ "Springfield, IL 62704").
Proof.
  unfold decomposable.
  assert (PyStr.splitlines ("12 Main St" +:+ LF +:+ "Springfield, IL 62704")
          = ["12 Main St"; "Springfield, IL 62704"]) as -> by (vm_compute; reflexivity).
  split; [discriminate |]. intros _ part0.
  assert (PyStr.split_on "," "Springfield, IL 62704" = ["Springfield"; " IL 62704"])
    as -> by (vm_compute; reflexivity).
  intros [= <-]. vm_compute. discriminate.
Qed.

Lemma generateAddress_fields_witness :
  exists m,
    value (generateAddress plain_faker tt 0%nat) = Ok m
    /\ dom m = address_keys
    /\ filled m "state" /\ filled m "postalCode"
    /\ filled m "address" /\ filled m "city".
Proof.
  destruct (generateAddress_fields plain_faker
              (fixed_reliable "7 Elm Court" ltac:(discriminate))
              (fixed_reliable "Dover" ltac:(discriminate))
              (fixed_reliable "DE" ltac:(discriminate))
              (fixed_reliable "19901" ltac:(discriminate)) tt 0%nat)
    as (m & Hrun & _ & Hdom & Hstate & Hpostal & Hrest).
  destruct Hrest as [Haddress Hcity].
  { intros full r' Hcall. injection Hcall as <- _.
    exact plain_address_decomposable. }
  exists m. repeat split; assumption.
Defined.

(** C4 as stated fails when the formatted address opens with an empty
    line: the first line is copied to the address field as it is. *)
Lemma generateAddress_empty_field_counterexample :
  ~ (forall fake : Faker nat,
        reliable (fake_street_address fake) -> reliable (fake_city fake) ->
        reliable (fake_state_abbr fake) -> reliable (fake_postcode fake) ->
        forall r, exists m,
          value (generateAddress fake tt r) = Ok m
          /\ dom m = address_keys
          /\ forall key, key ∈ address_keys -> filled m key).
Proof.
  intros H.
  destruct (H (toy_faker (fixed (LF +:+ "Springfield IL 62704")) (fixed "John"))
              (fixed_reliable "7 Elm Court" ltac:(discriminate))
              (fixed_reliable "Dover" ltac:(discriminate))
              (fixed_reliable "DE" ltac:(discriminate))
              (fixed_reliable "19901" ltac:(discriminate)) 0%nat)
    as (m & Hrun & _ & Hfilled).
  destruct (Hfilled "address") as (v & Hv & Hne).
  - unfold address_keys. set_solver.
  - assert (match value (generateAddress
                           (toy_faker (fixed (LF +:+ "Springfield IL 62704"))
                              (fixed "John")) tt 0%nat) with
            | Ok m' => m' !! "address"
            | Raise _ => None
            end = Some "") as Hempty by (vm_compute; reflexivity).
    rewrite Hrun, Hv in Hempty. injection Hempty as ->. now apply Hne.
Qed.

(** ** Name generation: the claim *)

Section GenerateNameClaim.
Context {R : Type} (fake : Faker R).

(** C7.  With [first_name] and [last_name] returning non-empty strings,
    and the two gendered methods returning non-empty strings when they
    return, [generateName] never raises for any hint ([None], a
    recognised word in any case, or any other string) and returns a dict
    with exactly the keys firstName and lastName, both non-empty; the
    last name is a draw of [fake.last_name()] for every hint, and a hint
    that is neither male nor female runs exactly as no hint. *)
Theorem generateName_total {L} (gender : option string) (l : L) (r : R) :
  reliable (fake_first_name fake) ->
  reliable (fake_last_name fake) ->
  nonempty_result (fake_first_name_male fake) ->
  nonempty_result (fake_first_name_female fake) ->
  (exists m,
      value (generateName fake gender l r) = Ok m
      /\ store (generateName fake gender l r) = l
      /\ name_record fake gender m)
  /\ (forall g,
        gender = Some g ->
        PyStr.lower g <> "male" -> PyStr.lower g <> "female" ->
        generateName fake gender l r = generateName fake None l r).
Proof.
  intros Hfirst Hlast Hmale Hfemale. split.
  - apply (wp_returns (generateName fake gender)
             (fun m l' _ => l' = l /\ name_record fake gender m)).
    apply generateName_wp; auto.
  - intros g -> Hm Hf. unfold generateName.
    apply String.eqb_neq in Hm, Hf. now rewrite Hm, Hf.
Qed.

End GenerateNameClaim.

Lemma generateName_total_witness :
  exists m,
    value (generateName (toy_faker (fixed "1 A St") (failing "no male names"))
             (Some "Male") tt 0%nat) = Ok m
    /\ name_record (toy_faker (fixed "1 A St") (failing "no male names"))
         (Some "Male") m.
Proof.
  destruct (generateName_total
              (toy_faker (fixed "1 A St") (failing "no male names"))
              (Some "Male") tt 0%nat
              (fixed_reliable "Alex" ltac:(discriminate))
              (fixed_reliable "Smith" ltac:(discriminate))
              (failing_nonempty "no male names")
              (fixed_nonempty "Maria" ltac:(discriminate)))
    as [(m & Hrun & _ & Hrec) _].
  exists m. split; assumption.
Defined.


(** ** Contact generation *)

Section GenerateContact.
Context {R : Type} (fake : Faker R).
Hypothesis user_name_reliable : reliable (fake_user_name fake).
Hypothesis domain_name_reliable : reliable (fake_domain_name fake).
Hypothesis numerify_reliable : reliable (fake_numerify fake "###-###-####").

Lemma generateContact_wp {L} Q E (l : L) (r : R) :
  (forall m r', dom m = contact_keys -> Q m l r') ->
  wp (generateContact fake) Q E l r.
Proof.
  intros HQ. unfold generateContact.
  assert (forall (d : gmap string string) r' e,
             dom d ⊆ contact_keys ->
             if any_exception e then
               wp (bind (call (fake_user_name fake)) (fun user =>
                     bind (call (fake_domain_name fake)) (fun domain =>
                       bind (setitem "email" (user +:+ "@" +:+ domain)) (fun _ =>
                         bind (call (fake_numerify fake "###-###-####"))
                           (fun v => setitem "phone" v)))))
                 (fun _ l' r'' =>
                    wp get_local (fun a dl r3 => Q a dl.2 r3)
                      (fun e dl r3 => E e dl.2 r3) l' r'')
                 (fun e dl r3 => E e dl.2 r3) (d, l) r'
             else E e l r') as Hexcept.
  { intros d r' e Hd. rewrite any_exception_true. repeat wp_step.
    destruct (user_name_reliable r') as (u & r1 & Hu & _). rewrite Hu.
    repeat wp_step.
    destruct (domain_name_reliable r1) as (dn & r2 & Hdn & _). rewrite Hdn.
    repeat wp_step.
    destruct (numerify_reliable r2) as (p & r3 & Hp & _). rewrite Hp.
    repeat wp_step. cbn [fst snd]. apply HQ.
    rewrite !dom_insert_L. unfold contact_keys in *. clear -Hd. set_solver. }
  repeat wp_step.
  destruct (fake_email fake r) as [[em | e] r1];
    [| apply Hexcept; set_solver].
  repeat wp_step. cbn [fst snd].
  destruct (fake_phone_number fake r1) as [[ph | e] r2].
  - repeat wp_step. cbn [fst snd]. apply HQ.
    rewrite !dom_insert_L. unfold contact_keys. set_solver.
  - apply Hexcept. rewrite dom_insert_L. unfold contact_keys. set_solver.
Qed.

End GenerateContact.

(** ** Masking one record *)

Lemma dict_getitem_dom (m : gmap string string) (key : string) (keys : gset string) :
  dom m = keys -> key ∈ keys -> exists v, dict_getitem m key = Ok v /\ m !! key = Some v.
Proof.
  intros Hdom Hkey. rewrite <- Hdom in Hkey. apply elem_of_dom in Hkey as [v Hv].
  exists v. unfold dict_getitem. now rewrite Hv.
Qed.

(** ** Runs that do not depend on the objects in scope *)

Section SameRun.
Context {R : Type}.

Lemma same_run_ret {L L' D A} (a : A) :
  same_run_local (@ret R (D * L) A a) (@ret R (D * L') A a).
Proof. intros d l l' r. auto. Qed.

Lemma same_run_call {L L' D} (method : R -> result string * R) :
  same_run_local (@call R (D * L) method) (@call R (D * L') method).
Proof. intros d l l' r. unfold call. destruct (method r). auto. Qed.

Lemma same_run_setitem {L L'} (key v : string) :
  same_run_local (@setitem R L key v) (@setitem R L' key v).
Proof. intros d l l' r. auto. Qed.

Lemma same_run_get_local {L L' D} :
  same_run_local (@get_local R L D) (@get_local R L' D).
Proof. intros d l l' r. auto. Qed.

Lemma same_run_bind {L L' D A B} (m : ST R (D * L) A) (m' : ST R (D * L') A)
    (k : A -> ST R (D * L) B) (k' : A -> ST R (D * L') B) :
  same_run_local m m' -> (forall a, same_run_local (k a) (k' a)) ->
  same_run_local (bind m k) (bind m' k').
Proof.
  intros Hm Hk d l l' r. unfold bind.
  destruct (Hm d l l' r) as (Hv & Hr & Hd). rewrite <- Hv.
  destruct (value (m (d, l) r)) as [a | e]; cbn [value store rng]; [| auto].
  destruct (store (m (d, l) r)) as [d1 l1], (store (m' (d, l') r)) as [d1' l1'].
  cbn [fst] in Hd. subst d1'. rewrite <- Hr. apply Hk.
Qed.

Lemma same_run_try_except {L L' D A} (body : ST R (D * L) A)
    (body' : ST R (D * L') A) (catches : exn -> bool)
    (handler : exn -> ST R (D * L) A) (handler' : exn -> ST R (D * L') A) :
  same_run_local body body' ->
  (forall e, same_run_local (handler e) (handler' e)) ->
  same_run_local (try_except body catches handler)
    (try_except body' catches handler').
Proof.
  intros Hb Hh d l l' r. unfold try_except.
  destruct (Hb d l l' r) as (Hv & Hr & Hd). rewrite <- Hv.
  destruct (value (body (d, l) r)) as [a | e] eqn:Hbody; [now rewrite Hbody |].
  destruct (catches e); cbn [value store rng]; [| now rewrite Hbody].
  destruct (store (body (d, l) r)) as [d1 l1], (store (body' (d, l') r)) as [d1' l1'].
  cbn [fst] in Hd. subst d1'. rewrite <- Hr. apply Hh.
Qed.

End SameRun.

Section NameRun.
Context {R : Type} (fake : Faker R).

(** What [generateName] returns, and the randomness state it leaves, do
    not depend on the objects in scope. *)
Lemma generateName_same_run {L L'} (gender : option string) (l : L) (l' : L')
    (r : R) :
  value (generateName fake gender l r) = value (generateName fake gender l' r)
  /\ rng (generateName fake gender l r) = rng (generateName fake gender l' r).
Proof.
  assert (same_run_local
            (D := gmap string string) (L := L) (L' := L')
            (bind
               (try_except
                  (bind
                     (match gender with
                      | None =>
                          bind (call (fake_first_name fake))
                            (fun v => setitem "firstName" v)
                      | Some g =>
                          if String.eqb (PyStr.lower g) "male" then
                            bind (call (fake_first_name_male fake))
                              (fun v => setitem "firstName" v)
                          else if String.eqb (PyStr.lower g) "female" then
                            bind (call (fake_first_name_female fake))
                              (fun v => setitem "firstName" v)
                          else
                            bind (call (fake_first_name fake))
                              (fun v => setitem "firstName" v)
                      end)
                     (fun _ => bind (call (fake_last_name fake))
                                 (fun v => setitem "lastName" v)))
                  any_exception
                  (fun _ =>
                     bind (call (fake_first_name fake)) (fun v =>
                       bind (setitem "firstName" v) (fun _ =>
                         bind (call (fake_last_name fake))
                           (fun v => setitem "lastName" v)))))
               (fun _ => get_local))
            (bind
               (try_except
                  (bind
                     (match gender with
                      | None =>
                          bind (call (fake_first_name fake))
                            (fun v => setitem "firstName" v)
                      | Some g =>
                          if String.eqb (PyStr.lower g) "male" then
                            bind (call (fake_first_name_male fake))
                              (fun v => setitem "firstName" v)
                          else if String.eqb (PyStr.lower g) "female" then
                            bind (call (fake_first_name_female fake))
                              (fun v => setitem "firstName" v)
                          else
                            bind (call (fake_first_name fake))
                              (fun v => setitem "firstName" v)
                      end)
                     (fun _ => bind (call (fake_last_name fake))
                                 (fun v => setitem "lastName" v)))
                  any_exception
                  (fun _ =>
                     bind (call (fake_first_name fake)) (fun v =>
                       bind (setitem "firstName" v) (fun _ =>
                         bind (call (fake_last_name fake))
                           (fun v => setitem "lastName" v)))))
               (fun _ => get_local))) as Hbody.
  { repeat first
      [ apply same_run_bind | apply same_run_try_except | apply same_run_call
      | apply same_run_setitem | apply same_run_get_local
      | match goal with
        | |- forall _, _ => intro
        | |- same_run_local (match ?g with Some _ => _ | None => _ end) _ =>
            destruct g
        | |- same_run_local (if ?b then _ else _) _ => destruct b
        end ]. }
  unfold generateName, with_local. cbn [value rng].
  destruct (Hbody ∅ l l' r) as (Hv & Hr & _). auto.
Qed.

End NameRun.

Section MaskRecord.
Context {R : Type} (fake : Faker R).
Context (parse : string -> result DateTime.datetime).
Hypothesis provider_dependable : dependable fake.

(** With a dependable provider [generateName] returns a name record,
    the one it returns from the same randomness state whatever the
    objects in scope. *)
Lemma generateName_wp_run {L} (gender : option string) Q E (l : L) (r : R) :
  (forall name r',
      name_record fake gender name ->
      value (generateName fake gender tt r) = Ok name -> Q name l r') ->
  wp (generateName fake gender) Q E l r.
Proof.
  intros HQ.
  destruct provider_dependable
    as (_ & Hfirst & Hlast & Hmale & Hfemale & _).
  assert (wp (generateName fake gender)
            (fun name l' _ => l' = l /\ name_record fake gender name)
            no_exception l r) as Hwp
      by (apply generateName_wp; auto).
  destruct (generateName_same_run fake gender l tt r) as [Hsame _].
  unfold wp in *.
  destruct (value (generateName fake gender l r)) as [name | e];
    [| contradiction].
  destruct Hwp as [-> Hname]. apply HQ; [exact Hname | now symmetry].
Qed.

(** A record is masked when its birth date and its gender yield a value,
    and fails with the exception of the one that does not. *)
Lemma mask_demographic_record_wp {L} (input_record : row_dict)
    (date_shift_days : Z) Q E (l : L) (r : R) :
  (forall m r' birthDate gender,
      birth_date_value parse input_record date_shift_days = Ok birthDate ->
      gender_value input_record = Ok gender ->
      masked_record fake r gender birthDate m -> Q m l r') ->
  (forall e r',
      birth_date_value parse input_record date_shift_days = Raise e
      \/ (exists birthDate,
            birth_date_value parse input_record date_shift_days = Ok birthDate
            /\ gender_value input_record = Raise e) ->
      E e l r') ->
  wp (mask_demographic_record fake parse input_record date_shift_days) Q E l r.
Proof.
  intros HQ HE.
  destruct provider_dependable
    as (Hssn & Hfirst & Hlast & Hmale & Hfemale & Hstreet & Hcity & Hstate
        & Hpost & Huser & Hdomain & Hnum).
  unfold mask_demographic_record, generateSSN. repeat wp_step.
  destruct (Hssn r) as (ssn & r1 & Hs & _). rewrite Hs.
  repeat wp_step. cbn [fst snd].
  match goal with
  | |- wp _ ?Qc ?Ec _ _ => set (Qtail := Qc); set (Efail := Ec)
  end.
  assert (forall birthDate,
             birth_date_value parse input_record date_shift_days = Ok birthDate ->
             Qtail tt (<["birthDate" := birthDate]> (<["ssn" := ssn]> ∅), l) r1)
    as Htail;
    [| assert (forall e d,
                  birth_date_value parse input_record date_shift_days = Raise e ->
                  Efail e (d, l) r1) as Hfail].
  - intros birthDate Hbd. subst Qtail. wp_step. fold (gender_value input_record).
    destruct (gender_value input_record) as [gender | e] eqn:Hgender.
    2: { wp_step. rewrite any_exception_true. repeat wp_step.
         apply HE. right. now exists birthDate. }
    repeat wp_step. cbn [fst snd].
    apply generateName_wp_run. intros name r3 Hname Hrun.
    pose proof Hname as (Hndom & first & last & Hf & _ & Hl & _).
    repeat wp_step. unfold dict_getitem at 1. rewrite Hf.
    repeat wp_step. unfold dict_getitem at 1. rewrite Hl.
    repeat wp_step. cbn [fst snd].
    apply generateAddress_wp; auto. intros address r4 (Hadom & _).
    destruct (dict_getitem_dom address "address" _ Hadom) as (a1 & Ha1 & _);
      [unfold address_keys; set_solver |].
    destruct (dict_getitem_dom address "city" _ Hadom) as (a2 & Ha2 & _);
      [unfold address_keys; set_solver |].
    destruct (dict_getitem_dom address "state" _ Hadom) as (a3 & Ha3 & _);
      [unfold address_keys; set_solver |].
    destruct (dict_getitem_dom address "postalCode" _ Hadom) as (a4 & Ha4 & _);
      [unfold address_keys; set_solver |].
    repeat wp_step. rewrite Ha1. repeat wp_step. rewrite Ha2.
    repeat wp_step. rewrite Ha3. repeat wp_step. rewrite Ha4.
    repeat wp_step. cbn [fst snd].
    apply generateContact_wp; auto. intros contact r5 Hcdom.
    destruct (dict_getitem_dom contact "phone" _ Hcdom) as (c1 & Hc1 & _);
      [unfold contact_keys; set_solver |].
    destruct (dict_getitem_dom contact "email" _ Hcdom) as (c2 & Hc2 & _);
      [unfold contact_keys; set_solver |].
    repeat wp_step. rewrite Hc1. repeat wp_step. rewrite Hc2.
    repeat wp_step. cbn [fst snd].
    apply (HQ _ _ birthDate gender Hbd eq_refl). unfold masked_record.
    split; [rewrite !dom_insert_L, dom_empty_L; unfold masked_keys; set_solver |].
    simplify_map_eq. repeat split; try reflexivity.
    exists ssn, r1, name. rewrite Hf, Hl. auto 10.
  - intros e d Hbd. subst Efail. cbn [fst snd]. rewrite any_exception_true.
    repeat wp_step. apply HE. now left.
  - clearbody Qtail Efail. revert Htail Hfail. unfold birth_date_value.
    destruct (columns input_record !! "birthDate") as [[raw |] |].
    2, 3: intros Htail _; repeat wp_step; cbn [fst snd]; now apply Htail.
    destruct (PyStr.truthy raw).
    + intros Htail Hfail. repeat wp_step.
      destruct (parse raw) as [birth_date | e].
      * repeat wp_step.
        destruct (add_days parse (PyDatetime birth_date) date_shift_days)
          as [shifted | e].
        -- repeat wp_step. cbn [fst snd]. now apply Htail.
        -- destruct (is_value_or_type_error e).
           ++ repeat wp_step. cbn [fst snd]. now apply Htail.
           ++ now apply Hfail.
      * destruct (is_value_or_type_error e).
        -- repeat wp_step. cbn [fst snd]. now apply Htail.
        -- now apply Hfail.
    + intros Htail _. repeat wp_step. cbn [fst snd]. now apply Htail.
Qed.

End MaskRecord.

Lemma toy_faker_dependable (full_address first_male : nat -> result string * nat) :
  nonempty_result first_male -> dependable (toy_faker full_address first_male).
Proof.
  intros Hmale. unfold dependable. cbn.
  repeat split; try (apply fixed_reliable; discriminate);
    try (apply fixed_nonempty; discriminate); exact Hmale.
Qed.

Section MaskRecordClaims.
Context {R : Type} (fake : Faker R).
Context (parse : string -> result DateTime.datetime).

Import DateTime.

(** The trimmed gender of a record whose gender is absent or a string. *)
Lemma gender_value_string (input_record : row_dict) :
  columns input_record !! "gender" <> Some None ->
  exists gender, gender_value input_record = Ok gender.
Proof.
  intros Hg. unfold gender_value, row_get.
  destruct (columns input_record !! "gender") as [[g |] |]; cbn; eauto.
  congruence.
Qed.

(** C2, amended.  With a dependable provider, a record whose gender is
    absent or a string is masked, and
    - a birth date that [parse] accepts, shifted to a day number within
      1..3652059, is stored as the date that [add_days] returns for it,
      a date of the calendar with the shifted day number, formatted by
      [strftime('%m-%d-%Y')];
    - a birth date that [parse] rejects with a [ValueError] or a
      [TypeError] is stored as the raw input string;
    - an absent, [None] or empty birth date is stored as the empty
      string. *)
Theorem mask_demographic_record_birth_date {L}
    (input_record : row_dict) (date_shift_days : Z) (l : L) (r : R) :
  dependable fake ->
  columns input_record !! "gender" <> Some None ->
  (forall raw D,
      columns input_record !! "birthDate" = Some (Some raw) -> raw <> "" ->
      parse raw = Ok D -> valid D ->
      1 <= toordinal D + date_shift_days <= MAXORDINAL ->
      exists m D',
        value (mask_demographic_record fake parse input_record date_shift_days l r)
        = Ok m
        /\ add_days parse (PyDatetime D) date_shift_days = Ok D'
        /\ valid D'
        /\ toordinal D' = toordinal D + date_shift_days
        /\ m !! "birthDate" = Some (strftime_mdY D'))
  /\ (forall raw e,
        columns input_record !! "birthDate" = Some (Some raw) -> raw <> "" ->
        parse raw = Raise e -> is_value_or_type_error e = true ->
        exists m,
          value (mask_demographic_record fake parse input_record date_shift_days l r)
          = Ok m
          /\ m !! "birthDate" = Some raw)
  /\ (columns input_record !! "birthDate" = None
      \/ columns input_record !! "birthDate" = Some None
      \/ columns input_record !! "birthDate" = Some (Some "") ->
      exists m,
        value (mask_demographic_record fake parse input_record date_shift_days l r)
        = Ok m
        /\ m !! "birthDate" = Some "").
Proof.
  intros Hdep Hgender.
  destruct (gender_value_string input_record Hgender) as (gender & Hg).
  assert (forall birthDate,
             birth_date_value parse input_record date_shift_days = Ok birthDate ->
             exists m,
               value (mask_demographic_record fake parse input_record
                        date_shift_days l r) = Ok m
               /\ m !! "birthDate" = Some birthDate) as Hvalue.
  { intros birthDate Hbd.
    destruct (wp_returns
                (mask_demographic_record fake parse input_record date_shift_days)
                (fun m _ _ => m !! "birthDate" = Some birthDate) l r)
      as (m & Hrun & Hm); [| now exists m].
    apply mask_demographic_record_wp; [exact Hdep | |].
    - intros m r' bd g Hbd' _ Hm. rewrite Hbd in Hbd'. injection Hbd' as <-.
      apply Hm.
    - intros e r' [He | (bd & _ & He)]; congruence. }
  split; [| split].
  - intros raw D Hraw Hne Hparse Hvalid Hrange.
    destruct (add_days_in_calendar parse D date_shift_days)
      as (D' & Hadd & Hord & Hvalid'); auto.
    destruct (Hvalue (strftime_mdY D')) as (m & Hrun & Hm).
    { unfold birth_date_value. rewrite Hraw.
      apply PyStrFacts.truthy_nonempty in Hne. now rewrite Hne, Hparse, Hadd. }
    exists m, D'. auto.
  - intros raw e Hraw Hne Hparse Hcls.
    apply (Hvalue raw). unfold birth_date_value. rewrite Hraw.
    apply PyStrFacts.truthy_nonempty in Hne. now rewrite Hne, Hparse, Hcls.
  - intros Habsent. apply (Hvalue ""). unfold birth_date_value.
    destruct Habsent as [-> | [-> | ->]]; reflexivity.
Qed.

(** C5, amended.  With a dependable provider and a birth date step that
    yields a value, a record whose gender is a string is masked and its
    output gender is the input gender with leading and trailing
    whitespace removed; the two names of the output are those that
    [generateName] returns when called, right after [fake.ssn()], with
    that trimmed value as its hint (with no hint when it is empty): a
    name record for the hint, whose last name is a draw of
    [fake.last_name()] whatever the hint. *)
Theorem mask_demographic_record_gender {L}
    (input_record : row_dict) (date_shift_days : Z) (l : L) (r : R)
    (g birthDate : string) :
  dependable fake ->
  columns input_record !! "gender" = Some (Some g) ->
  birth_date_value parse input_record date_shift_days = Ok birthDate ->
  exists m ssn r1 name,
    value (mask_demographic_record fake parse input_record date_shift_days l r)
    = Ok m
    /\ m !! "gender" = Some (PyStr.strip g)
    /\ fake_ssn fake r = (Ok ssn, r1)
    /\ value (generateName fake
                (if PyStr.truthy (PyStr.strip g) then Some (PyStr.strip g)
                 else None) l r1) = Ok name
    /\ name_record fake
         (if PyStr.truthy (PyStr.strip g) then Some (PyStr.strip g) else None)
         name
    /\ m !! "firstName" = name !! "firstName"
    /\ m !! "lastName" = name !! "lastName".
Proof.
  intros Hdep Hg Hbd.
  assert (gender_value input_record = Ok (PyStr.strip g)) as Hgender
      by (unfold gender_value, row_get; now rewrite Hg).
  destruct (wp_returns
              (mask_demographic_record fake parse input_record date_shift_days)
              (fun m _ _ => masked_record fake r (PyStr.strip g) birthDate m) l r)
    as (m & Hrun & Hm).
  - apply mask_demographic_record_wp; [exact Hdep | |].
    + intros m r' bd g' Hbd' Hg' Hm. rewrite Hbd in Hbd'. rewrite Hgender in Hg'.
      injection Hbd' as <-. now injection Hg' as <-.
    + intros e r' [He | (bd & _ & He)]; congruence.
  - destruct Hm
      as (_ & _ & Hout & ssn & r1 & name & Hssn & _ & Hname & Hrec & Hfirst & Hlast).
    unfold gender_hint in *.
    destruct (generateName_same_run fake
                (if PyStr.truthy (PyStr.strip g) then Some (PyStr.strip g)
                 else None) l tt r1) as [Hsame _].
    exists m, ssn, r1, name. rewrite Hsame. auto 10.
Qed.

End MaskRecordClaims.

Lemma mask_demographic_record_birth_date_witness :
  exists m D',
    value (mask_demographic_record plain_faker parse_mdy sample_record 10 tt 0%nat)
    = Ok m
    /\ add_days parse_mdy
         (PyDatetime (DateTime.mk_datetime 1990 1 1 0 0 0 0 None)) 10 = Ok D'
    /\ DateTime.valid D'
    /\ DateTime.toordinal D' = 726468 + 10
    /\ m !! "birthDate" = Some (DateTime.strftime_mdY D').
Proof.
  apply (proj1 (mask_demographic_record_birth_date plain_faker parse_mdy
                  sample_record 10 tt 0%nat
                  (toy_faker_dependable _ _ (fixed_nonempty "John" ltac:(discriminate)))
                  ltac:(discriminate))
           "01-01-1990" (DateTime.mk_datetime 1990 1 1 0 0 0 0 None)).
  - reflexivity.
  - discriminate.
  - reflexivity.
  - unfold DateTime.valid. vm_compute. intuition congruence.
  - vm_compute. intuition congruence.
Defined.

(** C2 as stated fails for a birth date that parses and whose shifted day
    lies beyond the calendar: the [OverflowError] of the addition is not
    among the classes the inner [except] names, and the record fails. *)
Lemma mask_birth_date_overflow_counterexample :
  ~ (forall input_record date_shift_days raw D,
        columns input_record !! "birthDate" = Some (Some raw) -> raw <> "" ->
        parse_mdy raw = Ok D ->
        exists m D',
          value (mask_demographic_record plain_faker parse_mdy input_record
                   date_shift_days tt 0%nat) = Ok m
          /\ DateTime.toordinal D' = DateTime.toordinal D + date_shift_days
          /\ m !! "birthDate" = Some (DateTime.strftime_mdY D')).
Proof.
  intros H.
  destruct (H (str_dict (<["birthDate" := "12-31-9999"]> ∅)) 10 "12-31-9999"
              last_day)
    as (m & D' & Hrun & _).
  - reflexivity.
  - discriminate.
  - reflexivity.
  - vm_compute in Hrun. discriminate.
Qed.

Lemma mask_demographic_record_gender_witness :
  exists m ssn r1 name,
    value (mask_demographic_record plain_faker parse_mdy
             (str_dict (<["gender" := " Male "]> ∅)) 10 tt 0%nat) = Ok m
    /\ m !! "gender" = Some "Male"
    /\ fake_ssn plain_faker 0%nat = (Ok ssn, r1)
    /\ value (generateName plain_faker (Some "Male") tt r1) = Ok name
    /\ name_record plain_faker (Some "Male") name
    /\ m !! "firstName" = name !! "firstName"
    /\ m !! "lastName" = name !! "lastName".
Proof.
  apply (mask_demographic_record_gender plain_faker parse_mdy
           (str_dict (<["gender" := " Male "]> ∅)) 10 tt 0%nat " Male " "").
  - apply toy_faker_dependable, fixed_nonempty. discriminate.
  - reflexivity.
  - reflexivity.
Defined.

(** C5 as stated fails for a gender written with surrounding blanks: the
    output holds the trimmed value, not the input character for
    character. *)
Lemma mask_gender_trimmed_counterexample :
  ~ (forall input_record date_shift_days g,
        columns input_record !! "gender" = Some (Some g) ->
        exists m,
          value (mask_demographic_record plain_faker parse_mdy input_record
                   date_shift_days tt 0%nat) = Ok m
          /\ m !! "gender" = Some g).
Proof.
  intros H.
  destruct (H (str_dict (<["gender" := " Male "]> ∅)) 10 " Male ")
    as (m & Hrun & Hg); [reflexivity |].
  assert (match value (mask_demographic_record plain_faker parse_mdy
                         (str_dict (<["gender" := " Male "]> ∅)) 10 tt 0%nat) with
          | Ok m' => m' !! "gender"
          | Raise _ => None
          end = Some "Male") as Htrimmed by (vm_compute; reflexivity).
  rewrite Hrun, Hg in Htrimmed. discriminate.
Qed.

(** ** What the masked record depends on *)

Section MaskedOutputDependence.
Context {R : Type} (fake : Faker R).
Context (parse : string -> result DateTime.datetime).

(** C9.  Two input records with the same birthDate and the same gender
    entry, masked from the same randomness state with the same shift,
    yield the same outcome (the same masked record, or the same
    exception), the same randomness state after, and the same log
    records at the default level: no other input field reaches the
    output. *)
Theorem mask_demographic_record_reads_two_fields {L}
    (input1 input2 : row_dict) (date_shift_days : Z) (l : L) (r : R) :
  columns input1 !! "birthDate" = columns input2 !! "birthDate" ->
  columns input1 !! "gender" = columns input2 !! "gender" ->
  let o1 := mask_demographic_record fake parse input1 date_shift_days l r in
  let o2 := mask_demographic_record fake parse input2 date_shift_days l r in
  value o1 = value o2 /\ store o1 = store o2 /\ rng o1 = rng o2
  /\ List.filter visible (logs o1) = List.filter visible (logs o2).
Proof.
  intros Hbirth Hgender. cbv zeta.
  unfold mask_demographic_record, row_get.
  rewrite Hbirth, Hgender.
  match goal with
  | |- context [try_except ?body any_exception _ l r] =>
      generalize body; intros b
  end.
  unfold try_except.
  destruct (b l r) as [[m | e] l' r' evs]; cbn [value store rng logs].
  - auto.
  - rewrite any_exception_true. cbn.
    rewrite !List.filter_app. cbn. auto.
Qed.

End MaskedOutputDependence.

Lemma mask_demographic_record_reads_two_fields_witness :
  value (mask_demographic_record plain_faker parse_mdy sample_record 10 tt 0%nat)
  = value (mask_demographic_record plain_faker parse_mdy other_record 10 tt 0%nat).
Proof.
  apply (mask_demographic_record_reads_two_fields plain_faker parse_mdy
           sample_record other_record 10 tt 0%nat); reflexivity.
Defined.

(** ** Masking a batch *)

Section MaskBatch.
Context {R : Type} (fake : Faker R).
Context (parse : string -> result DateTime.datetime).

Lemma successes_failures_length {A} (results : list (result A)) :
  (length (successes results) + failures results = length results)%nat.
Proof. induction results as [| [a | e] rest IH]; cbn; lia. Qed.

Lemma outcomes_length {L} (input_data : list row_dict)
    (date_shift_days : Z) (l : L) (r : R) :
  length (outcomes fake parse input_data date_shift_days l r) = length input_data.
Proof.
  revert l r. induction input_data as [| record rest IH]; intros l r; cbn;
    [reflexivity | now rewrite IH].
Qed.

(** The loop never raises; it appends the masked records to
    [masked_data] in order and adds the failures to [errors]. *)
Lemma mask_loop_wp {L} (input_data : list row_dict)
    (date_shift_days : Z) (i : nat) (masked_data : list (gmap string string))
    (errors : nat) (l : L) (r : R) :
  wp (mask_loop fake parse i input_data date_shift_days masked_data errors)
    (fun acc _ _ =>
       acc = (masked_data
                ++ successes (outcomes fake parse input_data date_shift_days l r),
              (errors
               + failures (outcomes fake parse input_data date_shift_days l r))%nat))
    no_exception l r.
Proof.
  revert i masked_data errors l r.
  induction input_data as [| record rest IH]; intros i masked_data errors l r.
  - cbn. now rewrite app_nil_r, Nat.add_0_r.
  - cbn [mask_loop outcomes]. do 3 wp_step.
    assert (forall (c : bool) Q E,
               Q tt l r ->
               wp (if c then log INFO (MsgProgress i) else ret tt) Q E l r)
      as Hprogress by (now intros []).
    apply Hprogress. wp_step. unfold wp at 1.
    destruct (mask_demographic_record fake parse record date_shift_days l r)
      as [[m | e] l' r' evs]; cbn [value store rng logs successes failures].
    + wp_step. cbn [fst snd].
      eapply wp_mono; [apply IH | | auto].
      intros acc _ _ ->. now rewrite <- app_assoc.
    + rewrite any_exception_true. repeat wp_step. cbn [fst snd].
      eapply wp_mono; [apply IH | | auto].
      intros acc _ _ ->. f_equal. lia.
Qed.

Lemma bind_returns {L A B} (m : ST R L A) (k : A -> ST R L B) (l : L) (r : R)
    (a : A) :
  value (m l r) = Ok a ->
  bind m k l r
  = Outcome (value (k a (store (m l r)) (rng (m l r))))
      (store (k a (store (m l r)) (rng (m l r))))
      (rng (k a (store (m l r)) (rng (m l r))))
      (logs (m l r) ++ logs (k a (store (m l r)) (rng (m l r)))).
Proof. intros H. unfold bind. now rewrite H. Qed.

(** The batch returns the records that were masked, in the order of the
    input. *)
Lemma mask_demographics_batch_value {L}
    (input_data : list row_dict) (date_shift_days : Z)
    (l : L) (r : R) :
  value (mask_demographics_batch fake parse input_data date_shift_days l r)
  = Ok (successes (outcomes fake parse input_data date_shift_days l r)).
Proof.
  destruct (wp_returns _ _ _ _
              (mask_loop_wp input_data date_shift_days 0 [] 0%nat l r))
    as ([masked_data errors] & Hrun & Hacc).
  cbn [app Nat.add] in Hacc. injection Hacc as -> ->.
  unfold mask_demographics_batch. unfold bind at 1. cbn [value store rng logs log].
  rewrite (bind_returns _ _ _ _ _ Hrun). cbn [value fst snd].
  unfold bind at 1. cbn [value store rng logs log].
  unfold bind at 1.
  now destruct (0 <? _)%nat.
Qed.

(** C1.  Whatever the input list and the shift, the batch returns, and
    returns the records for which [mask_demographic_record] returned, in
    their order and with nothing in place of the others; the output and
    the records that raised add up to the input, and the log ends with
    the number of masked records followed, when some record raised, by
    the number of skipped ones. *)
Theorem mask_demographics_batch_skips_failures {L}
    (input_data : list row_dict) (date_shift_days : Z)
    (l : L) (r : R) :
  let results := outcomes fake parse input_data date_shift_days l r in
  let o := mask_demographics_batch fake parse input_data date_shift_days l r in
  value o = Ok (successes results)
  /\ length results = length input_data
  /\ (length (successes results) + failures results = length input_data)%nat
  /\ exists evs,
      logs o
      = (INFO, MsgMaskingStart (length input_data) date_shift_days) :: evs
        ++ (INFO, MsgMaskedTotal (length (successes results)))
           :: (if (0 <? failures results)%nat
               then [(WARNING, MsgSkippedTotal (failures results))]
               else []).
Proof.
  cbv zeta.
  destruct (wp_returns _ _ _ _
              (mask_loop_wp input_data date_shift_days 0 [] 0%nat l r))
    as ([masked_data errors] & Hrun & Hacc).
  cbn [app Nat.add] in Hacc. injection Hacc as -> ->.
  split; [| split; [apply outcomes_length | split]].
  - unfold mask_demographics_batch. unfold bind at 1. cbn [value store rng logs log].
    rewrite (bind_returns _ _ _ _ _ Hrun). cbn [value fst snd].
    unfold bind at 1. cbn [value store rng logs log].
    unfold bind at 1.
    now destruct (0 <? _)%nat.
  - rewrite successes_failures_length. apply outcomes_length.
  - exists (logs (mask_loop fake parse 0 input_data date_shift_days [] 0%nat l r)).
    unfold mask_demographics_batch. unfold bind at 1. cbn [value store rng logs log].
    rewrite (bind_returns _ _ _ _ _ Hrun). cbn [value logs fst snd].
    unfold bind at 1. cbn [value store rng logs log].
    unfold bind at 1.
    destruct (0 <? _)%nat; cbn; now rewrite ?app_nil_r.
Qed.

End MaskBatch.

(** ** Loading the input table *)

Section LoadFacts.
Context {R : Type}.
Context (fs : string -> option file).

(** The loop never raises and keeps, in order, the rows with a value
    that is true. *)
Lemma load_loop_wp {L : Type} (rows data : list (gmap (option string) cell))
    (row_num : nat) (l : L) (r : R) :
  wp (load_loop row_num rows data)
    (fun out l' r' => out = data ++ List.filter any_values rows /\ l' = l /\ r' = r)
    no_exception l r.
Proof.
  revert row_num data. induction rows as [| row rest IH]; intros row_num data.
  - cbn. now rewrite app_nil_r.
  - cbn [load_loop List.filter]. wp_step.
    destruct (any_values row); repeat wp_step.
    + eapply wp_mono; [apply IH | | auto].
      intros out l' r' (-> & -> & ->). now rewrite <- app_assoc.
    + eapply wp_mono; [apply IH | | auto]. auto.
Qed.

(** X6.  The outcomes of [load_demographics_data]: the [FileNotFoundError]
    of line 114 for an absent path; otherwise the kept rows, or an
    [OSError] with the message of line 140 raised from the error below
    it, be it the error of opening the file or one of the two
    [ValueError]s of lines 122 and 133. *)
Lemma load_demographics_data_outcome {L : Type} (filename : string) (l : L) (r : R) :
  let o := @load_demographics_data R fs L filename l r in
  match fs filename with
  | None =>
      value o = Raise (Exn FileNotFoundError ("Input file not found: " +:+ filename))
  | Some (Unreadable e) =>
      value o = Raise (ExnFrom OSError ("Failed to load data from " +:+ filename) e)
  | Some (Rows []) | Some (Rows ([] :: _)) =>
      value o
      = Raise (ExnFrom OSError ("Failed to load data from " +:+ filename)
                 (Exn ValueError "CSV file appears to be empty or has no headers"))
  | Some (Rows (header :: rest)) =>
      match List.filter any_values (dict_rows header rest) with
      | [] =>
          value o
          = Raise (ExnFrom OSError ("Failed to load data from " +:+ filename)
                     (Exn ValueError "No valid data rows found in CSV file"))
      | data => value o = Ok data
      end
  end.
Proof.
  cbv zeta. unfold load_demographics_data.
  destruct (fs filename) as [[e | rows] |]; [| | reflexivity].
  - apply (wp_value _ (fun res => res = Raise _)).
    repeat wp_step. rewrite any_exception_true. repeat wp_step. reflexivity.
  - destruct rows as [| [| name names] rest].
    1, 2: apply (wp_value _ (fun res => res = Raise _));
      repeat wp_step; rewrite any_exception_true; repeat wp_step; reflexivity.
    set (header := name :: names). cbn [tail].
    assert (wp (try_except
                  (bind (lift (Ok (header :: rest))) (fun rows =>
                     bind (ret header) (fun fieldnames =>
                       bind (log INFO (MsgColumns fieldnames)) (fun _ =>
                         bind (load_loop 1 (dict_rows fieldnames rest) []) (fun data =>
                           bind (match data with
                                 | [] =>
                                     raise (Exn ValueError
                                              "No valid data rows found in CSV file")
                                 | _ :: _ => ret tt
                                 end) (fun _ =>
                             bind (log INFO (MsgLoaded (length data) filename))
                               (fun _ => ret data)))))))
                  any_exception
                  (fun e =>
                     bind (log ERROR (MsgReadError filename e)) (fun _ =>
                       raise (ExnFrom OSError
                                ("Failed to load data from " +:+ filename) e))))
              (fun data _ _ =>
                 data = List.filter any_values (dict_rows header rest)
                 /\ data <> [])
              (fun e _ _ =>
                 List.filter any_values (dict_rows header rest) = []
                 /\ e = ExnFrom OSError ("Failed to load data from " +:+ filename)
                         (Exn ValueError "No valid data rows found in CSV file"))
              l r) as Hwp.
    { repeat wp_step.
      eapply wp_mono; [apply load_loop_wp | | intros e l' r' []].
      intros data l' r' (-> & -> & ->). cbn [app].
      destruct (List.filter any_values (dict_rows header rest)) as [| row data'];
        repeat wp_step.
      - rewrite any_exception_true. repeat wp_step. now split.
      - now split. }
    unfold wp in Hwp. fold header.
    destruct (value _) as [data | e] in Hwp |- *.
    + destruct Hwp as [-> Hne].
      destruct (List.filter any_values (dict_rows header rest)); congruence.
    + destruct Hwp as [-> ->]. reflexivity.
Qed.

End LoadFacts.

(** C8 at an empty file: the [ValueError] of line 122 does not reach the
    caller; what is raised is the [OSError] of line 140, of the class and
    with the message that an unreadable file gets, and only its cause
    tells the two apart.  A missing path raises [FileNotFoundError], and a
    table with data is returned without its blank rows. *)
Theorem load_demographics_data_wraps_value_error :
  value (@load_demographics_data nat toy_fs unit "empty.csv" tt 0%nat)
  = Raise (ExnFrom OSError "Failed to load data from empty.csv"
             (Exn ValueError "CSV file appears to be empty or has no headers"))
  /\ value (@load_demographics_data nat toy_fs unit "header.csv" tt 0%nat)
     = Raise (ExnFrom OSError "Failed to load data from header.csv"
                (Exn ValueError "No valid data rows found in CSV file"))
  /\ value (@load_demographics_data nat toy_fs unit "locked.csv" tt 0%nat)
     = Raise (ExnFrom OSError "Failed to load data from locked.csv"
                (Exn OSError "Permission denied"))
  /\ value (@load_demographics_data nat toy_fs unit "missing.csv" tt 0%nat)
     = Raise (Exn FileNotFoundError "Input file not found: missing.csv")
  /\ value (@load_demographics_data nat toy_fs unit "people.csv" tt 0%nat)
     = Ok [make_row ["birthDate"; "gender"] ["01-01-1990"; "Male"];
           make_row ["birthDate"; "gender"] ["02-02-1980"; "Female"]].
Proof. repeat split; vm_compute; reflexivity. Qed.

(** ** What the generators leave alone *)

Section Stability.
Context {R : Type}.

Lemma stable_outside_ret {L D A} (a : A) : stable_outside (@ret R (D * L) A a).
Proof. intros dl r. reflexivity. Qed.

Lemma stable_outside_lift {L D A} (x : result A) :
  stable_outside (@lift R (D * L) A x).
Proof. intros dl r. reflexivity. Qed.

Lemma stable_outside_call {L D} (method : R -> result string * R) :
  stable_outside (@call R (D * L) method).
Proof. intros dl r. unfold call. now destruct (method r). Qed.

Lemma stable_outside_setitem {L} (key v : string) :
  stable_outside (@setitem R L key v).
Proof. intros dl r. reflexivity. Qed.

Lemma stable_outside_get_local {L D} : stable_outside (@get_local R L D).
Proof. intros dl r. reflexivity. Qed.

Lemma stable_outside_bind {L D A B} (m : ST R (D * L) A) (k : A -> ST R (D * L) B) :
  stable_outside m -> (forall a, stable_outside (k a)) -> stable_outside (bind m k).
Proof.
  intros Hm Hk dl r. unfold bind.
  destruct (value (m dl r)) as [a | e]; cbn [store]; [| apply Hm].
  rewrite Hk. apply Hm.
Qed.

Lemma stable_outside_try_except {L D A} (body : ST R (D * L) A)
    (catches : exn -> bool) (handler : exn -> ST R (D * L) A) :
  stable_outside body -> (forall e, stable_outside (handler e)) ->
  stable_outside (try_except body catches handler).
Proof.
  intros Hb Hh dl r. unfold try_except.
  destruct (value (body dl r)) as [a | e]; [apply Hb |].
  destruct (catches e); cbn [store]; [| apply Hb].
  rewrite Hh. apply Hb.
Qed.

Lemma stable_with_local {L D A} (init : D) (body : ST R (D * L) A) :
  stable_outside body -> stable (with_local init body).
Proof. intros Hb l r. unfold with_local. cbn [store]. apply Hb. Qed.

End Stability.

Ltac stable_step :=
  first
    [ apply stable_with_local
    | apply stable_outside_bind
    | apply stable_outside_try_except
    | apply stable_outside_call
    | apply stable_outside_lift
    | apply stable_outside_setitem
    | apply stable_outside_get_local
    | apply stable_outside_ret
    | match goal with
      | |- stable_outside (if ?b then _ else _) => destruct b
      | |- forall _, _ => intro
      end ].

Section GeneratorsStable.
Context {R : Type} (fake : Faker R).

Lemma generateSSN_stable {L} : stable (@generateSSN R fake L).
Proof. intros l r. unfold generateSSN, call. now destruct (fake_ssn fake r). Qed.

Lemma generateName_stable {L} (gender : option string) :
  stable (@generateName R fake L gender).
Proof. unfold generateName. destruct gender; repeat stable_step. Qed.

Lemma generateAddress_stable {L} : stable (@generateAddress R fake L).
Proof. unfold generateAddress, independent_fields. repeat stable_step. Qed.

Lemma generateContact_stable {L} : stable (@generateContact R fake L).
Proof. unfold generateContact. repeat stable_step. Qed.

End GeneratorsStable.

(** ** The objects a masking call touches *)

Section HeapRules.
Context {R : Type}.

Lemma wp_stable {L A} (m : ST R L A) Q E (l : L) (r : R) :
  stable m ->
  (forall a r', Q a l r') -> (forall e r', E e l r') ->
  wp m Q E l r.
Proof.
  intros Hm HQ HE. unfold wp. rewrite Hm. destruct (value (m l r)); auto.
Qed.

Lemma wp_new_object (o : pyobj) Q E (h : list pyobj) (r : R) :
  Q (length h) (h ++ [o]) r -> wp (new_object o) Q E h r.
Proof. intros H. exact H. Qed.

Lemma wp_obj_dict (ref : nat) Q E (h : list pyobj) (r : R) :
  (forall d, Q d h r) -> (forall e, E e h r) -> wp (obj_dict ref) Q E h r.
Proof.
  intros HQ HE. unfold wp, obj_dict.
  destruct (h !! ref) as [[d | items] |]; cbn; auto.
Qed.

Lemma wp_obj_view (ref : nat) Q E (h : list pyobj) (r : R) :
  (forall d, Q d h r) -> wp (obj_view ref) Q E h r.
Proof.
  intros HQ. unfold wp, obj_view.
  destruct (h !! ref) as [[d | items] |]; cbn; auto.
Qed.

Lemma wp_obj_list (ref : nat) Q E (h : list pyobj) (r : R) :
  (forall items, Q items h r) -> (forall e, E e h r) -> wp (obj_list ref) Q E h r.
Proof.
  intros HQ HE. unfold wp, obj_list.
  destruct (h !! ref) as [[d | items] |]; cbn; auto.
Qed.

(** An assignment through the reference to the newest object. *)
Lemma wp_obj_setitem_last (key : string) (v : option string) Q E
    (h : list pyobj) (d : row_dict) (r : R) :
  Q tt (h ++ [ODict (RowDict (<[key := v]> (columns d)) (surplus d))]) r ->
  wp (obj_setitem (length h) key v) Q E (h ++ [ODict d]) r.
Proof.
  intros HQ. unfold wp, obj_setitem.
  rewrite lookup_app_r by lia. rewrite Nat.sub_diag. cbn [lookup list_lookup].
  cbn [value store rng].
  rewrite insert_app_r_alt by lia. rewrite Nat.sub_diag. exact HQ.
Qed.

Lemma wp_list_append (ref x : nat) Q E (h : list pyobj) (r : R) :
  (forall items,
      h !! ref = Some (OList items) ->
      Q tt (<[ref := OList (items ++ [x])]> h) r) ->
  (forall e, E e h r) ->
  wp (list_append ref x) Q E h r.
Proof.
  intros HQ HE. unfold wp, list_append.
  destruct (h !! ref) as [[d | items] |]; cbn; auto.
Qed.

Lemma extends_refl (h : list pyobj) : extends h h.
Proof. unfold extends. reflexivity. Qed.

Lemma extends_app (h0 h k : list pyobj) : extends h0 h -> extends h0 (h ++ k).
Proof. unfold extends. intros H. now apply prefix_app_r. Qed.

Lemma extends_insert (h0 h : list pyobj) (i : nat) (o : pyobj) :
  extends h0 h -> (length h0 <= i)%nat -> extends h0 (<[i := o]> h).
Proof.
  unfold extends. intros [k ->] Hi.
  rewrite insert_app_r_alt by exact Hi. now apply prefix_app_r.
Qed.

Lemma extends_lookup (h0 h : list pyobj) (ref : nat) (o : pyobj) :
  extends h0 h -> h0 !! ref = Some o -> h !! ref = Some o.
Proof. unfold extends. intros [k ->] H. now apply lookup_app_l_Some. Qed.

Lemma extends_length (h0 h : list pyobj) :
  extends h0 h -> (length h0 <= length h)%nat.
Proof. unfold extends. apply prefix_length. Qed.

End HeapRules.

Section MaskRecordRef.
Context {R : Type} (fake : Faker R).
Context (parse : string -> result DateTime.datetime).

(** Whatever path the call takes, it allocates one dict after the
    objects it found and writes to that dict only; when it returns, it
    returns the reference to it. *)
Lemma mask_demographic_record_ref_wp (input_record : nat) (date_shift_days : Z)
    Q E (h : list pyobj) (r : R) :
  (forall m r', Q (length h) (h ++ [ODict m]) r') ->
  (forall e m r', E e (h ++ [ODict m]) r') ->
  wp (mask_demographic_record_ref fake parse input_record date_shift_days) Q E h r.
Proof.
  intros HQ HE. unfold mask_demographic_record_ref.
  wp_step. wp_step. apply wp_new_object.
  match goal with
  | |- wp _ _ ?Ec _ _ => set (Efail := Ec)
  end.
  assert (forall e m r', Efail e (h ++ [ODict m]) r') as Hfail.
  { intros e m r'. subst Efail. cbv beta. rewrite any_exception_true.
    repeat wp_step. apply wp_obj_view. intros d. repeat wp_step. apply HE. }
  clearbody Efail.
  repeat first
    [ wp_step
    | apply wp_obj_setitem_last
    | apply wp_obj_dict; [intros ? |]
    | apply wp_stable;
      [ first [ apply generateSSN_stable | apply generateName_stable
              | apply generateAddress_stable | apply generateContact_stable ]
      | intros ? ? | ]
    | apply HQ
    | solve [intros; apply Hfail]
    | match goal with
      | |- wp (if ?b then _ else _) _ _ _ _ => destruct b
      | |- match ?x with Ok _ => _ | Raise _ => _ end => destruct x
      | |- if ?b then _ else _ => destruct b
      | |- forall _, _ => intro
      end ].
Qed.

End MaskRecordRef.

Section MaskBatchRef.
Context {R : Type} (fake : Faker R).
Context (parse : string -> result DateTime.datetime).

Lemma batch_invariant_app (h0 h k : list pyobj) (masked_data : nat) :
  batch_invariant h0 masked_data h -> batch_invariant h0 masked_data (h ++ k).
Proof.
  intros (Hext & Hmd & items & Hitems & Hall).
  split; [now apply extends_app | split; [exact Hmd |]].
  exists items. split; [now apply lookup_app_l_Some | exact Hall].
Qed.

Lemma batch_invariant_append (h0 h : list pyobj) (masked_data p : nat)
    (items : list nat) :
  batch_invariant h0 masked_data h ->
  h !! masked_data = Some (OList items) ->
  (length h0 <= p)%nat ->
  batch_invariant h0 masked_data (<[masked_data := OList (items ++ [p])]> h).
Proof.
  intros (Hext & Hmd & items' & Hitems' & Hall) Hitems Hp.
  rewrite Hitems in Hitems'. injection Hitems' as <-.
  split; [now apply extends_insert | split; [exact Hmd |]].
  exists (items ++ [p]). split.
  - apply list_lookup_insert_eq. now apply lookup_lt_Some in Hitems.
  - apply Forall_app. split; [exact Hall | now constructor].
Qed.

Lemma mask_loop_ref_wp (h0 : list pyobj) (masked_data : nat)
    (items : list nat) (date_shift_days : Z) (i errors : nat)
    (h : list pyobj) (r : R) :
  batch_invariant h0 masked_data h ->
  wp (mask_loop_ref fake parse i items date_shift_days masked_data errors)
    (fun _ h' _ => batch_invariant h0 masked_data h') no_exception h r.
Proof.
  revert i errors h r.
  induction items as [| record rest IH]; intros i errors h r Hinv.
  - exact Hinv.
  - cbn [mask_loop_ref]. do 3 wp_step.
    assert (forall (c : bool) Q E,
               Q tt h r ->
               wp (if c then log INFO (MsgProgress i) else ret tt) Q E h r)
      as Hprogress by (now intros []).
    apply Hprogress. wp_step.
    apply mask_demographic_record_ref_wp.
    + intros m r'. wp_step. apply wp_list_append.
      * intros items' Hitems'. repeat wp_step. apply IH.
        apply batch_invariant_append;
          [now apply batch_invariant_app | exact Hitems' |].
        destruct Hinv as (Hext & _). now apply extends_length.
      * intros e. rewrite any_exception_true. repeat wp_step.
        apply IH. now apply batch_invariant_app.
    + intros e m r'. rewrite any_exception_true. repeat wp_step.
      apply IH. now apply batch_invariant_app.
Qed.

Lemma mask_demographics_batch_ref_wp (input_data : nat) (date_shift_days : Z)
    (h : list pyobj) (r : R) :
  wp (mask_demographics_batch_ref fake parse input_data date_shift_days)
    (fun out h' _ => out = length h /\ batch_invariant h out h')
    (fun _ h' _ => extends h h') h r.
Proof.
  unfold mask_demographics_batch_ref. wp_step.
  apply wp_obj_list; [intros items | intros e; apply extends_refl].
  repeat wp_step. apply wp_new_object. wp_step.
  assert (batch_invariant h (length h) (h ++ [OList []])) as Hinv.
  { split; [apply extends_app, extends_refl | split; [lia |]].
    exists []. split; [| constructor].
    rewrite lookup_app_r by lia. now rewrite Nat.sub_diag. }
  apply wp_obj_list; [intros items' | intros e; apply Hinv].
  wp_step.
  eapply wp_mono; [apply (mask_loop_ref_wp h (length h)), Hinv | | intros e l' r' []].
  intros errors h' r' Hinv'. cbv beta. wp_step.
  apply wp_obj_list; [intros masked | intros e; apply Hinv'].
  repeat wp_step. destruct (0 <? errors)%nat; repeat wp_step; now split.
Qed.

(** C10.  Masking a record writes to one new dict only, and masking a
    batch to new objects only: every object that existed before the
    call (the input list, each input record, anything else) is found
    after it under the same reference with the same content, on every
    path, and the list returned and the records in it are objects
    allocated by the call. *)
Theorem masking_leaves_input_unchanged :
  (forall input_record date_shift_days (h : list pyobj) (r : R),
      let o :=
        mask_demographic_record_ref fake parse input_record date_shift_days h r in
      (exists m, store o = h ++ [ODict m])
      /\ (forall ref, value o = Ok ref -> ref = length h))
  /\ (forall input_data date_shift_days (h : list pyobj) (r : R),
        let o :=
          mask_demographics_batch_ref fake parse input_data date_shift_days h r in
        (forall ref obj, h !! ref = Some obj -> store o !! ref = Some obj)
        /\ (forall out,
              value o = Ok out ->
              out = length h
              /\ exists items,
                  store o !! out = Some (OList items)
                  /\ Forall (fun p => (length h <= p)%nat) items)).
Proof.
  split.
  - intros input_record date_shift_days h r. cbv zeta.
    pose proof (mask_demographic_record_ref_wp fake parse input_record date_shift_days
                  (fun ref h' _ => ref = length h /\ exists m, h' = h ++ [ODict m])
                  (fun _ h' _ => exists m, h' = h ++ [ODict m]) h r) as Hwp.
    unfold wp in Hwp.
    destruct (value (mask_demographic_record_ref fake parse input_record
                       date_shift_days h r)) as [ref | e].
    + destruct Hwp as [-> Hm]; eauto. split; [exact Hm | now intros ? [= <-]].
    + split; [apply Hwp; eauto | discriminate].
  - intros input_data date_shift_days h r. cbv zeta.
    pose proof (mask_demographics_batch_ref_wp input_data date_shift_days h r)
      as Hwp.
    unfold wp in Hwp.
    destruct (value (mask_demographics_batch_ref fake parse input_data
                       date_shift_days h r)) as [out | e].
    + destruct Hwp as (-> & Hext & _ & Hitems). split.
      * intros ref obj. now apply extends_lookup.
      * now intros ? [= <-].
    + split; [| discriminate]. intros ref obj. now apply extends_lookup.
Qed.

End MaskBatchRef.

(** ** More of the calendar: day numbers identify dates *)

Module DateTimeOrder.
Import DateTime.

Lemma days_before_year_succ (y : Z) :
  days_before_year (y + 1)
  = days_before_year y + 365 + (if is_leap y then 1 else 0).
Proof.
  unfold days_before_year, is_leap.
  replace (y + 1 - 1) with y by lia.
  destruct (Z.eqb_spec (y mod 4) 0) as [H4 | H4];
    destruct (Z.eqb_spec (y mod 100) 0) as [H100 | H100];
    destruct (Z.eqb_spec (y mod 400) 0) as [H400 | H400];
    cbn [andb orb negb]; DateTimeFacts.div_lia.
Qed.

Lemma days_before_year_mono (y y' : Z) :
  y <= y' -> days_before_year y <= days_before_year y'.
Proof. intros H. unfold days_before_year. DateTimeFacts.div_lia. Qed.

(** The day numbers of the year [y] lie after those of the years before
    it and before those of the years after it. *)
Lemma ymd2ord_within_year (y m d : Z) :
  1 <= m <= 12 -> 1 <= d <= days_in_month y m ->
  days_before_year y < ymd2ord y m d <= days_before_year (y + 1).
Proof.
  intros Hm Hd. rewrite days_before_year_succ.
  unfold ymd2ord, days_before_month, days_in_month in *.
  assert (m = 1 \/ m = 2 \/ m = 3 \/ m = 4 \/ m = 5 \/ m = 6 \/ m = 7
          \/ m = 8 \/ m = 9 \/ m = 10 \/ m = 11 \/ m = 12) as Hcases by lia.
  revert Hd.
  repeat (destruct Hcases as [-> | Hcases]); try subst m;
    destruct (is_leap y); cbn; lia.
Qed.

Lemma ymd2ord_injective (y m d y' m' d' : Z) :
  1 <= m <= 12 -> 1 <= d <= days_in_month y m ->
  1 <= m' <= 12 -> 1 <= d' <= days_in_month y' m' ->
  ymd2ord y m d = ymd2ord y' m' d' ->
  y = y' /\ m = m' /\ d = d'.
Proof.
  intros Hm Hd Hm' Hd' Heq.
  pose proof (ymd2ord_within_year y m d Hm Hd) as Hy.
  pose proof (ymd2ord_within_year y' m' d' Hm' Hd') as Hy'.
  assert (y = y') as <-.
  { destruct (Z.lt_trichotomy y y') as [Hlt | [Heq' | Hgt]]; [| exact Heq' |].
    - pose proof (days_before_year_mono (y + 1) y' ltac:(lia)). lia.
    - pose proof (days_before_year_mono (y' + 1) y ltac:(lia)). lia. }
  split; [reflexivity |].
  unfold ymd2ord, days_before_month, days_in_month in *.
  assert (m = 1 \/ m = 2 \/ m = 3 \/ m = 4 \/ m = 5 \/ m = 6 \/ m = 7
          \/ m = 8 \/ m = 9 \/ m = 10 \/ m = 11 \/ m = 12) as Hc by lia.
  assert (m' = 1 \/ m' = 2 \/ m' = 3 \/ m' = 4 \/ m' = 5 \/ m' = 6 \/ m' = 7
          \/ m' = 8 \/ m' = 9 \/ m' = 10 \/ m' = 11 \/ m' = 12) as Hc' by lia.
  revert Hd Hd' Heq. clear Hy Hy'.
  destruct (is_leap y);
    repeat (destruct Hc as [-> | Hc]); try subst m;
    repeat (destruct Hc' as [-> | Hc']); try subst m';
    cbn; lia.
Qed.

(** [ord2ymd] gives back the date whose day number it is handed. *)
Lemma ord2ymd_ymd2ord (y m d : Z) :
  1 <= y <= 9999 -> 1 <= m <= 12 -> 1 <= d <= days_in_month y m ->
  ord2ymd (ymd2ord y m d) = (y, m, d).
Proof.
  intros Hy Hm Hd.
  pose proof (DateTimeFacts.toordinal_range (mk_datetime y m d 0 0 0 0 None)
                (conj Hy (conj Hm Hd))) as Hrange.
  unfold toordinal in Hrange. cbn [year month day] in Hrange.
  pose proof (DateTimeFacts.ymd2ord_ord2ymd _ Hrange) as (Hord & _ & Hm' & Hd').
  destruct (ord2ymd (ymd2ord y m d)) as [[y' m'] d']. cbn [fst snd] in *.
  destruct (ymd2ord_injective y' m' d' y m d Hm' Hd' Hm Hd Hord) as (-> & -> & ->).
  reflexivity.
Qed.

End DateTimeOrder.

(** ** The date shifter: composition, inverse, overflow *)

Section AddDaysMore.
Context (parse : string -> result DateTime.datetime).

Import DateTime.

Lemma add_days_datetime (D : datetime) (days : Z) :
  Z.abs days <= 999999999 ->
  add_days parse (PyDatetime D) days = add D days.
Proof.
  intros H. unfold add_days, timedelta_days.
  destruct (Z.leb_spec (Z.abs days) 999999999); [reflexivity | lia].
Qed.

(** X1.  Shifting a date of the calendar by [days] and the result by
    [-days] gives the date back, whenever the first shift stays in the
    calendar; in particular a shift by zero changes nothing. *)
Theorem add_days_round_trip (D : datetime) (days : Z) :
  valid D ->
  1 <= toordinal D + days <= MAXORDINAL ->
  add_days parse (PyDatetime D) 0 = Ok D
  /\ exists D1,
      add_days parse (PyDatetime D) days = Ok D1
      /\ add_days parse (PyDatetime D1) (- days) = Ok D.
Proof.
  intros Hvalid Hrange.
  pose proof (DateTimeFacts.toordinal_range D Hvalid) as Hord.
  unfold MAXORDINAL in *.
  assert (forall D0, valid D0 -> add D0 (toordinal D - toordinal D0)
                                 = Ok (mk_datetime (year D) (month D) (day D)
                                         (hour D0) (minute D0) (second D0)
                                         (microsecond D0) (tzinfo D0))) as Hback.
  { intros D0 _. unfold add.
    replace (toordinal D0 + (toordinal D - toordinal D0)) with (toordinal D) by lia.
    destruct (Z.ltb_spec 0 (toordinal D)); [| lia].
    destruct (Z.leb_spec (toordinal D) MAXORDINAL); [| unfold MAXORDINAL in *; lia].
    cbn [andb]. unfold toordinal at 1.
    destruct Hvalid as (Hy & Hm & Hd).
    now rewrite DateTimeOrder.ord2ymd_ymd2ord. }
  split.
  - rewrite add_days_datetime by lia.
    replace 0 with (toordinal D - toordinal D) by lia.
    rewrite Hback by exact Hvalid. now destruct D.
  - destruct (DateTimeFacts.add_in_range D days Hrange)
      as (D1 & Hadd & Hord1 & Hvalid1 & Hh & Hmi & Hs & Hus & Htz).
    exists D1. rewrite !add_days_datetime by lia. split; [exact Hadd |].
    replace (- days) with (toordinal D - toordinal D1) by lia.
    rewrite Hback by exact Hvalid1.
    rewrite Hh, Hmi, Hs, Hus, Htz. now destruct D.
Qed.

(** X2.  Two shifts in a row are the shift by the sum, whenever both
    results stay in the calendar. *)
Theorem add_days_additive (D : datetime) (d1 d2 : Z) :
  valid D ->
  1 <= toordinal D + d1 <= MAXORDINAL ->
  1 <= toordinal D + d1 + d2 <= MAXORDINAL ->
  exists D1 D2,
    add_days parse (PyDatetime D) d1 = Ok D1
    /\ add_days parse (PyDatetime D1) d2 = Ok D2
    /\ add_days parse (PyDatetime D) (d1 + d2) = Ok D2.
Proof.
  intros Hvalid H1 H2.
  pose proof (DateTimeFacts.toordinal_range D Hvalid) as Hord.
  unfold MAXORDINAL in *.
  destruct (DateTimeFacts.add_in_range D d1 H1)
    as (D1 & Hadd1 & Hord1 & Hvalid1 & Hh & Hmi & Hs & Hus & Htz).
  assert (1 <= toordinal D1 + d2 <= MAXORDINAL) as H2'
    by (unfold MAXORDINAL; lia).
  destruct (DateTimeFacts.add_in_range D1 d2 H2') as (D2 & Hadd2 & _).
  exists D1, D2. rewrite !add_days_datetime by lia.
  split; [exact Hadd1 | split; [exact Hadd2 |]].
  rewrite <- Hadd2. unfold add. rewrite Hord1, Hh, Hmi, Hs, Hus, Htz.
  now rewrite Z.add_assoc.
Qed.

(** X3.  A shift that leaves the calendar (a day number outside
    1..3652059) raises [OverflowError], for a [datetime] and for a string
    that [parse] accepts alike; no date is returned. *)
Theorem add_days_overflow (v : pyvalue) (D : datetime) (days : Z) :
  v = PyDatetime D \/ (exists s, v = PyStr s /\ parse s = Ok D) ->
  ~ (1 <= toordinal D + days <= MAXORDINAL) ->
  exists e, add_days parse v days = Raise e /\ exn_cls e = OverflowError.
Proof.
  intros Hv Hrange.
  assert (add_days parse v days
          = match timedelta_days days with
            | Ok delta => add D delta
            | Raise e => Raise e
            end) as ->.
  { unfold add_days. destruct Hv as [-> | (s & -> & ->)]; reflexivity. }
  unfold timedelta_days.
  destruct (Z.abs days <=? 999999999); [| eexists; split; reflexivity].
  rewrite DateTimeFacts.add_out_of_range by exact Hrange.
  eexists. split; reflexivity.
Qed.

End AddDaysMore.

Lemma add_days_round_trip_witness :
  add_days parse_mdy (PyDatetime last_day) 0 = Ok last_day
  /\ exists D1,
      add_days parse_mdy (PyDatetime last_day) (-365) = Ok D1
      /\ add_days parse_mdy (PyDatetime D1) (- -365) = Ok last_day.
Proof.
  apply (add_days_round_trip parse_mdy last_day (-365)).
  - unfold DateTime.valid. vm_compute. intuition congruence.
  - vm_compute. intuition congruence.
Defined.

Lemma add_days_additive_witness :
  exists D1 D2,
    add_days parse_mdy (PyDatetime last_day) (-40) = Ok D1
    /\ add_days parse_mdy (PyDatetime D1) 30 = Ok D2
    /\ add_days parse_mdy (PyDatetime last_day) (-40 + 30) = Ok D2.
Proof.
  apply (add_days_additive parse_mdy last_day (-40) 30).
  - unfold DateTime.valid. vm_compute. intuition congruence.
  - vm_compute. intuition congruence.
  - vm_compute. intuition congruence.
Defined.

Lemma add_days_overflow_witness :
  exists e,
    add_days parse_mdy (PyStr "12-31-9999") 1 = Raise e
    /\ exn_cls e = OverflowError.
Proof.
  apply (add_days_overflow parse_mdy (PyStr "12-31-9999") last_day 1).
  - right. exists "12-31-9999". split; reflexivity.
  - vm_compute. intros [_ H]. now apply H.
Defined.

(** ** Masking: when a record fails, and batches that lose nothing *)

Section MaskRecordMore.
Context {R : Type} (fake : Faker R).
Context (parse : string -> result DateTime.datetime).

Lemma birth_date_value_raises (input_record : row_dict)
    (date_shift_days : Z) (e : exn) :
  birth_date_value parse input_record date_shift_days = Raise e ->
  is_value_or_type_error e = false
  /\ exists raw,
      columns input_record !! "birthDate" = Some (Some raw) /\ raw <> ""
      /\ (parse raw = Raise e
          \/ exists D,
              parse raw = Ok D
              /\ add_days parse (PyDatetime D) date_shift_days = Raise e).
Proof.
  unfold birth_date_value.
  destruct (columns input_record !! "birthDate") as [[raw |] |] eqn:Hraw;
    [| discriminate | discriminate].
  destruct (PyStr.truthy raw) eqn:Htruthy; [| discriminate].
  assert (raw <> "") as Hne by now apply PyStrFacts.truthy_nonempty.
  destruct (parse raw) as [D | e'] eqn:Hparse.
  - destruct (add_days parse (PyDatetime D) date_shift_days) as [D' | e'']
      eqn:Hadd; [discriminate |].
    destruct (is_value_or_type_error e'') eqn:Hcls; [discriminate |].
    intros [= <-]. split; [exact Hcls |]. exists raw. eauto 10.
  - destruct (is_value_or_type_error e') eqn:Hcls; [discriminate |].
    intros [= <-]. split; [exact Hcls |]. exists raw. eauto 10.
Qed.

Lemma birth_date_safe_value (input_record : row_dict)
    (date_shift_days : Z) :
  birth_date_safe parse date_shift_days input_record ->
  exists birthDate,
    birth_date_value parse input_record date_shift_days = Ok birthDate.
Proof.
  intros Hsafe.
  destruct (birth_date_value parse input_record date_shift_days) as [bd | e]
    eqn:Hvalue; [eauto |].
  destruct (birth_date_value_raises _ _ _ Hvalue)
    as (Hcls & raw & Hraw & Hne & Hfail).
  destruct (Hsafe raw Hraw Hne) as [(e' & Hparse & Hcls') | (D & Hparse & Hvalid & Hrange)].
  - destruct Hfail as [Hp | (D & Hp & _)]; congruence.
  - destruct Hfail as [Hp | (D' & Hp & Hadd)]; [congruence |].
    assert (D' = D) as -> by congruence.
    destruct (add_days_in_calendar parse D date_shift_days)
      as (D1 & Hok & _); auto. congruence.
Qed.

Lemma gender_value_raises (input_record : row_dict) (e : exn) :
  gender_value input_record = Raise e ->
  columns input_record !! "gender" = Some None
  /\ e = Exn AttributeError "'NoneType' object has no attribute 'strip'".
Proof.
  unfold gender_value, row_get.
  destruct (columns input_record !! "gender") as [[g |] |]; cbn;
    [discriminate | | discriminate].
  intros [= <-]. auto.
Qed.

(** X4.  With a dependable provider a record is either masked, into a
    dict with exactly the eleven columns of the masked schema, or fails
    in one of two ways.  It fails through its birth date, with the
    exception that [parse] or the shift raised on a present, non-empty
    birth date, which is neither a [ValueError] nor a [TypeError]; or it
    fails through a gender that is [None], as in a row too short for
    the column, with the [AttributeError] of [.strip()].  The objects
    in scope are left as they were in every case. *)
Theorem mask_demographic_record_outcome {L}
    (input_record : row_dict) (date_shift_days : Z) (l : L) (r : R) :
  dependable fake ->
  let o := mask_demographic_record fake parse input_record date_shift_days l r in
  store o = l
  /\ match value o with
     | Ok m => dom m = masked_keys
     | Raise e =>
         (is_value_or_type_error e = false
          /\ exists raw,
              columns input_record !! "birthDate" = Some (Some raw) /\ raw <> ""
              /\ (parse raw = Raise e
                  \/ exists D,
                      parse raw = Ok D
                      /\ add_days parse (PyDatetime D) date_shift_days = Raise e))
         \/ (columns input_record !! "gender" = Some None
             /\ e = Exn AttributeError "'NoneType' object has no attribute 'strip'")
     end.
Proof.
  intros Hdep. cbv zeta.
  pose proof (mask_demographic_record_wp fake parse Hdep input_record
                date_shift_days
                (fun m l' _ => l' = l /\ dom m = masked_keys)
                (fun e l' _ =>
                   l' = l
                   /\ (birth_date_value parse input_record date_shift_days = Raise e
                       \/ gender_value input_record = Raise e))
                l r) as Hwp.
  unfold wp in Hwp.
  destruct (value (mask_demographic_record fake parse input_record
                     date_shift_days l r)) as [m | e].
  - apply Hwp.
    + intros m' r' bd g _ _ Hm. split; [reflexivity | apply Hm].
    + intros e r' [He | (bd & _ & He)]; auto.
  - destruct Hwp as [Hl Hvalue].
    + intros m' r' bd g _ _ Hm. split; [reflexivity | apply Hm].
    + intros e' r' [He | (bd & _ & He)]; auto.
    + split; [exact Hl |]. destruct Hvalue as [Hbd | Hg].
      * left. now apply birth_date_value_raises.
      * right. now apply gender_value_raises.
Qed.

(** X5.  With a dependable provider, birth dates that are all safe
    (absent, [None], empty, rejected by [parse] with a [ValueError] or a
    [TypeError], or shifted within the calendar) and genders that are
    all absent or strings, a batch loses no record: the output has as
    many records as the input, the i-th output record belongs to the
    i-th input record (it carries that record's trimmed gender) and
    every output record has exactly the masked columns. *)
Theorem mask_demographics_batch_keeps_all {L}
    (input_data : list row_dict) (date_shift_days : Z)
    (l : L) (r : R) :
  dependable fake ->
  Forall (birth_date_safe parse date_shift_days) input_data ->
  Forall (fun input_record => columns input_record !! "gender" <> Some None)
    input_data ->
  exists masked_data,
    value (mask_demographics_batch fake parse input_data date_shift_days l r)
    = Ok masked_data
    /\ length masked_data = length input_data
    /\ Forall2
         (fun input_record m =>
            dom m = masked_keys
            /\ exists gender,
                gender_value input_record = Ok gender
                /\ m !! "gender" = Some gender)
         input_data masked_data.
Proof.
  intros Hdep Hsafe Hgenders.
  pose proof (mask_demographics_batch_value fake parse input_data
                date_shift_days l r) as Hrun.
  rewrite Hrun. eexists. split; [reflexivity |].
  assert (Forall2
            (fun input_record m =>
               dom m = masked_keys
               /\ exists gender,
                   gender_value input_record = Ok gender
                   /\ m !! "gender" = Some gender)
            input_data
            (successes (outcomes fake parse input_data date_shift_days l r)))
    as Hall.
  { clear Hrun. revert l r Hgenders.
    induction Hsafe as [| record rest Hrecord _ IH]; intros l r Hgenders;
      cbn [outcomes].
    - constructor.
    - apply Forall_cons in Hgenders as [Hgender Hgenders].
      destruct (birth_date_safe_value _ _ Hrecord) as (bd & Hbd).
      destruct (gender_value_string _ Hgender) as (g & Hg).
      destruct (wp_returns
                  (mask_demographic_record fake parse record date_shift_days)
                  (fun m _ _ => masked_record fake r g bd m) l r)
        as (m & Hm & Hrec).
      { apply mask_demographic_record_wp; [exact Hdep | |].
        - intros m r' bd' g' Hbd' Hg' Hm. rewrite Hbd in Hbd'. rewrite Hg in Hg'.
          injection Hbd' as <-. now injection Hg' as <-.
        - intros e r' [He | (bd' & _ & He)]; congruence. }
      rewrite Hm. cbn [successes]. constructor; [| now apply IH].
      destruct Hrec as (Hdom & _ & Hgen & _). split; [exact Hdom |]. now exists g. }
  split; [| exact Hall]. symmetry. now apply Forall2_length in Hall.
Qed.

End MaskRecordMore.

Lemma mask_demographic_record_outcome_witness :
  match value (mask_demographic_record plain_faker parse_mdy short_row 10 tt 0%nat)
  with
  | Ok m => dom m = masked_keys
  | Raise e =>
      (is_value_or_type_error e = false
       /\ exists raw,
           columns short_row !! "birthDate" = Some (Some raw) /\ raw <> ""
           /\ (parse_mdy raw = Raise e
               \/ exists D,
                   parse_mdy raw = Ok D
                   /\ add_days parse_mdy (PyDatetime D) 10 = Raise e))
      \/ (columns short_row !! "gender" = Some None
          /\ e = Exn AttributeError "'NoneType' object has no attribute 'strip'")
  end.
Proof.
  apply (mask_demographic_record_outcome plain_faker parse_mdy short_row 10
           tt 0%nat).
  apply toy_faker_dependable, fixed_nonempty. discriminate.
Defined.

Lemma mask_demographics_batch_keeps_all_witness :
  exists masked_data,
    value (mask_demographics_batch plain_faker parse_mdy
             [sample_record;
              str_dict (<["birthDate" := "not a date"]> (<["gender" := "F"]> ∅))]
             10 tt 0%nat) = Ok masked_data
    /\ length masked_data = 2%nat.
Proof.
  destruct (mask_demographics_batch_keeps_all plain_faker parse_mdy
              [sample_record;
               str_dict (<["birthDate" := "not a date"]> (<["gender" := "F"]> ∅))]
              10 tt 0%nat) as (masked_data & Hrun & Hlen & _).
  - apply toy_faker_dependable, fixed_nonempty. discriminate.
  - constructor; [| constructor; [| constructor]].
    + intros raw Hraw _. right.
      exists (DateTime.mk_datetime 1990 1 1 0 0 0 0 None).
      assert (raw = "01-01-1990") as -> by (vm_compute in Hraw; congruence).
      split; [reflexivity |]. unfold DateTime.valid. vm_compute.
      intuition congruence.
    + intros raw Hraw _. left.
      assert (raw = "not a date") as -> by (vm_compute in Hraw; congruence).
      eexists. split; reflexivity.
  - constructor; [| constructor; [| constructor]]; vm_compute; discriminate.
  - exists masked_data. split; assumption.
Defined.

(** ** The generators on their paths *)

Lemma wp_outcome {R L A} (m : ST R L A) (P : result A -> L -> R -> Prop) l r :
  wp m (fun a l' r' => P (Ok a) l' r') (fun e l' r' => P (Raise e) l' r') l r ->
  P (value (m l r)) (store (m l r)) (rng (m l r)).
Proof. unfold wp. destruct (value (m l r)); auto. Qed.

(** Symbolic execution along a path given by equations on provider
    calls. *)
Ltac wp_path :=
  repeat first
    [ wp_step
    | rewrite any_exception_true
    | match goal with
      | H : ?method ?r = (_, _) |- context [?method ?r] => rewrite H
      end ];
  cbn [fst snd].

Section GeneratorPaths.
Context {R : Type} (fake : Faker R).

(** X7.  When [fake.email()] and [fake.phone_number()] return,
    [generateContact] returns exactly these two values under email and
    phone and draws nothing else.  When either of them raises, both
    fields come from the fallback: the email is user name, [@] and domain
    name, the phone is the numerified pattern, and an email that had been
    drawn before the phone number failed is discarded. *)
Theorem generateContact_paths {L} (l : L) (r : R) :
  (forall e p r1 r2,
      fake_email fake r = (Ok e, r1) ->
      fake_phone_number fake r1 = (Ok p, r2) ->
      value (generateContact fake l r) = Ok (<["phone" := p]> {["email" := e]})
      /\ rng (generateContact fake l r) = r2)
  /\ (forall x r1 u dn p r2 r3 r4,
        fake_email fake r = (Raise x, r1)
        \/ (exists e r0,
              fake_email fake r = (Ok e, r0)
              /\ fake_phone_number fake r0 = (Raise x, r1)) ->
        fake_user_name fake r1 = (Ok u, r2) ->
        fake_domain_name fake r2 = (Ok dn, r3) ->
        fake_numerify fake "###-###-####" r3 = (Ok p, r4) ->
        value (generateContact fake l r)
        = Ok (<["phone" := p]> {["email" := u +:+ "@" +:+ dn]})
        /\ rng (generateContact fake l r) = r4).
Proof.
  split.
  - intros e p r1 r2 He Hp.
    apply (wp_outcome (generateContact fake)
             (fun res _ r' => res = Ok (<["phone" := p]> {["email" := e]})
                              /\ r' = r2)).
    unfold generateContact. wp_path. now rewrite insert_empty.
  - intros x r1 u dn p r2 r3 r4 Hfail Hu Hdn Hp.
    apply (wp_outcome (generateContact fake)
             (fun res _ r' =>
                res = Ok (<["phone" := p]> {["email" := u +:+ "@" +:+ dn]})
                /\ r' = r4)).
    unfold generateContact.
    destruct Hfail as [He | (e & r0 & He & Hph)]; wp_path.
    + now rewrite insert_empty.
    + rewrite insert_insert_eq. now rewrite insert_empty.
Qed.

(** X8.  When the first-name method that the hint selects and
    [fake.last_name()] return, [generateName] returns exactly these two
    names.  When either raises, both names are drawn again and the first
    name comes from [fake.first_name()]: after a failure the name is no
    longer conditioned on the hint. *)
Theorem generateName_paths {L} (gender : option string) (l : L) (r : R) :
  (forall v w r1 r2,
      first_name_for fake gender r = (Ok v, r1) ->
      fake_last_name fake r1 = (Ok w, r2) ->
      value (generateName fake gender l r)
      = Ok (<["lastName" := w]> {["firstName" := v]})
      /\ rng (generateName fake gender l r) = r2)
  /\ (forall x r1 v w r2 r3,
        first_name_for fake gender r = (Raise x, r1)
        \/ (exists v0 r0,
              first_name_for fake gender r = (Ok v0, r0)
              /\ fake_last_name fake r0 = (Raise x, r1)) ->
        fake_first_name fake r1 = (Ok v, r2) ->
        fake_last_name fake r2 = (Ok w, r3) ->
        value (generateName fake gender l r)
        = Ok (<["lastName" := w]> {["firstName" := v]})
        /\ rng (generateName fake gender l r) = r3).
Proof.
  assert (generateName fake gender
          = with_local (∅ : gmap string string)
              (bind
                 (try_except
                    (bind
                       (bind (call (first_name_for fake gender))
                          (fun v => setitem "firstName" v))
                       (fun _ => bind (call (fake_last_name fake))
                                   (fun v => setitem "lastName" v)))
                    any_exception
                    (fun _ =>
                       bind (call (fake_first_name fake)) (fun v =>
                         bind (setitem "firstName" v) (fun _ =>
                           bind (call (fake_last_name fake))
                             (fun v => setitem "lastName" v)))))
                 (fun _ => get_local)) :> ST R L _) as ->.
  { unfold generateName, first_name_for. destruct gender as [g |]; [| reflexivity].
    destruct (String.eqb (PyStr.lower g) "male"); [reflexivity |].
    now destruct (String.eqb (PyStr.lower g) "female"). }
  split.
  - intros v w r1 r2 Hv Hw.
    match goal with
    | |- value (?m l r) = _ /\ _ =>
        apply (wp_outcome m
                 (fun res _ r' =>
                    res = Ok (<["lastName" := w]> {["firstName" := v]}) /\ r' = r2))
    end.
    wp_path. now rewrite insert_empty.
  - intros x r1 v w r2 r3 Hfail Hv Hw.
    match goal with
    | |- value (?m l r) = _ /\ _ =>
        apply (wp_outcome m
                 (fun res _ r' =>
                    res = Ok (<["lastName" := w]> {["firstName" := v]}) /\ r' = r3))
    end.
    destruct Hfail as [Hf | (v0 & r0 & Hf & Hl)]; wp_path.
    + now rewrite insert_empty.
    + rewrite insert_insert_eq. now rewrite insert_empty.
Qed.

End GeneratorPaths.

Lemma generateContact_paths_witness :
  value (generateContact plain_faker tt 0%nat)
  = Ok (<["phone" := "555-0100"]> {["email" := "alex@example.org"]})
  /\ rng (generateContact plain_faker tt 0%nat) = 2%nat.
Proof.
  apply (proj1 (generateContact_paths plain_faker tt 0%nat)
           "alex@example.org" "555-0100" 1%nat 2%nat); reflexivity.
Defined.

Lemma generateName_paths_witness :
  value (generateName (toy_faker (fixed "1 A St") (failing "no male names"))
           (Some "Male") tt 0%nat)
  = Ok (<["lastName" := "Smith"]> {["firstName" := "Alex"]})
  /\ rng (generateName (toy_faker (fixed "1 A St") (failing "no male names"))
            (Some "Male") tt 0%nat) = 3%nat.
Proof.
  apply (proj2 (generateName_paths
                  (toy_faker (fixed "1 A St") (failing "no male names"))
                  (Some "Male") tt 0%nat)
           (Exn Exception "no male names") 1%nat "Alex" "Smith" 2%nat 3%nat).
  - left. reflexivity.
  - reflexivity.
  - reflexivity.
Defined.

(** [s.split(c)] has two parts or more exactly when [c] occurs in [s]. *)
Lemma split_on_go_contains (c : ascii) (s cur : string) :
  if PyStr.contains c s
  then exists a b rest, PyStr.split_on_go c cur s = a :: b :: rest
  else exists a, PyStr.split_on_go c cur s = [a].
Proof.
  revert cur. induction s as [| c' s IH]; intros cur; cbn.
  - eauto.
  - destruct (decide (c' = c)) as [-> | Hne].
    + specialize (IH ""). destruct (PyStr.contains c s).
      * destruct IH as (a & b & rest & ->). eauto.
      * destruct IH as (a & ->). eauto.
    + apply IH.
Qed.

Section AddressPaths.
Context {R : Type} (fake : Faker R).

(** X9.  On a formatted address of two lines or more, nothing but
    [fake.address()] is drawn when the second line is complete: with a
    comma and two tokens after it, the fields are line 1, the trimmed
    text before the comma and the first two tokens after it; without a
    comma and with three tokens, the fields are line 1 and the first
    three tokens.  Further lines, parts and tokens are ignored. *)
Theorem generateAddress_decomposes {L} (l : L) (r r1 : R)
    (full line1 line2 : string) (rest : list string) :
  fake_address fake r = (Ok full, r1) ->
  PyStr.splitlines full = line1 :: line2 :: rest ->
  (forall part0 part1 parts state zip more,
      PyStr.split_on "," line2 = part0 :: part1 :: parts ->
      PyStr.split (PyStr.strip part1) = state :: zip :: more ->
      value (generateAddress fake l r)
      = Ok (<["postalCode" := zip]> (<["state" := state]>
              (<["city" := PyStr.strip part0]> {["address" := line1]})))
      /\ rng (generateAddress fake l r) = r1)
  /\ (forall city state zip more,
        PyStr.contains "," line2 = false ->
        PyStr.split line2 = city :: state :: zip :: more ->
        value (generateAddress fake l r)
        = Ok (<["postalCode" := zip]> (<["state" := state]>
                (<["city" := city]> {["address" := line1]})))
        /\ rng (generateAddress fake l r) = r1).
Proof.
  intros Hfull Hlines. split.
  - intros part0 part1 parts state zip more Hsplit Htokens.
    assert (PyStr.contains "," line2 = true) as Hcomma.
    { pose proof (split_on_go_contains "," line2 "") as H.
      destruct (PyStr.contains "," line2); [reflexivity |].
      destruct H as (a & Ha). unfold PyStr.split_on in Hsplit. congruence. }
    apply (wp_outcome (generateAddress fake)
             (fun res _ r' =>
                res = Ok (<["postalCode" := zip]> (<["state" := state]>
                            (<["city" := PyStr.strip part0]> {["address" := line1]})))
                /\ r' = r1)).
    unfold generateAddress. wp_path. rewrite Hlines.
    cbn [length Nat.ltb Nat.leb list_getitem lookup list_lookup]. wp_path.
    rewrite Hcomma. wp_path. rewrite Hsplit.
    cbn [list_getitem lookup list_lookup]. wp_path. rewrite Htokens.
    cbn [length Nat.ltb Nat.leb list_getitem lookup list_lookup]. wp_path.
    now rewrite insert_empty.
  - intros city state zip more Hcomma Htokens.
    apply (wp_outcome (generateAddress fake)
             (fun res _ r' =>
                res = Ok (<["postalCode" := zip]> (<["state" := state]>
                            (<["city" := city]> {["address" := line1]})))
                /\ r' = r1)).
    unfold generateAddress. wp_path. rewrite Hlines.
    cbn [length Nat.ltb Nat.leb list_getitem lookup list_lookup]. wp_path.
    rewrite Hcomma. rewrite Htokens.
    cbn [length Nat.ltb Nat.leb list_getitem lookup list_lookup]. wp_path.
    now rewrite insert_empty.
Qed.

End AddressPaths.

Lemma generateAddress_decomposes_witness :
  value (generateAddress plain_faker tt 0%nat)
  = Ok (<["postalCode" := "62704"]> (<["state" := "IL"]>
          (<["city" := PyStr.strip "Springfield"]> {["address" := "12 Main St"]})))
  /\ rng (generateAddress plain_faker tt 0%nat) = 1%nat.
Proof.
  apply (proj1 (generateAddress_decomposes plain_faker tt 0%nat 1%nat
                  ("12 Main St" +:+ LF +:+ "Springfield, IL 62704")
                  "12 Main St" "Springfield, IL 62704" []
                  eq_refl ltac:(vm_compute; reflexivity))
           "Springfield" " IL 62704" [] "IL" "62704" []);
    vm_compute; reflexivity.
Defined.

(** ** Identifiers *)

Lemma hex_char_upper (c : ascii) :
  is_hex c = true -> c <> "-"%char /\ is_upper_hex (upper_char c) = true.
Proof.
  destruct c as [[] [] [] [] [] [] [] []]; vm_compute; intros H;
    split; congruence.
Qed.

Lemma upper_hex_char_fixed (c : ascii) :
  is_upper_hex c = true -> upper_char c = c.
Proof.
  destruct c as [[] [] [] [] [] [] [] []]; vm_compute; congruence.
Qed.

Lemma upper_remove_hex (u : string) :
  all_chars (fun c => is_hex c || bool_decide (c = "-"%char)) u = true ->
  all_chars is_upper_hex (upper (remove_char "-" u)) = true
  /\ (String.length (upper (remove_char "-" u)) + count_char "-" u
      = String.length u)%nat.
Proof.
  induction u as [| c u IH]; cbn [all_chars remove_char upper count_char String.length].
  - auto.
  - intros H. apply andb_prop in H as [Hc Hu]. destruct (IH Hu) as [Hall Hlen].
    destruct (decide (c = "-"%char)) as [-> | Hne].
    + split; [exact Hall | cbn; lia].
    + rewrite bool_decide_eq_false_2 in Hc by exact Hne. rewrite orb_false_r in Hc.
      destruct (hex_char_upper c Hc) as [_ Hup].
      cbn [upper all_chars String.length]. rewrite Hup. split; [exact Hall | cbn; lia].
Qed.

Section Uuid.
Context {R : Type} (ids : FakerIds R).

(** X10.  When [fake.uuid4()] returns a string of hexadecimal digits and
    hyphens, [generate_uuid] returns it without the hyphens and in upper
    case: every character is one of 0-9 and A-F and the length is that of
    the input less its hyphens, 32 for the 36 characters of a UUID with
    its four hyphens. *)
Theorem generate_uuid_hex {L} (l : L) (r r1 : R) (u : string) :
  fake_uuid4 ids r = (Ok u, r1) ->
  all_chars (fun c => is_hex c || bool_decide (c = "-"%char)) u = true ->
  exists v,
    value (generate_uuid ids l r) = Ok v
    /\ all_chars is_upper_hex v = true
    /\ PyStr.contains "-" v = false
    /\ (String.length v + count_char "-" u = String.length u)%nat
    /\ upper v = v.
Proof.
  intros Hcall Hshape. exists (upper (remove_char "-" u)).
  destruct (upper_remove_hex u Hshape) as [Hall Hlen].
  split; [| split; [exact Hall | split; [| split; [exact Hlen |]]]].
  - unfold generate_uuid, bind, call, ret. rewrite Hcall. reflexivity.
  - clear Hlen. induction (upper (remove_char "-" u)) as [| c v IH]; cbn in *;
      [reflexivity |].
    apply andb_prop in Hall as [Hc Hv].
    destruct (decide (c = "-"%char)) as [-> | _]; [discriminate | now apply IH].
  - clear Hlen. induction (upper (remove_char "-" u)) as [| c v IH]; cbn in *;
      [reflexivity |].
    apply andb_prop in Hall as [Hc Hv].
    now rewrite (upper_hex_char_fixed c Hc), IH.
Qed.

End Uuid.

Lemma generate_uuid_hex_witness :
  exists v,
    value (generate_uuid plain_ids tt 0%nat) = Ok v
    /\ all_chars is_upper_hex v = true
    /\ (String.length v + 4 = 36)%nat.
Proof.
  destruct (generate_uuid_hex plain_ids tt 0%nat 1%nat
              "3f2b8c1e-9d4a-4e6f-8a7b-0c1d2e3f4a5b" eq_refl eq_refl)
    as (v & Hrun & Hall & _ & Hlen & _).
  exists v. repeat split; assumption.
Defined.

(** ** Generated records *)

Lemma wp_update {R L} (other : gmap string string) Q E
    (l : gmap string string * L) (r : R) :
  Q tt (other ∪ fst l, snd l) r -> wp (update other) Q E l r.
Proof. intros H. exact H. Qed.

Section GeneratedRecords.
Context {R : Type} (fake : Faker R) (ids : FakerIds R).
Hypothesis provider_dependable : dependable fake.
Hypothesis credit_card_reliable : reliable (fake_credit_card_number ids).

Lemma generator_generateDemographics_wp {L} Q E (l : L) (r : R) :
  (forall m r', dom m = generated_keys -> Q m l r') ->
  wp (DemographicsGenerator.generateDemographics fake ids) Q E l r.
Proof.
  intros HQ.
  destruct provider_dependable
    as (Hssn & Hfirst & Hlast & Hmale & Hfemale & Hstreet & Hcity & Hstate
        & Hpost & Huser & Hdomain & Hnum).
  unfold DemographicsGenerator.generateDemographics, generateSSN,
    generateCreditCardNumber.
  repeat wp_step.
  destruct (Hssn r) as (ssn & r1 & Hs & _). rewrite Hs. repeat wp_step.
  destruct (credit_card_reliable r1) as (cc & r2 & Hc & _). rewrite Hc.
  repeat wp_step. cbn [fst snd].
  apply generateName_wp; auto. intros name r3 (Hndom & first & last & Hf & _ & Hl & _).
  repeat wp_step. unfold dict_getitem at 1. rewrite Hf.
  repeat wp_step. unfold dict_getitem at 1. rewrite Hl.
  repeat wp_step. cbn [fst snd].
  apply generateAddress_wp; auto. intros address r4 (Hadom & _).
  destruct (dict_getitem_dom address "address" _ Hadom) as (a1 & Ha1 & _);
    [unfold address_keys; set_solver |].
  destruct (dict_getitem_dom address "city" _ Hadom) as (a2 & Ha2 & _);
    [unfold address_keys; set_solver |].
  destruct (dict_getitem_dom address "state" _ Hadom) as (a3 & Ha3 & _);
    [unfold address_keys; set_solver |].
  destruct (dict_getitem_dom address "postalCode" _ Hadom) as (a4 & Ha4 & _);
    [unfold address_keys; set_solver |].
  repeat wp_step. rewrite Ha1. repeat wp_step. rewrite Ha2.
  repeat wp_step. rewrite Ha3. repeat wp_step. rewrite Ha4.
  repeat wp_step. cbn [fst snd].
  apply generateContact_wp; auto. intros contact r5 Hcdom.
  destruct (dict_getitem_dom contact "phone" _ Hcdom) as (c1 & Hc1 & _);
    [unfold contact_keys; set_solver |].
  destruct (dict_getitem_dom contact "email" _ Hcdom) as (c2 & Hc2 & _);
    [unfold contact_keys; set_solver |].
  repeat wp_step. rewrite Hc1. repeat wp_step. rewrite Hc2.
  repeat wp_step. cbn [fst snd]. apply HQ.
  rewrite !dom_insert_L, dom_empty_L. unfold generated_keys. set_solver.
Qed.

End GeneratedRecords.

Section GeneratedBatches.
Context {R : Type} (fake : Faker R) (ids : FakerIds R).

(** X11.  With a dependable provider whose two identifier methods return,
    the legacy [generateDemographics] never raises and returns a dict
    with exactly the eleven keys firstName, lastName, address, city,
    state, postalCode, email, phone, ssn, creditCard and uuid. *)
Theorem generateDemographics_columns {L} (l : L) (r : R) :
  dependable fake ->
  reliable (fake_credit_card_number ids) ->
  reliable (fake_uuid4 ids) ->
  exists m,
    value (generateDemographics fake ids l r) = Ok m
    /\ store (generateDemographics fake ids l r) = l
    /\ dom m = legacy_keys.
Proof.
  intros Hdep Hcc Huuid.
  destruct Hdep
    as (Hssn & Hfirst & Hlast & Hmale & Hfemale & Hstreet & Hcity & Hstate
        & Hpost & Huser & Hdomain & Hnum).
  apply (wp_returns (generateDemographics fake ids)
           (fun m l' _ => l' = l /\ dom m = legacy_keys)).
  unfold generateDemographics, generateSSN, generateCreditCardNumber, generate_uuid.
  repeat wp_step. cbn [fst snd].
  apply generateName_wp; auto. intros name r1 (Hndom & _).
  wp_step. apply wp_update. repeat wp_step. cbn [fst snd].
  apply generateAddress_wp; auto. intros address r2 (Hadom & _).
  wp_step. apply wp_update. repeat wp_step. cbn [fst snd].
  apply generateContact_wp; auto. intros contact r3 Hcdom.
  wp_step. apply wp_update. repeat wp_step. cbn [fst snd].
  destruct (Hssn r3) as (ssn & r4 & Hs & _). rewrite Hs. repeat wp_step.
  destruct (Hcc r4) as (cc & r5 & Hc & _). rewrite Hc. repeat wp_step.
  destruct (Huuid r5) as (u & r6 & Hu & _). rewrite Hu. repeat wp_step.
  cbn [fst snd]. split; [reflexivity |].
  rewrite !dom_insert_L, !dom_union_L, dom_empty_L, Hndom, Hadom, Hcdom.
  unfold legacy_keys, address_keys, contact_keys. set_solver.
Qed.

(** X12.  An argument that is not a positive integer makes
    [generate_batch] raise [ValueError] before anything else happens: no
    value is drawn from the provider and nothing is logged. *)
Theorem generate_batch_rejects {L} (records : pyvalue) (l : L) (r : R) :
  (forall n, records = PyInt n -> n <= 0) ->
  DemographicsGenerator.generate_batch fake ids records l r
  = Outcome (Raise (Exn ValueError "Records must be a positive integer")) l r [].
Proof.
  intros Hbad. unfold DemographicsGenerator.generate_batch.
  destruct records as [dt | s | y m d | n |]; try reflexivity.
  destruct (Z.leb_spec n 0) as [_ | Hpos]; [reflexivity |].
  specialize (Hbad n eq_refl). lia.
Qed.

Lemma generate_loop_wp {L} (remaining i : nat) (batch : list (gmap string string))
    (l : L) (r : R) :
  wp (DemographicsGenerator.generate_loop fake ids i remaining batch)
    (fun out _ _ =>
       first_failure (generated_outcomes fake ids remaining l r) = None
       /\ out = batch ++ successes (generated_outcomes fake ids remaining l r))
    (fun e _ _ =>
       first_failure (generated_outcomes fake ids remaining l r) = Some e)
    l r.
Proof.
  revert i batch l r.
  induction remaining as [| remaining IH]; intros i batch l r.
  - cbn. now rewrite app_nil_r.
  - cbn [DemographicsGenerator.generate_loop generated_outcomes]. wp_step.
    assert (forall (c : bool) Q E,
               Q tt l r ->
               wp (if c then log INFO (MsgGeneratedProgress i) else ret tt) Q E l r)
      as Hprogress by (now intros []).
    apply Hprogress. wp_step. unfold wp at 1.
    destruct (DemographicsGenerator.generateDemographics fake ids l r)
      as [[m | e] l' r' evs]; cbn [value store rng logs successes first_failure];
      [| reflexivity].
    eapply wp_mono; [apply IH | | auto].
    intros out _ _ [Hnone ->]. split; [exact Hnone | now rewrite <- app_assoc].
Qed.

(** X13.  For a positive count, [generate_batch] returns the records in
    the order generated when every record is generated, and otherwise
    raises the exception of the first record that fails: unlike the
    masking batch, it skips nothing and returns no partial list. *)
Theorem generate_batch_all_or_nothing {L} (n : Z) (l : L) (r : R) :
  0 < n ->
  let results := generated_outcomes fake ids (Z.to_nat n) l r in
  value (DemographicsGenerator.generate_batch fake ids (PyInt n) l r)
  = match first_failure results with
    | Some e => Raise e
    | None => Ok (successes results)
    end.
Proof.
  intros Hn. cbv zeta. unfold DemographicsGenerator.generate_batch.
  destruct (Z.leb_spec n 0) as [Hle | _]; [lia |].
  apply (wp_value _
           (fun res =>
              res = match first_failure
                            (generated_outcomes fake ids (Z.to_nat n) l r) with
                    | Some e => Raise e
                    | None =>
                        Ok (successes (generated_outcomes fake ids (Z.to_nat n) l r))
                    end)).
  repeat wp_step.
  eapply wp_mono; [apply generate_loop_wp | |].
  - intros out l' r' [-> ->]. repeat wp_step. reflexivity.
  - intros e l' r' ->. reflexivity.
Qed.

(** X14.  With a dependable provider whose credit card method returns,
    [generate_batch] with a positive count returns exactly that many
    records, each with exactly the ten columns of the generated schema. *)
Theorem generate_batch_count {L} (n : Z) (l : L) (r : R) :
  0 < n ->
  dependable fake ->
  reliable (fake_credit_card_number ids) ->
  exists batch,
    value (DemographicsGenerator.generate_batch fake ids (PyInt n) l r) = Ok batch
    /\ Z.of_nat (length batch) = n
    /\ Forall (fun m => dom m = generated_keys) batch.
Proof.
  intros Hn Hdep Hcc.
  assert (forall k (l0 : L) (r0 : R),
             first_failure (generated_outcomes fake ids k l0 r0) = None
             /\ length (successes (generated_outcomes fake ids k l0 r0)) = k
             /\ Forall (fun m => dom m = generated_keys)
                  (successes (generated_outcomes fake ids k l0 r0))) as Hall.
  { induction k as [| k IH]; intros l0 r0; cbn [generated_outcomes].
    - repeat split. constructor.
    - destruct (wp_returns
                  (DemographicsGenerator.generateDemographics fake ids)
                  (fun m _ _ => dom m = generated_keys) l0 r0) as (m & Hm & Hdom).
      { apply generator_generateDemographics_wp; auto. }
      rewrite Hm. cbn [first_failure successes length].
      destruct (IH (store (DemographicsGenerator.generateDemographics fake ids l0 r0))
                  (rng (DemographicsGenerator.generateDemographics fake ids l0 r0)))
        as (Hnone & Hlen & Hdoms).
      split; [exact Hnone | split; [now rewrite Hlen | now constructor]]. }
  destruct (Hall (Z.to_nat n) l r) as (Hnone & Hlen & Hdoms).
  destruct (wp_returns
              (DemographicsGenerator.generate_batch fake ids (PyInt n))
              (fun batch _ _ =>
                 batch = successes (generated_outcomes fake ids (Z.to_nat n) l r))
              l r) as (batch & Hrun & ->).
  { unfold DemographicsGenerator.generate_batch.
    destruct (Z.leb_spec n 0) as [Hle | _]; [lia |].
    repeat wp_step.
    eapply wp_mono; [apply generate_loop_wp | |].
    - intros out l' r' [_ ->]. repeat wp_step. reflexivity.
    - intros e l' r' Hfail. congruence. }
  eexists. split; [exact Hrun | split; [| exact Hdoms]]. rewrite Hlen. lia.
Qed.

End GeneratedBatches.

Lemma plain_ids_reliable :
  reliable (fake_credit_card_number plain_ids) /\ reliable (fake_uuid4 plain_ids).
Proof. split; apply fixed_reliable; discriminate. Qed.

Lemma generateDemographics_columns_witness :
  exists m,
    value (generateDemographics plain_faker plain_ids tt 0%nat) = Ok m
    /\ dom m = legacy_keys.
Proof.
  destruct (generateDemographics_columns plain_faker plain_ids tt 0%nat)
    as (m & Hrun & _ & Hdom).
  - apply toy_faker_dependable, fixed_nonempty. discriminate.
  - apply plain_ids_reliable.
  - apply plain_ids_reliable.
  - exists m. split; assumption.
Defined.

Lemma generate_batch_rejects_witness :
  DemographicsGenerator.generate_batch plain_faker plain_ids (PyInt (-3)) tt 0%nat
  = Outcome (Raise (Exn ValueError "Records must be a positive integer")) tt 0%nat [].
Proof.
  apply (generate_batch_rejects plain_faker plain_ids (PyInt (-3)) tt 0%nat).
  intros n [= <-]. lia.
Defined.

Lemma generate_batch_all_or_nothing_witness :
  value (DemographicsGenerator.generate_batch
           (toy_faker (fixed "1 A St") (fixed "John"))
           {| fake_uuid4 := fixed "0"; fake_credit_card_number := failing "no cards" |}
           (PyInt 3) tt 0%nat)
  = Raise (Exn Exception "no cards").
Proof.
  rewrite (generate_batch_all_or_nothing
             (toy_faker (fixed "1 A St") (fixed "John"))
             {| fake_uuid4 := fixed "0"; fake_credit_card_number := failing "no cards" |}
             3 tt 0%nat) by lia.
  reflexivity.
Defined.

Lemma generate_batch_count_witness :
  exists batch,
    value (DemographicsGenerator.generate_batch plain_faker plain_ids (PyInt 5)
             tt 0%nat) = Ok batch
    /\ Z.of_nat (length batch) = 5.
Proof.
  destruct (generate_batch_count plain_faker plain_ids 5 tt 0%nat)
    as (batch & Hrun & Hlen & _).
  - lia.
  - apply toy_faker_dependable, fixed_nonempty. discriminate.
  - apply plain_ids_reliable.
  - exists batch. split; assumption.
Defined.
(** ** Writing tables *)

Lemma header_lookup (fieldnames : list string) (key : string) :
  key ∈ fieldnames ->
  (list_to_map (zip fieldnames fieldnames) : gmap string string) !! key = Some key.
Proof.
  induction fieldnames as [| k rest IH]; intros Hin.
  - now apply elem_of_nil in Hin.
  - cbn. destruct (decide (key = k)) as [-> | Hne].
    + now rewrite lookup_insert_eq.
    + rewrite lookup_insert_ne by congruence. apply IH.
      apply elem_of_cons in Hin. now destruct Hin.
Qed.

Lemma header_dom (fieldnames : list string) :
  dom (list_to_map (zip fieldnames fieldnames) : gmap string string)
  = list_to_set fieldnames.
Proof.
  induction fieldnames as [| k rest IH]; cbn.
  - apply dom_empty_L.
  - now rewrite dom_insert_L, IH.
Qed.

Lemma dict_to_list_fits (text : gset string -> string) (fieldnames : list string)
    (rowdict : gmap string string) :
  fits fieldnames rowdict ->
  dict_to_list text fieldnames rowdict = Ok (row_of fieldnames rowdict).
Proof.
  unfold fits, dict_to_list. intros Hfits. cbv zeta.
  now rewrite decide_True by set_solver.
Qed.

Lemma dict_to_list_surplus (text : gset string -> string)
    (fieldnames : list string) (rowdict : gmap string string) :
  ~ fits fieldnames rowdict ->
  dict_to_list text fieldnames rowdict
  = Raise (Exn ValueError
             ("dict contains fields not in fieldnames: "
              +:+ text (dom rowdict ∖ list_to_set fieldnames))).
Proof.
  unfold fits, dict_to_list. intros Hfits. cbv zeta.
  rewrite decide_False; [reflexivity |].
  intros Hempty. apply Hfits. intros key Hkey.
  destruct (decide (key ∈ (list_to_set fieldnames : gset string))) as [| Hout];
    [assumption |].
  assert (key ∈ dom rowdict ∖ list_to_set fieldnames) as Hin by set_solver.
  rewrite Hempty in Hin. set_solver.
Qed.

Lemma header_row (text : gset string -> string) (fieldnames : list string) :
  dict_to_list text fieldnames (list_to_map (zip fieldnames fieldnames))
  = Ok fieldnames.
Proof.
  rewrite dict_to_list_fits by (unfold fits; now rewrite header_dom).
  f_equal. unfold row_of.
  assert (forall keys : list string,
             (forall key, key ∈ keys -> key ∈ fieldnames) ->
             (fun key =>
                dict_get (list_to_map (zip fieldnames fieldnames)) key "") <$> keys
             = keys) as Hkeys.
  { induction keys as [| k rest IH]; intros Hsub; [reflexivity |].
    cbn. unfold dict_get at 1. rewrite header_lookup by (apply Hsub; left).
    f_equal. apply IH. intros key Hkey. apply Hsub. now right. }
  now apply Hkeys.
Qed.

Section SaveFacts.
Context {R : Type}.
Context (mkdir_parents open_for_writing : string -> result unit).
Context (text : gset string -> string).

Lemma wp_truncate (path : string) Q E (l : disk) (r : R) :
  Q tt (<[path := []]> l) r -> wp (truncate path) Q E l r.
Proof. intros H. exact H. Qed.

Lemma wp_writerow (path : string) (row : list string) Q E (l : disk) (r : R) :
  Q tt (<[path := default [] (l !! path) ++ [row]]> l) r ->
  wp (writerow path row) Q E l r.
Proof. intros H. exact H. Qed.

(** Records that fit are written in order, after what the file holds. *)
Lemma writerows_fits_wp (path : string) (fieldnames : list string)
    (data : list (gmap string string)) (cur : list (list string))
    (l : disk) (r : R) :
  l !! path = Some cur ->
  Forall (fits fieldnames) data ->
  wp (writerows text path fieldnames data)
    (fun _ l' r' =>
       l' = <[path := cur ++ (row_of fieldnames <$> data)]> l /\ r' = r)
    no_exception l r.
Proof.
  intros Hcur Hfits. revert cur l Hcur.
  induction Hfits as [| rowdict rest Hrow _ IH]; intros cur l Hcur.
  - cbn [writerows fmap list_fmap]. apply wp_ret.
    rewrite app_nil_r, insert_id by exact Hcur. auto.
  - cbn [writerows fmap list_fmap]. wp_step.
    rewrite (dict_to_list_fits _ _ _ Hrow). wp_step. wp_step.
    apply wp_writerow. rewrite Hcur. cbn [default].
    eapply wp_mono; [apply (IH (cur ++ [row_of fieldnames rowdict])) | | auto].
    + now rewrite lookup_insert_eq.
    + intros _ l' r' [-> ->]. split; [| reflexivity].
      rewrite insert_insert_eq. now rewrite <- app_assoc.
Qed.

(** The first record with a surplus key stops the writer; the rows of
    the records before it have been written. *)
Lemma writerows_surplus_wp (path : string) (fieldnames : list string)
    (good : list (gmap string string)) (bad : gmap string string)
    (rest : list (gmap string string)) (cur : list (list string))
    (l : disk) (r : R) :
  l !! path = Some cur ->
  Forall (fits fieldnames) good ->
  ~ fits fieldnames bad ->
  wp (writerows text path fieldnames (good ++ bad :: rest))
    (fun _ _ _ => False)
    (fun e l' r' =>
       e = Exn ValueError
             ("dict contains fields not in fieldnames: "
              +:+ text (dom bad ∖ list_to_set fieldnames))
       /\ l' = <[path := cur ++ (row_of fieldnames <$> good)]> l /\ r' = r)
    l r.
Proof.
  intros Hcur Hfits Hbad. revert cur l Hcur.
  induction Hfits as [| rowdict good Hrow _ IH]; intros cur l Hcur.
  - cbn [app writerows fmap list_fmap]. wp_step.
    rewrite (dict_to_list_surplus _ _ _ Hbad). wp_step.
    rewrite app_nil_r, insert_id by exact Hcur. auto.
  - cbn [app writerows fmap list_fmap]. wp_step.
    rewrite (dict_to_list_fits _ _ _ Hrow). wp_step. wp_step.
    apply wp_writerow. rewrite Hcur. cbn [default].
    eapply wp_mono; [apply (IH (cur ++ [row_of fieldnames rowdict])) | auto |].
    + now rewrite lookup_insert_eq.
    + intros e l' r' (-> & -> & ->). split; [reflexivity |]. split; [| reflexivity].
      rewrite insert_insert_eq. now rewrite <- app_assoc.
Qed.

End SaveFacts.

Section SaveTheorems.
Context {R : Type}.
Context (mkdir_parents open_for_writing : string -> result unit).
Context (text : gset string -> string).

(** The body of both save functions, once the directory exists and the
    file is open: the table replaces what the file held. *)
Lemma write_table_wp (filename : string) (fieldnames : list string)
    (data : list (gmap string string)) (msg : message) Q E (l : disk) (r : R) :
  Forall (fits fieldnames) data ->
  Q tt (<[filename := table fieldnames data]> l) r ->
  wp (bind (truncate filename) (fun _ =>
        bind (writeheader text filename fieldnames) (fun _ =>
          bind (writerows text filename fieldnames data) (fun _ =>
            log INFO msg))))
    Q E l r.
Proof.
  intros Hfits HQ. wp_step. apply wp_truncate. wp_step.
  unfold writeheader. wp_step. rewrite header_row. wp_step.
  apply wp_writerow. rewrite lookup_insert_eq, insert_insert_eq. cbn [default app].
  wp_step.
  eapply wp_mono;
    [apply (writerows_fits_wp text filename fieldnames data [fieldnames]);
       [now rewrite lookup_insert_eq | exact Hfits]
    | | intros e l' r' []].
  intros _ l' r' [-> ->]. wp_step. now rewrite insert_insert_eq.
Qed.

(** The same body on a list whose first record with a surplus key is
    [bad]: the header and the rows before [bad] are in the file. *)
Lemma write_table_surplus_wp (filename : string) (fieldnames : list string)
    (good : list (gmap string string)) (bad : gmap string string)
    (rest : list (gmap string string)) (msg : message) Q E (l : disk) (r : R) :
  Forall (fits fieldnames) good ->
  ~ fits fieldnames bad ->
  E (Exn ValueError
       ("dict contains fields not in fieldnames: "
        +:+ text (dom bad ∖ list_to_set fieldnames)))
    (<[filename := table fieldnames good]> l) r ->
  wp (bind (truncate filename) (fun _ =>
        bind (writeheader text filename fieldnames) (fun _ =>
          bind (writerows text filename fieldnames (good ++ bad :: rest)) (fun _ =>
            log INFO msg))))
    Q E l r.
Proof.
  intros Hfits Hbad HE. wp_step. apply wp_truncate. wp_step.
  unfold writeheader. wp_step. rewrite header_row. wp_step.
  apply wp_writerow. rewrite lookup_insert_eq, insert_insert_eq. cbn [default app].
  wp_step.
  eapply wp_mono;
    [apply (writerows_surplus_wp text filename fieldnames good bad rest
              [fieldnames]);
       [now rewrite lookup_insert_eq | exact Hfits | exact Hbad]
    | intros _ l' r' [] | ].
  intros e l' r' (-> & -> & ->). now rewrite insert_insert_eq.
Qed.

(** X15.  When the directory can be made and the file opened, a
    non-empty list of records with no key outside the eleven masked
    columns is saved: [save_masked_data] returns, and the file holds the
    header and one row for each record, in order, with the empty string
    for a column a record lacks; what the file held before is gone and
    no other file is touched. *)
Theorem save_masked_data_writes (data : list (gmap string string))
    (filename : string) (l : disk) (r : R) :
  mkdir_parents filename = Ok tt ->
  open_for_writing filename = Ok tt ->
  data <> [] ->
  Forall (fits masked_fieldnames) data ->
  let o :=
    save_masked_data mkdir_parents open_for_writing text data filename l r in
  value o = Ok tt
  /\ store o = <[filename := table masked_fieldnames data]> l
  /\ rng o = r.
Proof.
  intros Hmkdir Hopen Hne Hfits. cbv zeta.
  apply (wp_outcome _
           (fun res l' r' =>
              res = Ok tt
              /\ l' = <[filename := table masked_fieldnames data]> l /\ r' = r)).
  unfold save_masked_data. destruct data as [| record rest]; [congruence |].
  wp_step. wp_step. rewrite Hmkdir. wp_step. cbv zeta. wp_step.
  rewrite Hopen. wp_step.
  apply write_table_wp; [exact Hfits |]. auto.
Qed.

(** X16.  A record with a key outside the masked columns stops
    [save_masked_data] with an [OSError] raised from the writer's
    [ValueError], and leaves a truncated file behind: the header and
    the rows of the records before the first such record. *)
Theorem save_masked_data_partial (good : list (gmap string string))
    (bad : gmap string string) (rest : list (gmap string string))
    (filename : string) (l : disk) (r : R) :
  mkdir_parents filename = Ok tt ->
  open_for_writing filename = Ok tt ->
  Forall (fits masked_fieldnames) good ->
  ~ fits masked_fieldnames bad ->
  let o :=
    save_masked_data mkdir_parents open_for_writing text
      (good ++ bad :: rest) filename l r in
  value o
  = Raise (ExnFrom OSError ("Failed to save masked data to " +:+ filename)
             (Exn ValueError
                ("dict contains fields not in fieldnames: "
                 +:+ text (dom bad ∖ list_to_set masked_fieldnames))))
  /\ store o = <[filename := table masked_fieldnames good]> l.
Proof.
  intros Hmkdir Hopen Hfits Hbad. cbv zeta.
  apply (wp_outcome _
           (fun res l' _ =>
              res = Raise _
              /\ l' = <[filename := table masked_fieldnames good]> l)).
  unfold save_masked_data.
  destruct (good ++ bad :: rest) as [| record others] eqn:Hdata;
    [now destruct good |].
  rewrite <- Hdata. clear Hdata record others.
  wp_step. wp_step. rewrite Hmkdir. wp_step. cbv zeta. wp_step.
  rewrite Hopen. wp_step.
  apply write_table_surplus_wp; [exact Hfits | exact Hbad |].
  rewrite any_exception_true. repeat wp_step. auto.
Qed.

(** X17.  The failures of [save_masked_data] that come before the first
    write leave every file as it was: the [ValueError] for an empty
    list, raised as such and unlogged before anything is done, and the
    [OSError] raised from the error of making the directory or of
    opening the file. *)
Theorem save_masked_data_untouched (data : list (gmap string string))
    (filename : string) (l : disk) (r : R) :
  let o :=
    save_masked_data mkdir_parents open_for_writing text data filename l r in
  match data with
  | [] => o = Outcome (Raise (Exn ValueError "No data to save")) l r []
  | _ :: _ =>
      forall e,
        mkdir_parents filename = Raise e
        \/ (mkdir_parents filename = Ok tt /\ open_for_writing filename = Raise e) ->
        value o
        = Raise (ExnFrom OSError ("Failed to save masked data to " +:+ filename) e)
        /\ store o = l
  end.
Proof.
  cbv zeta. destruct data as [| record rest]; [reflexivity |].
  intros e Hfail.
  apply (wp_outcome _ (fun res l' _ => res = Raise _ /\ l' = l)).
  unfold save_masked_data. wp_step. wp_step.
  destruct Hfail as [Hmkdir | [Hmkdir Hopen]]; rewrite Hmkdir; wp_step.
  - rewrite any_exception_true. repeat wp_step. auto.
  - cbv zeta. wp_step. rewrite Hopen. wp_step.
    rewrite any_exception_true. repeat wp_step. auto.
Qed.

End SaveTheorems.

Lemma masked_keys_fieldnames : masked_keys = list_to_set masked_fieldnames.
Proof. unfold masked_keys, masked_fieldnames. cbn [list_to_set]. set_solver. Qed.

Lemma generated_keys_fieldnames : generated_keys = list_to_set generated_fieldnames.
Proof. unfold generated_keys, generated_fieldnames. cbn [list_to_set]. set_solver. Qed.

(** ** From a batch to its table *)

Section MaskedAndSaved.
Context {R : Type} (fake : Faker R).
Context (parse : string -> result DateTime.datetime).
Context (mkdir_parents open_for_writing : string -> result unit).
Context (text : gset string -> string).
Hypothesis provider_dependable : dependable fake.

(** With a dependable provider the loop leaves the objects in scope as
    they are, and every record it keeps has the masked columns. *)
Lemma mask_loop_dependable_wp {L} (input_data : list row_dict)
    (date_shift_days : Z) (i : nat) (masked_data : list (gmap string string))
    (errors : nat) (l : L) (r : R) :
  wp (mask_loop fake parse i input_data date_shift_days masked_data errors)
    (fun acc l' _ =>
       l' = l
       /\ fst acc
          = masked_data
              ++ successes (outcomes fake parse input_data date_shift_days l r)
       /\ Forall (fun m => dom m = masked_keys)
            (successes (outcomes fake parse input_data date_shift_days l r)))
    no_exception l r.
Proof.
  revert i masked_data errors l r.
  induction input_data as [| record rest IH]; intros i masked_data errors l r.
  - cbn. rewrite app_nil_r. auto.
  - cbn [mask_loop outcomes]. do 3 wp_step.
    assert (forall (c : bool) Q E,
               Q tt l r ->
               wp (if c then log INFO (MsgProgress i) else ret tt) Q E l r)
      as Hprogress by (now intros []).
    apply Hprogress. wp_step.
    pose proof (wp_outcome
                  (mask_demographic_record fake parse record date_shift_days)
                  (fun res l' _ =>
                     l' = l
                     /\ match res with
                        | Ok m => dom m = masked_keys
                        | Raise _ => True
                        end) l r) as Hrecord.
    unfold wp at 1.
    destruct (mask_demographic_record fake parse record date_shift_days l r)
      as [[m | e] l' r' evs]; cbn [value store rng logs successes] in *.
    + destruct Hrecord as [-> Hdom].
      { apply mask_demographic_record_wp; [exact provider_dependable | |].
        - intros m' r'' bd g _ _ Hm. split; [reflexivity | apply Hm].
        - auto. }
      wp_step. cbn [fst snd].
      eapply wp_mono; [apply IH | | auto].
      intros acc l'' _ (-> & -> & Hall). split; [reflexivity |].
      split; [now rewrite <- app_assoc | now constructor].
    + destruct Hrecord as [-> _].
      { apply mask_demographic_record_wp; [exact provider_dependable | |].
        - intros m' r'' bd g _ _ Hm. split; [reflexivity | apply Hm].
        - auto. }
      rewrite any_exception_true. repeat wp_step. cbn [fst snd].
      eapply wp_mono; [apply IH | | auto]. auto.
Qed.

Lemma mask_demographics_batch_dependable {L}
    (input_data : list row_dict) (date_shift_days : Z)
    (l : L) (r : R) :
  let o := mask_demographics_batch fake parse input_data date_shift_days l r in
  value o = Ok (successes (outcomes fake parse input_data date_shift_days l r))
  /\ store o = l
  /\ Forall (fun m => dom m = masked_keys)
       (successes (outcomes fake parse input_data date_shift_days l r)).
Proof.
  cbv zeta.
  apply (wp_outcome _
           (fun res l' _ =>
              res = Ok (successes
                          (outcomes fake parse input_data date_shift_days l r))
              /\ l' = l
              /\ Forall (fun m => dom m = masked_keys)
                   (successes
                      (outcomes fake parse input_data date_shift_days l r)))).
  unfold mask_demographics_batch. repeat wp_step.
  eapply wp_mono; [apply mask_loop_dependable_wp | | intros e l' r' []].
  intros [masked errors] l' r' (-> & Hacc & Hall). cbn [fst snd app] in *.
  subst masked. repeat wp_step.
  destruct (0 <? errors)%nat; repeat wp_step; auto.
Qed.

(** X18.  Masking a batch and saving the result, as [main] does, with a
    dependable provider and a directory and file that can be made and
    opened: every masked record has exactly the columns of the output
    table, so the writer never refuses one.  If at least one record
    was masked, the file holds the header and one complete row for
    each masked record; if none was (an empty input, or every record
    failed), saving raises the [ValueError] for an empty list and
    writes nothing. *)
Theorem masked_batch_saved (input_data : list row_dict)
    (date_shift_days : Z) (filename : string) (l : disk) (r : R) :
  mkdir_parents filename = Ok tt ->
  open_for_writing filename = Ok tt ->
  let masked := successes (outcomes fake parse input_data date_shift_days l r) in
  let o :=
    bind (mask_demographics_batch fake parse input_data date_shift_days)
      (fun masked_data =>
         save_masked_data mkdir_parents open_for_writing text masked_data filename)
      l r in
  Forall (fun m => dom m = list_to_set masked_fieldnames) masked
  /\ match masked with
     | [] => value o = Raise (Exn ValueError "No data to save") /\ store o = l
     | _ :: _ =>
         value o = Ok tt
         /\ store o = <[filename := table masked_fieldnames masked]> l
     end.
Proof.
  intros Hmkdir Hopen. cbv zeta.
  destruct (mask_demographics_batch_dependable input_data date_shift_days l r)
    as (Hrun & Hstore & Hall).
  rewrite masked_keys_fieldnames in Hall. split; [exact Hall |].
  rewrite (bind_returns _ _ _ _ _ Hrun), Hstore. cbn [value store].
  destruct (successes (outcomes fake parse input_data date_shift_days l r))
    as [| m masked] eqn:Hmasked; [split; reflexivity |].
  apply (wp_outcome _
           (fun res l' _ =>
              res = Ok tt
              /\ l' = <[filename := table masked_fieldnames (m :: masked)]> l)).
  unfold save_masked_data.
  wp_step. wp_step. rewrite Hmkdir. wp_step. cbv zeta. wp_step.
  rewrite Hopen. wp_step.
  apply write_table_wp; [| auto].
  eapply Forall_impl; [exact Hall |]. intros m' Hdom. unfold fits.
  now rewrite Hdom.
Qed.

End MaskedAndSaved.

Section GeneratedAndSaved.
Context {R : Type} (fake : Faker R) (ids : FakerIds R).
Context (mkdir_parents open_for_writing : string -> result unit).
Context (text : gset string -> string).
Hypothesis provider_dependable : dependable fake.
Hypothesis credit_card_reliable : reliable (fake_credit_card_number ids).

Lemma generate_loop_dependable_wp {L} (remaining i : nat)
    (batch : list (gmap string string)) (l : L) (r : R) :
  wp (DemographicsGenerator.generate_loop fake ids i remaining batch)
    (fun out l' _ =>
       exists new,
         out = batch ++ new /\ l' = l /\ length new = remaining
         /\ Forall (fun m => dom m = generated_keys) new)
    no_exception l r.
Proof.
  revert i batch l r.
  induction remaining as [| remaining IH]; intros i batch l r.
  - cbn. exists []. rewrite app_nil_r. auto.
  - cbn [DemographicsGenerator.generate_loop]. wp_step.
    assert (forall (c : bool) Q E,
               Q tt l r ->
               wp (if c then log INFO (MsgGeneratedProgress i) else ret tt) Q E l r)
      as Hprogress by (now intros []).
    apply Hprogress. wp_step.
    apply generator_generateDemographics_wp; auto.
    intros m r' Hdom.
    eapply wp_mono; [apply IH | | auto].
    intros out l' _ (new & -> & -> & Hlen & Hall). exists (m :: new).
    split; [now rewrite <- app_assoc |]. split; [reflexivity |].
    split; [cbn; now rewrite Hlen | now constructor].
Qed.

(** X19.  With a dependable provider whose credit card method returns,
    generating a positive number of records and saving them, as [main]
    does, succeeds when the directory can be made and the file opened:
    the file holds the header of the ten generated columns and one
    complete row for each of the [n] records. *)
Theorem generated_batch_saved (n : Z) (filename : string) (l : disk) (r : R) :
  0 < n ->
  mkdir_parents filename = Ok tt ->
  open_for_writing filename = Ok tt ->
  let o :=
    bind (DemographicsGenerator.generate_batch fake ids (PyInt n))
      (fun data => save_to_csv mkdir_parents open_for_writing text data filename)
      l r in
  exists batch,
    value (DemographicsGenerator.generate_batch fake ids (PyInt n) l r) = Ok batch
    /\ Z.of_nat (length batch) = n
    /\ Forall (fun m => dom m = list_to_set generated_fieldnames) batch
    /\ value o = Ok tt
    /\ store o = <[filename := table generated_fieldnames batch]> l.
Proof.
  intros Hn Hmkdir Hopen. cbv zeta.
  destruct (wp_returns
              (DemographicsGenerator.generate_batch fake ids (PyInt n))
              (fun batch l' _ =>
                 l' = l /\ length batch = Z.to_nat n
                 /\ Forall (fun m => dom m = generated_keys) batch)
              l r) as (batch & Hrun & Hstore & Hlen & Hall).
  { unfold DemographicsGenerator.generate_batch.
    destruct (Z.leb_spec n 0) as [Hle | _]; [lia |].
    repeat wp_step.
    eapply wp_mono; [apply generate_loop_dependable_wp | | auto].
    intros out l' r' (new & -> & -> & Hlen & Hall). repeat wp_step. auto. }
  rewrite generated_keys_fieldnames in Hall.
  exists batch. split; [exact Hrun |]. split; [lia |]. split; [exact Hall |].
  rewrite (bind_returns _ _ _ _ _ Hrun), Hstore. cbn [value store].
  apply (wp_outcome _
           (fun res l' _ =>
              res = Ok tt
              /\ l' = <[filename := table generated_fieldnames batch]> l)).
  unfold save_to_csv.
  destruct batch as [| m batch]; [cbn in Hlen; lia |].
  wp_step. wp_step. rewrite Hmkdir. wp_step. cbv zeta. wp_step.
  rewrite Hopen. wp_step.
  apply write_table_wp; [| auto].
  eapply Forall_impl; [exact Hall |]. intros m' Hdom. unfold fits.
  now rewrite Hdom.
Qed.

End GeneratedAndSaved.

Lemma save_masked_data_writes_witness :
  store (save_masked_data writable writable quoted_fields
           [<["ssn" := "123-45-6789"]> (<["gender" := "F"]> ∅)] "out.csv"
           (<["out.csv" := [["old"]]]> ∅) 0%nat)
  = <["out.csv" :=
        table masked_fieldnames
          [<["ssn" := "123-45-6789"]> (<["gender" := "F"]> ∅)]]>
      (<["out.csv" := [["old"]]]> ∅).
Proof.
  apply (save_masked_data_writes writable writable quoted_fields
           [<["ssn" := "123-45-6789"]> (<["gender" := "F"]> ∅)] "out.csv"
           (<["out.csv" := [["old"]]]> ∅) 0%nat).
  - reflexivity.
  - reflexivity.
  - discriminate.
  - constructor; [| constructor]. unfold fits, masked_fieldnames.
    rewrite !dom_insert_L, dom_empty_L. cbn [list_to_set]. set_solver.
Defined.

Lemma save_masked_data_partial_witness :
  store (save_masked_data writable writable quoted_fields
           ([<["ssn" := "123-45-6789"]> ∅]
              ++ <["creditCard" := "4111"]> ∅ :: [<["ssn" := "987-65-4321"]> ∅])
           "out.csv" ∅ 0%nat)
  = <["out.csv" := table masked_fieldnames [<["ssn" := "123-45-6789"]> ∅]]> ∅.
Proof.
  apply (save_masked_data_partial writable writable quoted_fields
           [<["ssn" := "123-45-6789"]> ∅] (<["creditCard" := "4111"]> ∅)
           [<["ssn" := "987-65-4321"]> ∅] "out.csv" ∅ 0%nat).
  - reflexivity.
  - reflexivity.
  - constructor; [| constructor]. unfold fits, masked_fieldnames.
    rewrite !dom_insert_L, dom_empty_L. cbn [list_to_set]. set_solver.
  - unfold fits, masked_fieldnames. rewrite !dom_insert_L, dom_empty_L.
    cbn [list_to_set]. intros Hsub.
    assert ("creditCard" ∈ ({["creditCard"]} ∪ ∅ : gset string)) as Hin
        by set_solver.
    apply Hsub in Hin. set_solver.
Defined.

Lemma save_masked_data_untouched_witness :
  value (save_masked_data read_only writable quoted_fields
           [<["ssn" := "123-45-6789"]> ∅] "out.csv" ∅ 0%nat)
  = Raise (ExnFrom OSError "Failed to save masked data to out.csv"
             (Exn OSError "[Errno 13] Permission denied: 'out.csv'"))
  /\ store (save_masked_data read_only writable quoted_fields
              [<["ssn" := "123-45-6789"]> ∅] "out.csv" ∅ 0%nat)
     = ∅.
Proof.
  apply (save_masked_data_untouched read_only writable quoted_fields
           [<["ssn" := "123-45-6789"]> ∅] "out.csv" ∅ 0%nat).
  left. reflexivity.
Defined.

Lemma masked_batch_saved_witness :
  let input_data :=
    [sample_record; short_row;
     str_dict (<["birthDate" := "12-31-9999"]> (<["gender" := "F"]> ∅))] in
  let masked :=
    successes (outcomes plain_faker parse_mdy input_data 10 (∅ : disk) 0%nat) in
  let o :=
    bind (mask_demographics_batch plain_faker parse_mdy input_data 10)
      (fun masked_data =>
         save_masked_data writable writable quoted_fields masked_data "out.csv")
      (∅ : disk) 0%nat in
  Forall (fun m => dom m = list_to_set masked_fieldnames) masked
  /\ match masked with
     | [] => value o = Raise (Exn ValueError "No data to save") /\ store o = ∅
     | _ :: _ =>
         value o = Ok tt
         /\ store o = <["out.csv" := table masked_fieldnames masked]> ∅
     end.
Proof.
  apply (masked_batch_saved plain_faker parse_mdy writable writable quoted_fields).
  - apply toy_faker_dependable, fixed_nonempty. discriminate.
  - reflexivity.
  - reflexivity.
Defined.

Lemma generated_batch_saved_witness :
  exists batch,
    value (DemographicsGenerator.generate_batch plain_faker plain_ids (PyInt 2)
             (∅ : disk) 0%nat) = Ok batch
    /\ Z.of_nat (length batch) = 2
    /\ Forall (fun m => dom m = list_to_set generated_fieldnames) batch
    /\ value (bind (DemographicsGenerator.generate_batch plain_faker plain_ids
                      (PyInt 2))
                (fun data =>
                   save_to_csv writable writable quoted_fields data "out.csv")
                (∅ : disk) 0%nat) = Ok tt
    /\ store (bind (DemographicsGenerator.generate_batch plain_faker plain_ids
                      (PyInt 2))
                (fun data =>
                   save_to_csv writable writable quoted_fields data "out.csv")
                (∅ : disk) 0%nat)
       = <["out.csv" := table generated_fieldnames batch]> ∅.
Proof.
  apply (generated_batch_saved plain_faker plain_ids writable writable
           quoted_fields).
  - apply toy_faker_dependable, fixed_nonempty. discriminate.
  - apply plain_ids_reliable.
  - lia.
  - reflexivity.
  - reflexivity.
Defined.
(** ** The generator's entry point *)

Section MainFacts.
Context {R : Type} (fake : Faker R) (ids : FakerIds R).
Context (mkdir_parents open_for_writing : string -> result unit).
Context (text : gset string -> string).
Context (start_time end_time : float).

(** X20.  With a dependable provider whose credit card method returns,
    a positive count that converts to a float, and a directory and file
    that can be made and opened, [main] always writes the table of the
    generated records.
    It then returns, unless the difference of the two clock readings
    is zero: the rate [records/elapsed] then raises
    [ZeroDivisionError], which [main] raises with the file written. *)
Theorem main_saves_then_reports (n : Z) (a : float) (output_file : string)
    (l : disk) (r : R) :
  dependable fake ->
  reliable (fake_credit_card_number ids) ->
  0 < n ->
  float_of_int n = Ok a ->
  mkdir_parents output_file = Ok tt ->
  open_for_writing output_file = Ok tt ->
  let o :=
    main fake ids mkdir_parents open_for_writing text start_time end_time
      (PyInt n) output_file l r in
  exists batch,
    value (DemographicsGenerator.generate_batch fake ids (PyInt n) l r) = Ok batch
    /\ Z.of_nat (length batch) = n
    /\ store o = <[output_file := table generated_fieldnames batch]> l
    /\ value o
       = if float_is_zero (float_sub end_time start_time)
         then Raise (Exn ZeroDivisionError "float division by zero")
         else Ok tt.
Proof.
  intros Hdep Hcc Hn Hfloat Hmkdir Hopen. cbv zeta.
  destruct (wp_returns
              (DemographicsGenerator.generate_batch fake ids (PyInt n))
              (fun batch l' _ =>
                 l' = l /\ length batch = Z.to_nat n
                 /\ Forall (fun m => dom m = generated_keys) batch)
              l r) as (batch & Hrun & Hstore & Hlen & Hall).
  { unfold DemographicsGenerator.generate_batch.
    destruct (Z.leb_spec n 0) as [Hle | _]; [lia |].
    repeat wp_step.
    eapply wp_mono; [apply generate_loop_dependable_wp; assumption | | auto].
    intros out l' r' (new & -> & -> & Hlen & Hall). repeat wp_step. auto. }
  rewrite generated_keys_fieldnames in Hall.
  exists batch. split; [exact Hrun |]. split; [lia |].
  apply (wp_outcome _
           (fun res l' _ =>
              l' = <[output_file := table generated_fieldnames batch]> l
              /\ res
                 = if float_is_zero (float_sub end_time start_time)
                   then Raise (Exn ZeroDivisionError "float division by zero")
                   else Ok tt)).
  unfold main. do 8 wp_step.
  unfold wp at 1. rewrite Hrun, Hstore.
  wp_step. unfold save_to_csv.
  destruct batch as [| m batch]; [cbn in Hlen; lia |].
  wp_step. wp_step. rewrite Hmkdir. wp_step. cbv zeta. wp_step.
  rewrite Hopen. wp_step.
  apply write_table_wp.
  { eapply Forall_impl; [exact Hall |]. intros m' Hdom. unfold fits.
    now rewrite Hdom. }
  cbv zeta. do 5 wp_step. unfold truediv. rewrite Hfloat.
  destruct (float_is_zero (float_sub end_time start_time)).
  - wp_step. rewrite any_exception_true. repeat wp_step. auto.
  - repeat wp_step. auto.
Qed.

(** X21.  An argument that is not a positive integer stops [main] at
    [generate_batch]: the [ValueError] is logged as a failed generation
    and raised unchanged, after the three opening log records; no value
    is drawn from the provider and no file is written. *)
Theorem main_rejects (records : pyvalue) (output_file : string)
    (l : disk) (r : R) :
  (forall n, records = PyInt n -> n <= 0) ->
  main fake ids mkdir_parents open_for_writing text start_time end_time
    records output_file l r
  = Outcome (Raise (Exn ValueError "Records must be a positive integer")) l r
      [(INFO, MsgGenerationStart); (INFO, MsgRecordsToGenerate records);
       (INFO, MsgOutputFile output_file);
       (ERROR,
        MsgGenerationFailed (Exn ValueError "Records must be a positive integer"))].
Proof.
  intros Hbad.
  assert (DemographicsGenerator.generate_batch fake ids records (L := disk)
          = raise (Exn ValueError "Records must be a positive integer")) as Hbatch.
  { unfold DemographicsGenerator.generate_batch.
    destruct records as [dt | s | y m d | n |]; try reflexivity.
    destruct (Z.leb_spec n 0) as [_ | Hpos]; [reflexivity |].
    specialize (Hbad n eq_refl). lia. }
  unfold main. rewrite Hbatch. reflexivity.
Qed.

End MainFacts.

Lemma main_saves_then_reports_witness :
  let one := SpecFloat.S754_finite false 4503599627370496 (-52) in
  exists batch,
    value (DemographicsGenerator.generate_batch plain_faker plain_ids (PyInt 2)
             (∅ : disk) 0%nat) = Ok batch
    /\ Z.of_nat (length batch) = 2
    /\ store (main plain_faker plain_ids writable writable quoted_fields
                one one (PyInt 2) "out.csv" ∅ 0%nat)
       = <["out.csv" := table generated_fieldnames batch]> ∅
    /\ value (main plain_faker plain_ids writable writable quoted_fields
                one one (PyInt 2) "out.csv" ∅ 0%nat)
       = if float_is_zero (float_sub one one)
         then Raise (Exn ZeroDivisionError "float division by zero")
         else Ok tt.
Proof.
  intros one.
  apply (main_saves_then_reports plain_faker plain_ids writable writable
           quoted_fields one one 2
           (SpecFloat.S754_finite false 4503599627370496 (-51))
           "out.csv" ∅ 0%nat).
  - apply toy_faker_dependable, fixed_nonempty. discriminate.
  - apply plain_ids_reliable.
  - lia.
  - reflexivity.
  - reflexivity.
  - reflexivity.
Defined.

Lemma main_rejects_witness :
  value (main plain_faker plain_ids writable writable quoted_fields
           (SpecFloat.S754_zero false) (SpecFloat.S754_zero false)
           (PyInt 0) "out.csv" ∅ 0%nat)
  = Raise (Exn ValueError "Records must be a positive integer").
Proof.
  rewrite (main_rejects plain_faker plain_ids writable writable quoted_fields
             (SpecFloat.S754_zero false) (SpecFloat.S754_zero false)
             (PyInt 0) "out.csv" ∅ 0%nat).
  - reflexivity.
  - intros n [= <-]. lia.
Defined.
